(** * Keploy agent: the test-generation tool and the chat client

    Two programs are embedded here.

    - [Worker]: [agent/src/tools/generate_unit_tests.ts], the tool that
      drafts a Go test file, runs it and regenerates it on failure.
    - [Client]: [main.go], the terminal front end whose [Update] folds the
      worker's messages into the transcript and sends chat lines to it.

    Strings are byte strings (UTF-8).  Every needle the programs look for
    is ASCII, so containment on bytes agrees with containment on UTF-16
    code units (JavaScript) and on Go's byte strings. *)

From Stdlib Require Import String Ascii List ZArith QArith Lia Bool DecimalString.
From Equations Require Import Equations.
From stdpp Require Import base option gmap strings list.
Import ListNotations.

(** ** String helpers *)

Module Str.

(** The three characters a Rocq literal cannot hold conveniently. *)
Definition dq : string := String (ascii_of_nat 34) EmptyString.
Definition nl : string := String (ascii_of_nat 10) EmptyString.
Definition bs : string := String (ascii_of_nat 92) EmptyString.

(** [hay.includes(needle)] in JavaScript, [strings.Contains(hay, needle)]
    in Go. *)
Fixpoint includes (hay needle : string) : bool :=
  String.prefix needle hay
  || match hay with
     | EmptyString => false
     | String _ rest => includes rest needle
     end.

(** [s.endsWith(suffix)]. *)
Definition endsWith (s suffix : string) : bool :=
  String.prefix (String.rev suffix) (String.rev s).

(** [s.replace(/\.go$/, '_test.go')]: the pattern is anchored at the end
    of the input, so at most the final [.go] is rewritten. *)
Definition replaceGoSuffix (s : string) : string :=
  if endsWith s ".go"
  then String.substring 0 (String.length s - 3) s +:+ "_test.go"
  else s.

(** Decimal rendering of a natural number, as a template literal renders
    an integer-valued number. *)
Definition ofNat (n : nat) : string := NilEmpty.string_of_uint (Nat.to_uint n).

(** [a || b] on a possibly undefined string: the empty string and
    [undefined] are both falsy. *)
Definition orElse (a : option string) (b : string) : string :=
  match a with
  | Some EmptyString | None => b
  | Some s => s
  end.

(** [s.substring(n)] and [s.substring(0, n)]. *)
Definition drop (n : nat) (s : string) : string :=
  String.substring n (String.length s - n) s.
Definition take (n : nat) (s : string) : string := String.substring 0 n s.

(** [l.join(sep)], and the lines of a template literal. *)
Definition lines (l : list string) : string := String.concat nl l.

(** White space stripped from either end, for ASCII white space. *)
Fixpoint trimLeftAscii (s : string) : string :=
  match s with
  | String c r => if Ascii.is_space c then trimLeftAscii r else s
  | EmptyString => s
  end.
Definition trimRightAscii (s : string) : string :=
  String.rev (trimLeftAscii (String.rev s)).

End Str.

(** ** The worker-side tool: [generate_unit_tests.ts] *)

Module Worker.

(** *** Data *)

(** A thrown JavaScript error.  The errors [child_process.exec] rejects
    with carry the captured [stdout] and [stderr]; a plain [new Error(msg)]
    has neither. *)
Record JsError := {
  message : string;
  stdout : option string;
  stderr : option string
}.

Definition Error (msg : string) : JsError :=
  {| message := msg; stdout := None; stderr := None |}.

Inductive Outcome (A : Type) : Type :=
| Ok (a : A)
| Throw (e : JsError).
Arguments Ok {A} a.
Arguments Throw {A} e.

(** What a path names on disk. *)
Inductive Node :=
| File (content : string)
| Dir.

Definition isFile (n : Node) : bool :=
  match n with File _ => true | Dir => false end.

(** The promise returned by [execAsync]: it resolves with the two captured
    streams when the command exits with status 0, and rejects on a non-zero
    exit or when the timeout kills the command. *)
Inductive ExecOutcome :=
| Resolved (out err : string)
| Rejected (e : JsError).

(** A row of [code_embeddings] as returned by the similarity query. *)
Record Row := {
  file_path : string;
  chunk_id : Z;
  content : string;
  distance : Q
}.

(** [z.enum(['testing', 'testify'])]. *)
Inductive TestFramework := testing | testify.

Definition frameworkName (tf : TestFramework) : string :=
  match tf with testing => "testing" | testify => "testify" end.

(** The objects handed to [sendMessage]. *)
Inductive WireMessage :=
| ToolCallGenerate (filePath : string) (testFramework : TestFramework)
    (coverageTarget : option Q)
| ToolCallRunCommand (command : string) (timeout : Z)
| Response (content : string) (testOutput : option string)
| ResponseOverwrite (content operation filePath fullPath : string).

Definition wireType (m : WireMessage) : string :=
  match m with
  | ToolCallGenerate _ _ _ | ToolCallRunCommand _ _ => "tool_call"
  | Response _ _ | ResponseOverwrite _ _ _ _ => "response"
  end.

(** [{success: true, attempt, output, error: null}] and
    [{success: false, attempts, finalError, output}]. *)
Inductive TestResults :=
| TestsPassed (attempt : nat) (output : string)
| TestsFailed (attempts : nat) (finalError output : string).

Definition success (r : TestResults) : bool :=
  match r with TestsPassed _ _ => true | TestsFailed _ _ _ => false end.

(** What [execute] returns: [{error, filePath}] or the full report. *)
Inductive ToolResult :=
| ToolError (error filePath : string)
| ToolReport (filePath testFilePath : string) (testFramework : TestFramework)
    (size : nat) (created : string) (testResults : TestResults).

(** *** The world the tool acts on

    Every effect of the tool is recorded, in order, in [trace]; the disk
    is a finite map from resolved paths to nodes. *)
Inductive Event :=
| EvSend (m : WireMessage)
| EvFetch (url body : string)
| EvConnect (url : string)
| EvQuery (url vector : string)
| EvEnd (url : string)
| EvGenerate (system user : string) (result : Outcome string)
| EvWrite (path content : string)
| EvExec (command cwd : string) (outcome : ExecOutcome).

Record World := {
  fs : gmap string Node;
  trace : list Event
}.

(** The same disk, with [evs] appended to the history. *)
Definition logged (w : World) (evs : list Event) : World :=
  {| fs := fs w; trace := trace w ++ evs |}.

(** Projections of a history: the outcomes of the test runs, the results
    of the calls to the generative backend, and the files written. *)
Definition execOutcomes (evs : list Event) : list ExecOutcome :=
  omap (λ ev, match ev with EvExec _ _ o => Some o | _ => None end) evs.

Definition generateResults (evs : list Event) : list (Outcome string) :=
  omap (λ ev, match ev with EvGenerate _ _ r => Some r | _ => None end) evs.

Definition writes (evs : list Event) : list (string * string) :=
  omap (λ ev, match ev with EvWrite p c => Some (p, c) | _ => None end) evs.

(** The reply of the embedding service to one [fetch]. *)
Inductive FetchOutcome :=
| FetchRejected (e : JsError)
| FetchResponse (ok : bool) (status : nat) (statusText : string)
    (json : Outcome (option (list (list Q)))).

(** The host: the Node runtime and the external collaborators.  Each
    collaborator may answer differently on every call, so it sees the
    whole world (disk and history) at the time of the call. *)
Record Host := {
  path_resolve : string → string → string;
  env_KEPLOY_EMBEDDING_SERVICE_URL : option string;
  env_KEPLOY_EMBED_DATABASE_URL : option string;
  fetch : World → string → string → FetchOutcome;
  (** [new Client({connectionString})], [client.connect()],
      [client.query(query, [vector])] and [client.end()]. *)
  pg_Client : World → string → Outcome unit;
  pg_connect : World → string → Outcome unit;
  pg_query : World → string → string → Outcome (list Row);
  pg_end : World → string → Outcome unit;
  (** The error [fs.stat], [fs.readFile] and [fs.writeFile] reject with
      for a path they cannot serve ([ENOENT], [ENOTDIR], [EACCES],
      [EISDIR], ...). *)
  fs_stat_error : World → string → JsError;
  fs_readFile_error : World → string → JsError;
  fs_writeFile_error : World → string → JsError;
  generateText : World → string → string → Outcome string;
  execAsync : World → string → string → ExecOutcome;
  toISOString : World → string;
  (** [String.prototype.trimStart] and [trimEnd]; the regular expression
      class [\s] strips the same characters. *)
  trimStart : string → string;
  trimEnd : string → string;
  (** Rendering of a number in a template literal, [toFixed(3)], and the
      [length] of a string in UTF-16 code units. *)
  numberToString : Q → string;
  toFixed3 : Q → string;
  js_length : string → nat
}.

(** *** Effects: state threaded through, exceptions caught by [tryCatch] *)

Definition M (A : Type) : Type := World → Outcome A * World.

#[global] Instance M_ret : MRet M := λ A a w, (Ok a, w).
#[global] Instance M_bind : MBind M := λ A B f c w,
  match c w with
  | (Ok a, w') => f a w'
  | (Throw e, w') => (Throw e, w')
  end.

Definition throw {A : Type} (e : JsError) : M A := λ w, (Throw e, w).

Definition tryCatch {A : Type} (body : M A) (handler : JsError → M A) : M A :=
  λ w, match body w with
       | (Ok a, w') => (Ok a, w')
       | (Throw e, w') => handler e w'
       end.

(** [try { body } finally { finalizer }]: the finalizer always runs; when
    it throws, its error replaces the outcome of the body. *)
Definition tryFinally {A : Type} (body : M A) (finalizer : M unit) : M A :=
  λ w, match body w with
       | (o, w') =>
           match finalizer w' with
           | (Ok _, w'') => (o, w'')
           | (Throw e, w'') => (Throw e, w'')
           end
       end.

Definition emit (ev : Event) : M unit :=
  λ w, (Ok tt, logged w [ev]).

Definition sendMessage (m : WireMessage) : M unit := emit (EvSend m).

(** [fs.stat], [fs.readFile] and [fs.writeFile] on the modelled disk.
    A path the disk does not hold cannot be served, nor can a directory
    be read or written as a file; the error is the host's. *)
Definition fs_stat (H : Host) (p : string) : M Node :=
  λ w, match fs w !! p with
       | Some n => (Ok n, w)
       | None => (Throw (fs_stat_error H w p), w)
       end.

Definition fs_readFile (H : Host) (p : string) : M string :=
  λ w, match fs w !! p with
       | Some (File c) => (Ok c, w)
       | _ => (Throw (fs_readFile_error H w p), w)
       end.

Definition fs_writeFile (H : Host) (p c : string) : M unit :=
  λ w, match fs w !! p with
       | Some Dir => (Throw (fs_writeFile_error H w p), w)
       | _ => (Ok tt, {| fs := <[p := File c]> (fs w); trace := trace w ++ [EvWrite p c] |})
       end.

(** *** The tool, over a fixed host and working directory *)

Section Tool.
Variable H : Host.
Variable workDir : string.

Definition trim (s : string) : string := trimStart H (trimEnd H s).

(** [generateEmbedding]: one request to the embedding service.  The
    missing-configuration error is thrown outside the [try], so it is
    not rewrapped. *)
Definition generateEmbedding (content : string) : M (list Q) :=
  match env_KEPLOY_EMBEDDING_SERVICE_URL H with
  | None | Some EmptyString =>
      throw (Error "KEPLOY_EMBEDDING_SERVICE_URL environment variable not set")
  | Some embeddingServiceUrl =>
      tryCatch
        (λ w,
           let w' := logged w [EvFetch embeddingServiceUrl content] in
           match fetch H w embeddingServiceUrl content with
           | FetchRejected e => (Throw e, w')
           | FetchResponse ok status statusText json =>
               if negb ok then
                 (Throw (Error ("Embedding service error: " +:+ Str.ofNat status
                                +:+ " " +:+ statusText)), w')
               else
                 match json with
                 | Throw e => (Throw e, w')
                 | Ok (Some (first :: _)) => (Ok first, w')
                 | Ok _ => (Throw (Error "No embeddings returned from service"), w')
                 end
           end)
        (λ error, throw (Error ("Failed to generate embedding: " +:+ message error)))
  end.

(** The four calls on the database client. *)
Definition pgClient (url : string) : M unit :=
  λ w, (pg_Client H w url, w).
Definition pgConnect (url : string) : M unit :=
  λ w, (pg_connect H w url, logged w [EvConnect url]).
Definition pgQuery (url vector : string) : M (list Row) :=
  λ w, (pg_query H w url vector, logged w [EvQuery url vector]).
Definition pgEnd (url : string) : M unit :=
  λ w, (pg_end H w url, logged w [EvEnd url]).

(** [searchVectorDatabase]: the ten nearest rows, by ascending distance.
    The client is built outside the [try]; the connection is closed in
    the [finally]. *)
Definition searchVectorDatabase (embedding : list Q) : M (list Row) :=
  match env_KEPLOY_EMBED_DATABASE_URL H with
  | None | Some EmptyString =>
      throw (Error "KEPLOY_EMBED_DATABASE_URL environment variable not set")
  | Some databaseUrl =>
      pgClient databaseUrl;;
      tryFinally
        (tryCatch
           (pgConnect databaseUrl;;
            let vectorString :=
              "[" +:+ String.concat "," (map (numberToString H) embedding) +:+ "]" in
            pgQuery databaseUrl vectorString)
           (λ error, throw (Error ("Database search failed: " +:+ message error))))
        (pgEnd databaseUrl)
  end.

(** *** Prompt and artifact assembly *)

Definition exampleContext (examples : list Row) : string :=
  String.concat (Str.nl +:+ Str.nl)
    (imap (λ index ex,
             "Example " +:+ Str.ofNat (index + 1) +:+ " (similarity: "
             +:+ toFixed3 H (1 - distance ex)%Q +:+ "):" +:+ Str.nl +:+ content ex)
          examples).

(** [coverageTarget || 80]: an absent target and a target of 0 both
    fall back to 80. *)
Definition coverageOr80 (coverageTarget : option Q) : Q :=
  match coverageTarget with
  | Some q => if Qeq_bool q 0 then 80%Q else q
  | None => 80%Q
  end.

Definition importStatement (testFramework : TestFramework) : string :=
  match testFramework with
  | testify =>
      Str.lines ["import (";
                 "  " +:+ Str.dq +:+ "testing" +:+ Str.dq;
                 "  " +:+ Str.dq +:+ "github.com/stretchr/testify/assert" +:+ Str.dq;
                 ")"]
  | testing =>
      Str.lines ["import ("; "  " +:+ Str.dq +:+ "testing" +:+ Str.dq; ")"]
  end.

(** The four replacements that strip an enclosing code fence:
    [/^```go\s*/i], [/```\s*$/i], [/^```\s*/i], [/```\s*$/i]. *)
Definition stripFenceGo (s : string) : string :=
  if existsb (λ p, String.prefix p s) ["```go"; "```Go"; "```gO"; "```GO"]
  then trimStart H (Str.drop 5 s) else s.

Definition stripFenceHead (s : string) : string :=
  if String.prefix "```" s then trimStart H (Str.drop 3 s) else s.

Definition stripFenceTail (s : string) : string :=
  let t := trimEnd H s in
  if Str.endsWith t "```" then Str.take (String.length t - 3) t else s.

Definition cleanResponse (text : string) : string :=
  stripFenceTail (stripFenceHead (stripFenceTail (stripFenceGo (trim text)))).

Definition finalTestContent (testFramework : TestFramework)
    (cleanTestContent : string) : string :=
  Str.lines ["package main";
             "";
             importStatement testFramework;
             "";
             cleanTestContent;
             ""].

Definition callGenerateText (system user : string) : M string :=
  λ w,
    let result := generateText H w system user in
    (result, logged w [EvGenerate system user result]).

Section Generation.
Variables (codeContent : string) (examples : list Row).
Variables (testFramework : TestFramework) (coverageTarget : option Q).

Definition systemPrompt : string :=
  Str.lines ["You are an expert Go developer. Generate comprehensive unit tests for the provided Go code.";
    "";
    "          Requirements:";
    "          - Use the " +:+ frameworkName testFramework +:+ " testing framework";
    "          - Target " +:+ numberToString H (coverageOr80 coverageTarget) +:+ "% test coverage";
    "          - Write meaningful tests that cover edge cases, error conditions, and normal operation";
    "          - Use the similar code examples as reference for testing patterns";
    "          - Include proper test function names (TestFunctionName)";
    "          - Add table-driven tests where appropriate";
    "          - Test both success and failure scenarios";
    "          - Include proper assertions and error checking";
    "";
    "          CRITICAL: Generate ONLY the raw Go test code content. Do NOT include:";
    "          - Markdown code block syntax (backticks with go or plain backticks)";
    "          - Any explanations or comments outside the code";
    "          - Any formatting other than pure Go code";
    "          - Package declarations or import statements (they will be added automatically)";
    "";
    "Return only the test functions and their content."].

Definition userPrompt : string :=
  Str.lines ["Generate unit tests for this Go code:";
    "";
    "```go";
    codeContent;
    "```";
    "";
    "Similar code examples from knowledge base:";
    "```";
    exampleContext examples;
    "```";
    "";
    "Please generate comprehensive unit tests using " +:+ frameworkName testFramework +:+ " framework."].

(** The placeholder written when the generative backend fails. *)
Definition fallbackTemplate (error : JsError) : string :=
  Str.lines ["package main";
    "";
    importStatement testFramework;
    "";
    "// AI test generation failed, using fallback template";
    "// Vector search found " +:+ Str.ofNat (length examples) +:+ " similar examples";
    "// Error: " +:+ message error;
    "";
    "func TestPlaceholder(t *testing.T) {";
    "  t.Skip(" +:+ Str.dq +:+ "AI test generation failed - please implement tests manually" +:+ Str.dq +:+ ")";
    "}";
    ""].

Definition generateTests : M string :=
  tryCatch
    (text ← callGenerateText systemPrompt userPrompt;
     mret (finalTestContent testFramework (cleanResponse text)))
    (λ error, mret (fallbackTemplate error)).

(** *** Regeneration with the error of the failed run *)

Definition systemPromptRetry : string :=
  Str.lines ["You are an expert Go developer. Generate comprehensive unit tests for the provided Go code.";
    "";
    "Requirements:";
    "- Use the " +:+ frameworkName testFramework +:+ " testing framework";
    "- Target " +:+ numberToString H (coverageOr80 coverageTarget) +:+ "% test coverage";
    "- Write meaningful tests that cover edge cases, error conditions, and normal operation";
    "- Use the similar code examples as reference for testing patterns";
    "- Include proper test function names (TestFunctionName)";
    "- Add table-driven tests where appropriate";
    "- Test both success and failure scenarios";
    "- Include proper assertions and error checking";
    "";
    "CRITICAL: Generate ONLY the raw Go test code content. Do NOT include:";
    "- Markdown code block syntax (backticks with go or plain backticks)";
    "- Any explanations or comments outside the code";
    "- Any formatting other than pure Go code";
    "- Package declarations or import statements (they will be added automatically)";
    "";
    "Return only the test functions and their content."].

(** The guidance sentence chosen by the first marker found, in this
    order. *)
Definition errorGuidance (errorMessage : string) : string :=
  if Str.includes errorMessage "redeclared" then
    "IMPORTANT: Fix duplicate import declarations. Make sure each import is only declared once."
  else if Str.includes errorMessage "undefined:" then
    "IMPORTANT: Fix undefined function/variable references. Make sure all functions and variables exist in the original code."
  else if Str.includes errorMessage "unknown field" then
    "IMPORTANT: Fix struct field names. Use the correct field names from the original struct definitions."
  else if Str.includes errorMessage "syntax error" then
    "IMPORTANT: Fix Go syntax errors. Ensure proper Go syntax and formatting."
  else
    "IMPORTANT: Fix all compilation errors and ensure the test code is syntactically correct.".

Definition userPromptRetry (errorMessage : string) (attempt : nat) : string :=
  Str.lines ["Generate unit tests for this Go code (attempt " +:+ Str.ofNat (attempt + 1) +:+ "):";
    "";
    "```go";
    codeContent;
    "```";
    "";
    "Similar code examples from knowledge base:";
    "```";
    exampleContext examples;
    "```";
    "";
    "Previous test attempt failed with these errors:";
    errorMessage;
    "";
    errorGuidance errorMessage;
    "";
    "Please fix the issues and generate working unit tests using " +:+ frameworkName testFramework +:+ " framework."].

Definition fallbackTemplateRetry (errorMessage : string) (attempt : nat) : string :=
  Str.lines ["package main";
    "";
    importStatement testFramework;
    "";
    "// AI test regeneration failed, using fallback template";
    "// Previous error: " +:+ errorMessage;
    "// Attempt: " +:+ Str.ofNat (attempt + 1);
    "";
    "func TestPlaceholder(t *testing.T) {";
    "  t.Skip(" +:+ Str.dq +:+ "AI test regeneration failed - please implement tests manually" +:+ Str.dq +:+ ")";
    "}";
    ""].

Definition generateTestsWithErrorContext (errorMessage : string)
    (attempt : nat) : M string :=
  tryCatch
    (text ← callGenerateText systemPromptRetry (userPromptRetry errorMessage attempt);
     mret (finalTestContent testFramework (cleanResponse text)))
    (λ _, mret (fallbackTemplateRetry errorMessage attempt)).

End Generation.

(** *** Running the tests, with bounded regeneration *)

Definition maxRetries : nat := 3.

Definition hasPass (stdout : string) : bool :=
  Str.includes stdout "PASS" || Str.includes stdout "ok".

Definition hasCompilationError (stderr : string) : bool :=
  Str.includes stderr "undefined:"
  || Str.includes stderr "redeclared"
  || Str.includes stderr "unknown field"
  || Str.includes stderr "too many errors"
  || Str.includes stderr "syntax error".

(** The verdict on one run of the test runner: a rejected promise
    (non-zero exit, timeout) goes straight to the [catch]. *)
Definition testsPassed (o : ExecOutcome) : bool :=
  match o with
  | Resolved stdout stderr => hasPass stdout && negb (hasCompilationError stderr)
  | Rejected _ => false
  end.

(** The error the [catch] receives for a run that did not pass: the
    rejection itself, or the [Tests failed] error thrown in the [try]. *)
Definition caughtError (o : ExecOutcome) : JsError :=
  match o with
  | Resolved stdout stderr =>
      Error ("Tests failed: " +:+ trim (stdout +:+ Str.nl +:+ stderr))
  | Rejected e => e
  end.

Definition callExec (command cwd : string) : M (string * string) :=
  λ w,
    let o := execAsync H w command cwd in
    let w' := logged w [EvExec command cwd o] in
    match o with
    | Resolved stdout stderr => (Ok (stdout, stderr), w')
    | Rejected e => (Throw e, w')
    end.

Section Retry.
Variables (testFilePath originalCode : string) (examples : list Row).
Variables (testFramework : TestFramework) (coverageTarget : option Q).

Definition testCommand : string := "go test -v ./" +:+ testFilePath.

(** The [try] block of one iteration. *)
Definition runAttempt (attempt : nat) : M TestResults :=
  '(stdout, stderr) ← callExec testCommand workDir;
  if hasPass stdout && negb (hasCompilationError stderr) then
    sendMessage (Response ("✅ Tests passed on attempt " +:+ Str.ofNat attempt +:+ "!")
                          (Some stdout));;
    mret (TestsPassed attempt stdout)
  else
    throw (Error ("Tests failed: " +:+ trim (stdout +:+ Str.nl +:+ stderr))).

Definition errorMessageOf (error : JsError) : string :=
  Str.orElse (stderr error) (Str.orElse (Some (message error)) "Unknown test error").

(** The [catch] block of one iteration, up to [attempt++]. *)
Definition onFailure (attempt : nat) (error : JsError) : M unit :=
  let errorMessage := errorMessageOf error in
  sendMessage (Response ("❌ Test attempt " +:+ Str.ofNat attempt +:+ " failed: " +:+ errorMessage)
                        (Some (Str.orElse (stdout error) "")));;
  if attempt <? maxRetries then
    sendMessage (Response ("🔄 Regenerating tests (attempt " +:+ Str.ofNat (attempt + 1)
                           +:+ "/" +:+ Str.ofNat maxRetries +:+ ")...") None);;
    tryCatch
      (newTestContent ←
         generateTestsWithErrorContext originalCode examples testFramework
           coverageTarget errorMessage attempt;
       let fullTestPath := path_resolve H workDir testFilePath in
       fs_writeFile H fullTestPath newTestContent;;
       sendMessage (Response ("✅ Test file regenerated successfully for attempt "
                              +:+ Str.ofNat (attempt + 1)) None))
      (λ regenerateError,
         sendMessage (Response ("⚠️ Failed to regenerate tests: "
                                +:+ message regenerateError) None))
  else mret tt.

(** One pass through the body of the [while]: [inl r] when the body
    returned [r], [inr error] when the [catch] ran and the loop goes
    on with [lastError = error]. *)
Definition iteration (attempt : nat) : M (TestResults + JsError) :=
  sendMessage (ToolCallRunCommand testCommand 30000%Z);;
  tryCatch
    (r ← runAttempt attempt; mret (inl r))
    (λ error, onFailure attempt error;; mret (inr error)).

(** The code after the loop. *)
Definition allAttemptsFailed (lastError : option JsError) : M TestResults :=
  let finalError := Str.orElse (message <$> lastError) "Unknown error" in
  sendMessage (Response ("❌ All " +:+ Str.ofNat maxRetries
                         +:+ " test attempts failed. Final error: " +:+ finalError) None);;
  mret (TestsFailed maxRetries finalError (Str.orElse (lastError ≫= stdout) "")).

(** [while (attempt <= maxRetries) { ... }] followed by the code after
    it.  The distance of [attempt] to the ceiling shrinks on every
    turn, which is why the loop ends. *)
Equations? retryLoop (attempt : nat) (lastError : option JsError) (w : World)
    : Outcome TestResults * World by wf (S maxRetries - attempt) lt :=
  retryLoop attempt lastError w with decide (attempt ≤ maxRetries) := {
    | right _ => allAttemptsFailed lastError w
    | left _ with iteration attempt w := {
        | (Ok (inl r), w') => (Ok r, w')
        | (Ok (inr error), w') => retryLoop (attempt + 1) (Some error) w'
        | (Throw e, w') => (Throw e, w') } }.
Proof. lia. Qed.

Definition executeTestsWithRetry : M TestResults := retryLoop 1 None.

End Retry.

(** *** The tool's [execute] *)

Definition overwriteNotice (testFilePath fullTestPath : string) : WireMessage :=
  ResponseOverwrite
    ("⚠️ Test file " +:+ testFilePath
     +:+ " already exists. This operation will overwrite the existing file.")
    "overwrite_test_file" testFilePath fullTestPath.

(** [new Date().toISOString()]. *)
Definition currentTime : M string := λ w, (Ok (toISOString H w), w).

Definition execute (filePath : string) (testFrameworkArg : option TestFramework)
    (coverageTarget : option Q) : M ToolResult :=
  let testFramework := default testing testFrameworkArg in
  sendMessage (ToolCallGenerate filePath testFramework coverageTarget);;
  let fullPath := path_resolve H workDir filePath in
  tryCatch
    (fileStats ← fs_stat H fullPath;
     if negb (isFile fileStats) then
       mret (ToolError ("Path is not a file: " +:+ filePath) filePath)
     else if negb (Str.endsWith filePath ".go") then
       mret (ToolError ("File is not a Go file: " +:+ filePath) filePath)
     else
       content ← fs_readFile H fullPath;
       embedding ← generateEmbedding content;
       examples ← searchVectorDatabase embedding;
       testContent ← generateTests content examples testFramework coverageTarget;
       let testFilePath := Str.replaceGoSuffix filePath in
       let fullTestPath := path_resolve H workDir testFilePath in
       testFileExists ← tryCatch (fs_stat H fullTestPath;; mret true) (λ _, mret false);
       (if testFileExists : bool
        then sendMessage (overwriteNotice testFilePath fullTestPath)
        else mret tt);;
       fs_writeFile H fullTestPath testContent;;
       testResults ← executeTestsWithRetry testFilePath content examples
                       testFramework coverageTarget;
       created ← currentTime;
       mret (ToolReport filePath testFilePath testFramework
                        (js_length H testContent) created testResults))
    (λ error, mret (ToolError (message error) filePath)).

End Tool.

(** *** The specification's vocabulary *)

(** The five guidance categories, and the sentence each stands for. *)
Inductive Guidance :=
| DuplicateDeclaration
| UndefinedReference
| FieldMismatch
| SyntaxError
| Generic.

Definition guidanceText (g : Guidance) : string :=
  match g with
  | DuplicateDeclaration =>
      "IMPORTANT: Fix duplicate import declarations. Make sure each import is only declared once."
  | UndefinedReference =>
      "IMPORTANT: Fix undefined function/variable references. Make sure all functions and variables exist in the original code."
  | FieldMismatch =>
      "IMPORTANT: Fix struct field names. Use the correct field names from the original struct definitions."
  | SyntaxError =>
      "IMPORTANT: Fix Go syntax errors. Ensure proper Go syntax and formatting."
  | Generic =>
      "IMPORTANT: Fix all compilation errors and ensure the test code is syntactically correct."
  end.

(** The success criterion as the specification words it: a pass signal
    and none of the five markers it lists. *)
Definition specMarkers : list string :=
  ["undefined reference"; "redeclared"; "unknown field"; "syntax error";
   "too many errors"].

Definition specSuccess (stdout stderr : string) : bool :=
  hasPass stdout && negb (existsb (Str.includes stderr) specMarkers).

(** *** A host to run the tool on

    The services answer, the generative backend is out of quota, and the
    test runner exits with a compilation error. *)
Definition sampleHost : Host :=
  {| path_resolve := λ dir p, dir +:+ "/" +:+ p;
     env_KEPLOY_EMBEDDING_SERVICE_URL := Some "http://localhost:8000/embed";
     env_KEPLOY_EMBED_DATABASE_URL := Some "postgres://localhost/keploy";
     fetch := λ _ _ _, FetchResponse true 200 "OK" (Ok (Some [[1%Q; 0%Q]]));
     pg_Client := λ _ _, Ok tt;
     pg_connect := λ _ _, Ok tt;
     pg_query := λ _ _ _, Ok [];
     pg_end := λ _ _, Ok tt;
     fs_stat_error := λ _ p,
       Error ("ENOENT: no such file or directory, stat '" +:+ p +:+ "'");
     fs_readFile_error := λ _ p,
       Error ("ENOENT: no such file or directory, open '" +:+ p +:+ "'");
     fs_writeFile_error := λ _ p,
       Error ("EISDIR: illegal operation on a directory, open '" +:+ p +:+ "'");
     generateText := λ _ _ _, Throw (Error "quota exceeded");
     execAsync := λ _ _ _,
       Rejected {| message := "Command failed: go test";
                   stdout := Some "FAIL";
                   stderr := Some "./calc_test.go:3:1: syntax error" |};
     toISOString := λ _, "2025-01-01T00:00:00.000Z";
     trimStart := Str.trimLeftAscii;
     trimEnd := Str.trimRightAscii;
     numberToString := λ _, "80";
     toFixed3 := λ _, "0.000";
     js_length := String.length |}.

Definition sampleWorld : World :=
  {| fs := {[ "/work/calc.go" := File "package main" ]}; trace := [] |}.

(** *** The fixed head of every artifact

    [package main], a blank line, the import block of the framework, and a
    blank line: the part of the test file that is never taken from the
    generative backend. *)
Definition artifactHeader (testFramework : TestFramework) : string :=
  "package main" +:+ Str.nl +:+ Str.nl
  +:+ importStatement testFramework +:+ Str.nl +:+ Str.nl.

(** [process.env.X] read as a condition: unset and empty are both falsy. *)
Definition envSet (v : option string) : option string :=
  match v with
  | Some EmptyString | None => None
  | Some s => Some s
  end.

(** The sample host with the embedding service left unconfigured. *)
Definition offlineHost : Host :=
  {| path_resolve := path_resolve sampleHost;
     env_KEPLOY_EMBEDDING_SERVICE_URL := None;
     env_KEPLOY_EMBED_DATABASE_URL := env_KEPLOY_EMBED_DATABASE_URL sampleHost;
     fetch := fetch sampleHost;
     pg_Client := pg_Client sampleHost;
     pg_connect := pg_connect sampleHost;
     pg_query := pg_query sampleHost;
     pg_end := pg_end sampleHost;
     fs_stat_error := fs_stat_error sampleHost;
     fs_readFile_error := fs_readFile_error sampleHost;
     fs_writeFile_error := fs_writeFile_error sampleHost;
     generateText := generateText sampleHost;
     execAsync := execAsync sampleHost;
     toISOString := toISOString sampleHost;
     trimStart := trimStart sampleHost;
     trimEnd := trimEnd sampleHost;
     numberToString := numberToString sampleHost;
     toFixed3 := toFixed3 sampleHost;
     js_length := js_length sampleHost |}.

End Worker.

(** ** What [json.Marshal] accepts as a [json.RawMessage]

    [json.Marshal] copies a [RawMessage] into its output through the
    package's scanner: the bytes must be one well-formed JSON value, and
    they are compacted on the way.  When they are not well formed,
    [Marshal] returns an error and no bytes. *)

Module Json.

Definition quote : ascii := ascii_of_nat 34.
Definition backslash : ascii := ascii_of_nat 92.

Definition isSpace (c : ascii) : bool :=
  match nat_of_ascii c with
  | 32 | 9 | 13 | 10 => true
  | _ => false
  end.

Definition isDigit (c : ascii) : bool :=
  (48 <=? nat_of_ascii c)%nat && (nat_of_ascii c <=? 57)%nat.

Definition isHex (c : ascii) : bool :=
  let n := nat_of_ascii c in
  isDigit c
  || ((97 <=? n)%nat && (n <=? 102)%nat)
  || ((65 <=? n)%nat && (n <=? 70)%nat).

Fixpoint skipSpace (s : string) : string :=
  match s with
  | String c r => if isSpace c then skipSpace r else s
  | EmptyString => s
  end.

Fixpoint skipDigits (s : string) : string :=
  match s with
  | String c r => if isDigit c then skipDigits r else s
  | EmptyString => s
  end.

(** The characters allowed after a backslash, [u] apart. *)
Definition isEscape (c : ascii) : bool :=
  Ascii.eqb c quote || Ascii.eqb c backslash
  || existsb (Ascii.eqb c) ["/"; "b"; "f"; "n"; "r"; "t"]%char.

(** [scanString s]: [s] follows an opening quote; the result follows the
    closing one.  A control character inside a string literal, a bad
    escape and a missing closing quote are errors. *)
Fixpoint scanString (s : string) : option string :=
  match s with
  | EmptyString => None
  | String c r =>
      if Ascii.eqb c quote then Some r
      else if Ascii.eqb c backslash then
        match r with
        | String e r1 =>
            if isEscape e then scanString r1
            else if Ascii.eqb e "u" then
              match r1 with
              | String h1 (String h2 (String h3 (String h4 r2))) =>
                  if isHex h1 && isHex h2 && isHex h3 && isHex h4
                  then scanString r2 else None
              | _ => None
              end
            else None
        | EmptyString => None
        end
      else if (nat_of_ascii c <? 32)%nat then None
      else scanString r
  end.

Definition scanExponent (s : string) : option string :=
  match s with
  | String c r =>
      if Ascii.eqb c "e" || Ascii.eqb c "E" then
        let r := match r with
                 | String sign r1 =>
                     if Ascii.eqb sign "+" || Ascii.eqb sign "-" then r1 else r
                 | EmptyString => r
                 end in
        match r with
        | String d r1 => if isDigit d then Some (skipDigits r1) else None
        | EmptyString => None
        end
      else Some s
  | EmptyString => Some s
  end.

Definition scanFraction (s : string) : option string :=
  match s with
  | String c r =>
      if Ascii.eqb c "." then
        match r with
        | String d r1 => if isDigit d then scanExponent (skipDigits r1) else None
        | EmptyString => None
        end
      else scanExponent s
  | EmptyString => Some s
  end.

Definition scanNumber (s : string) : option string :=
  let s := match s with
           | String c r => if Ascii.eqb c "-" then r else s
           | EmptyString => s
           end in
  match s with
  | String c r =>
      if Ascii.eqb c "0" then scanFraction r
      else if isDigit c then scanFraction (skipDigits r)
      else None
  | EmptyString => None
  end.

Definition scanLiteral (lit s : string) : option string :=
  if String.prefix lit s then Some (Str.drop (String.length lit) s) else None.

(** One JSON value at the head of [s]; the result is what follows it.
    [fuel] bounds the number of nested and chained values, each of which
    takes at least one character. *)
Fixpoint scanValue (fuel : nat) (s : string) : option string :=
  match fuel with
  | O => None
  | S fuel =>
      match s with
      | EmptyString => None
      | String c r =>
          if Ascii.eqb c "{" then
            match skipSpace r with
            | String c1 r1 =>
                if Ascii.eqb c1 "}" then Some r1 else scanMembers fuel (String c1 r1)
            | EmptyString => None
            end
          else if Ascii.eqb c "[" then
            match skipSpace r with
            | String c1 r1 =>
                if Ascii.eqb c1 "]" then Some r1 else scanElements fuel (String c1 r1)
            | EmptyString => None
            end
          else if Ascii.eqb c quote then scanString r
          else if Ascii.eqb c "t" then scanLiteral "true" s
          else if Ascii.eqb c "f" then scanLiteral "false" s
          else if Ascii.eqb c "n" then scanLiteral "null" s
          else scanNumber s
      end
  end
with scanMembers (fuel : nat) (s : string) : option string :=
  match fuel with
  | O => None
  | S fuel =>
      match s with
      | String c r =>
          if Ascii.eqb c quote then
            match scanString r with
            | Some r1 =>
                match skipSpace r1 with
                | String colon r2 =>
                    if Ascii.eqb colon ":" then
                      match scanValue fuel (skipSpace r2) with
                      | Some r3 =>
                          match skipSpace r3 with
                          | String sep r4 =>
                              if Ascii.eqb sep "," then scanMembers fuel (skipSpace r4)
                              else if Ascii.eqb sep "}" then Some r4
                              else None
                          | EmptyString => None
                          end
                      | None => None
                      end
                    else None
                | EmptyString => None
                end
            | None => None
            end
          else None
      | EmptyString => None
      end
  end
with scanElements (fuel : nat) (s : string) : option string :=
  match fuel with
  | O => None
  | S fuel =>
      match scanValue fuel s with
      | Some r1 =>
          match skipSpace r1 with
          | String sep r2 =>
              if Ascii.eqb sep "," then scanElements fuel (skipSpace r2)
              else if Ascii.eqb sep "]" then Some r2
              else None
          | EmptyString => None
          end
      | None => None
      end
  end.

(** [json.Valid]. *)
Definition valid (s : string) : bool :=
  match scanValue (S (String.length s)) (skipSpace s) with
  | Some r => String.eqb (skipSpace r) ""
  | None => false
  end.

(** The compaction applied to well-formed bytes: white space between
    tokens is dropped, and the characters [<], [>], [&], U+2028 and U+2029
    are written as [\u] escapes. *)
Fixpoint compactFrom (inString escaped : bool) (s : string) : string :=
  match s with
  | EmptyString => EmptyString
  | String c r =>
      let inString' :=
        if inString then negb (negb escaped && Ascii.eqb c quote)
        else Ascii.eqb c quote in
      let escaped' := inString && negb escaped && Ascii.eqb c backslash in
      if Ascii.eqb c "<" then "\u003c" +:+ compactFrom inString' escaped' r
      else if Ascii.eqb c ">" then "\u003e" +:+ compactFrom inString' escaped' r
      else if Ascii.eqb c "&" then "\u0026" +:+ compactFrom inString' escaped' r
      else
        match r with
        | String c1 (String c2 r2) =>
            if (nat_of_ascii c =? 226)%nat && (nat_of_ascii c1 =? 128)%nat
               && (nat_of_ascii c2 =? 168)%nat
            then "\u2028" +:+ compactFrom inString' escaped' r2
            else if (nat_of_ascii c =? 226)%nat && (nat_of_ascii c1 =? 128)%nat
                    && (nat_of_ascii c2 =? 169)%nat
            then "\u2029" +:+ compactFrom inString' escaped' r2
            else if negb inString && isSpace c then compactFrom inString' escaped' r
            else String c (compactFrom inString' escaped' r)
        | _ =>
            if negb inString && isSpace c then compactFrom inString' escaped' r
            else String c (compactFrom inString' escaped' r)
        end
  end.

(** The bytes [Marshal] emits for a [RawMessage], or [None] for its
    error. *)
Definition marshalRaw (raw : string) : option string :=
  if valid raw then Some (compactFrom false false raw) else None.

End Json.

(** ** The front end: [main.go] *)

Module Client.

(** *** Messages exchanged with the worker *)

(** [type MessageType string]. *)
Definition MessageType := string.
Definition MsgInit : MessageType := "init".
Definition MsgChat : MessageType := "chat".
Definition MsgError : MessageType := "error".
Definition MsgResponse : MessageType := "response".
Definition MsgToolCall : MessageType := "tool_call".
Definition MsgStreamChunk : MessageType := "stream_chunk".

(** [json.RawMessage]: bytes meant to be a JSON value. *)
Definition RawMessage := string.

(** An [AgentMessage] about to be written to the worker. *)
Record AgentMessage := {
  Type_ : MessageType;
  Data : RawMessage
}.

Inductive AppState := StateAPIKey | StateChat.

Definition Time := Z.

Record ChatMessage := {
  Role : string;
  Content : string;
  Timestamp : Time;
  IsError : bool
}.

(** Handles on the child process and its pipes. *)
Definition Handle := nat.

(** *** Writing to the worker *)

(** [json.Marshal] of an [AgentMessage]: the fields in declaration order,
    [data] left out when empty.  The types written here are plain ASCII
    words, which are quoted as they are. *)
Definition marshal (m : AgentMessage) : option string :=
  let type := Str.dq +:+ "type" +:+ Str.dq +:+ ":" +:+ Str.dq +:+ Type_ m +:+ Str.dq in
  if String.eqb (Data m) "" then Some ("{" +:+ type +:+ "}")
  else
    data ← Json.marshalRaw (Data m);
    Some ("{" +:+ type +:+ "," +:+ Str.dq +:+ "data" +:+ Str.dq +:+ ":" +:+ data +:+ "}").

(** [strings.ReplaceAll] of the double quote by a backslash and a double
    quote. *)
Fixpoint escapeQuotes (s : string) : string :=
  match s with
  | EmptyString => EmptyString
  | String c r =>
      if Ascii.eqb c Json.quote
      then String Json.backslash (String c (escapeQuotes r))
      else String c (escapeQuotes r)
  end.

(** The two envelopes the front end builds with [fmt.Sprintf]. *)
Definition chatMsg (message : string) : AgentMessage :=
  {| Type_ := MsgChat;
     Data := "{" +:+ Str.dq +:+ "message" +:+ Str.dq +:+ ":" +:+ Str.dq
             +:+ escapeQuotes message +:+ Str.dq +:+ "}" |}.

Definition initMsg (apiKey : string) : AgentMessage :=
  {| Type_ := MsgInit;
     Data := "{" +:+ Str.dq +:+ "apiKey" +:+ Str.dq +:+ ":" +:+ Str.dq
             +:+ apiKey +:+ Str.dq +:+ "}" |}.

(** [msgBytes, _ := json.Marshal(msg)]: the error is dropped, and with it
    [msgBytes] is nil.  The bytes are followed by a newline. *)
Definition writtenLine (m : AgentMessage) : string :=
  default "" (marshal m) +:+ Str.nl.

(** A line is an envelope when it is one JSON value followed by the
    newline, with no other newline in it. *)
Definition isEnvelopeLine (line : string) : bool :=
  match String.rev line with
  | String c body =>
      Ascii.eqb c (ascii_of_nat 10)
      && negb (Str.includes body Str.nl)
      && Json.valid (String.rev body)
  | EmptyString => false
  end.

(** A decoded JSON value, as [map[string]interface{}] holds it. *)
#[warnings="-register-all"]
Inductive Value :=
| VString (s : string)
| VBool (b : bool)
| VNumber (x : Q)
| VArray (l : list Value)
| VObject
| VNull.

(** [Update] reads the [Data] of a received message only through
    [json.Unmarshal] into the struct of the branch it is in
    ([respData], [chunkData], [errData], [ToolCallInfo]); the error of
    that call is dropped.  A received message is therefore kept with its
    data already read this way: one field per struct field, holding the
    empty string when the JSON object has no such string field.  [args]
    is the decoded argument object of a tool call. *)
Record Payload := {
  status : string;
  message : string;
  content : string;
  details : string;
  toolName : string;
  args : list (string * Value)
}.

Inductive KeyType :=
| KeyCtrlC | KeyEsc | KeyEnter | KeyCtrlS
| KeyOther (code : nat).

(** The [tea.Msg] values [Update] distinguishes. *)
Inductive Msg :=
| KeyMsg (key : KeyType)
| WindowSizeMsg (Width Height : Z)
| agentStartedMsg (process stdin stdout : Handle)
| agentResponseMsg (type : MessageType) (data : Payload)
| errMsg (err : string)
| otherMsg (tag : nat).

(** What the closure returned by [sendChatMessage] does when the runtime
    runs it: the bytes written to the pipe (the envelope and the newline
    are two writes in a row), and the message handed back to [Update]. *)
Definition sendChatMessage (agentStdin : option Handle) (message : string)
    : option (Handle * string) * option Msg :=
  match agentStdin with
  | None => (None, Some (errMsg "agent not initialized"))
  | Some stdin => (Some (stdin, writtenLine (chatMsg message)), None)
  end.

(** How the attempt to spawn [npm start] in [./agent] ends. *)
Inductive SpawnOutcome :=
| AgentDirMissing
| StdinPipeFailed (reason : string)
| StdoutPipeFailed (reason : string)
| StartFailed (reason : string)
| Spawned (process stdin stdout : Handle).

(** What the closure returned by [startAgent] does: on a successful spawn
    the init envelope is written to the new process. *)
Definition startAgent (spawn : SpawnOutcome) (apiKey : string)
    : option (Handle * string) * Msg :=
  match spawn with
  | AgentDirMissing =>
      (None, errMsg "agent directory not found. Please run from the keploy-agent directory")
  | StdinPipeFailed reason => (None, errMsg ("failed to create stdin pipe: " +:+ reason))
  | StdoutPipeFailed reason => (None, errMsg ("failed to create stdout pipe: " +:+ reason))
  | StartFailed reason => (None, errMsg ("failed to start agent: " +:+ reason))
  | Spawned process stdin stdout =>
      (Some (stdin, writtenLine (initMsg apiKey)), agentStartedMsg process stdin stdout)
  end.

(** The terminal toolkit (bubbles, lipgloss) and the library calls whose
    result depends on Unicode tables or on Go's map order.  [Update]
    only calls into them. *)
Class Toolkit := {
  textinput : Type;
  textarea : Type;
  viewport : Type;
  WidgetCmd : Type;
  textinput_Value : textinput → string;
  textinput_Update : Msg → textinput → textinput * WidgetCmd;
  textarea_Value : textarea → string;
  textarea_Reset : textarea → textarea;
  textarea_Focus : textarea → textarea;
  textarea_SetWidth : Z → textarea → textarea;
  textarea_Update : Msg → textarea → textarea * WidgetCmd;
  viewport_Resize : Z → Z → viewport → viewport;
  viewport_SetContent : string → viewport → viewport;
  viewport_GotoBottom : viewport → viewport;
  viewport_Update : Msg → viewport → viewport * WidgetCmd;
  (** The text [updateViewport] builds from the transcript. *)
  renderMessages : list ChatMessage → string;
  (** The one-line summary of a tool call built in the [MsgToolCall]
      branch. *)
  formatToolCall : string → list (string * Value) → string;
  (** [strings.TrimSpace]. *)
  TrimSpace : string → string
}.

Section Reducer.
Context {T : Toolkit}.

Record Model := {
  state : AppState;
  apiKeyInput : textinput;
  chatInput : textarea;
  viewport_ : viewport;
  messages : list ChatMessage;
  agentProcess : option Handle;
  agentStdin : option Handle;
  agentStdout : option Handle;
  agentReady : bool;
  width : Z;
  height : Z;
  err : option string;
  isProcessing : bool;
  workDir : string
}.

(** The commands [Update] hands back to the runtime.  [Kill] stands for
    the [Process.Kill()] that [Update] performs itself before quitting.
    The three closures [startAgent], [listenToAgent] and
    [sendChatMessage] capture the pipe of the model they were made
    from. *)
Inductive Cmd :=
| Kill (process : Handle)
| Quit
| StartAgent (apiKey : string)
| ListenToAgent (stdout : option Handle)
| SendChatMessage (stdin : option Handle) (message : string)
| Widget (c : WidgetCmd).

(** Field assignments [m.f = v]. *)
Definition set_state (v : AppState) (m : Model) : Model :=
  {| state := v; apiKeyInput := apiKeyInput m; chatInput := chatInput m;
     viewport_ := viewport_ m; messages := messages m;
     agentProcess := agentProcess m; agentStdin := agentStdin m;
     agentStdout := agentStdout m; agentReady := agentReady m;
     width := width m; height := height m; err := err m;
     isProcessing := isProcessing m; workDir := workDir m |}.

Definition set_apiKeyInput (v : textinput) (m : Model) : Model :=
  {| state := state m; apiKeyInput := v; chatInput := chatInput m;
     viewport_ := viewport_ m; messages := messages m;
     agentProcess := agentProcess m; agentStdin := agentStdin m;
     agentStdout := agentStdout m; agentReady := agentReady m;
     width := width m; height := height m; err := err m;
     isProcessing := isProcessing m; workDir := workDir m |}.

Definition set_chatInput (v : textarea) (m : Model) : Model :=
  {| state := state m; apiKeyInput := apiKeyInput m; chatInput := v;
     viewport_ := viewport_ m; messages := messages m;
     agentProcess := agentProcess m; agentStdin := agentStdin m;
     agentStdout := agentStdout m; agentReady := agentReady m;
     width := width m; height := height m; err := err m;
     isProcessing := isProcessing m; workDir := workDir m |}.

Definition set_viewport (v : viewport) (m : Model) : Model :=
  {| state := state m; apiKeyInput := apiKeyInput m; chatInput := chatInput m;
     viewport_ := v; messages := messages m;
     agentProcess := agentProcess m; agentStdin := agentStdin m;
     agentStdout := agentStdout m; agentReady := agentReady m;
     width := width m; height := height m; err := err m;
     isProcessing := isProcessing m; workDir := workDir m |}.

Definition set_messages (v : list ChatMessage) (m : Model) : Model :=
  {| state := state m; apiKeyInput := apiKeyInput m; chatInput := chatInput m;
     viewport_ := viewport_ m; messages := v;
     agentProcess := agentProcess m; agentStdin := agentStdin m;
     agentStdout := agentStdout m; agentReady := agentReady m;
     width := width m; height := height m; err := err m;
     isProcessing := isProcessing m; workDir := workDir m |}.

Definition set_agent (p i o : Handle) (m : Model) : Model :=
  {| state := state m; apiKeyInput := apiKeyInput m; chatInput := chatInput m;
     viewport_ := viewport_ m; messages := messages m;
     agentProcess := Some p; agentStdin := Some i;
     agentStdout := Some o; agentReady := agentReady m;
     width := width m; height := height m; err := err m;
     isProcessing := isProcessing m; workDir := workDir m |}.

Definition set_agentReady (v : bool) (m : Model) : Model :=
  {| state := state m; apiKeyInput := apiKeyInput m; chatInput := chatInput m;
     viewport_ := viewport_ m; messages := messages m;
     agentProcess := agentProcess m; agentStdin := agentStdin m;
     agentStdout := agentStdout m; agentReady := v;
     width := width m; height := height m; err := err m;
     isProcessing := isProcessing m; workDir := workDir m |}.

Definition set_size (w h : Z) (m : Model) : Model :=
  {| state := state m; apiKeyInput := apiKeyInput m; chatInput := chatInput m;
     viewport_ := viewport_ m; messages := messages m;
     agentProcess := agentProcess m; agentStdin := agentStdin m;
     agentStdout := agentStdout m; agentReady := agentReady m;
     width := w; height := h; err := err m;
     isProcessing := isProcessing m; workDir := workDir m |}.

Definition set_err (v : option string) (m : Model) : Model :=
  {| state := state m; apiKeyInput := apiKeyInput m; chatInput := chatInput m;
     viewport_ := viewport_ m; messages := messages m;
     agentProcess := agentProcess m; agentStdin := agentStdin m;
     agentStdout := agentStdout m; agentReady := agentReady m;
     width := width m; height := height m; err := v;
     isProcessing := isProcessing m; workDir := workDir m |}.

Definition set_isProcessing (v : bool) (m : Model) : Model :=
  {| state := state m; apiKeyInput := apiKeyInput m; chatInput := chatInput m;
     viewport_ := viewport_ m; messages := messages m;
     agentProcess := agentProcess m; agentStdin := agentStdin m;
     agentStdout := agentStdout m; agentReady := agentReady m;
     width := width m; height := height m; err := err m;
     isProcessing := v; workDir := workDir m |}.

(** [m.messages = append(m.messages, c)]. *)
Definition appendMessage (c : ChatMessage) (m : Model) : Model :=
  set_messages (messages m ++ [c]) m.

(** [m.messages[len(m.messages)-1].Content = s]. *)
Definition setLastContent (s : string) (l : list ChatMessage) : list ChatMessage :=
  alter (λ c, {| Role := Role c; Content := s;
                 Timestamp := Timestamp c; IsError := IsError c |})
        (length l - 1) l.

Definition updateViewport (m : Model) : Model :=
  set_viewport
    (viewport_GotoBottom
       (viewport_SetContent (renderMessages (messages m)) (viewport_ m))) m.

(** The body shared, word for word, by the Enter branch in chat mode and
    the Ctrl+S branch: send the trimmed input unless it is empty, the
    agent is not ready, or a request is already being processed. *)
Definition trySend (now : Time) (m : Model) : Model * list Cmd :=
  let message := TrimSpace (textarea_Value (chatInput m)) in
  if negb (String.eqb message "") && agentReady m && negb (isProcessing m) then
    let m := appendMessage {| Role := "user"; Content := message;
                              Timestamp := now; IsError := false |} m in
    let m := set_chatInput (textarea_Reset (chatInput m)) m in
    let m := set_isProcessing true m in
    let m := updateViewport m in
    (m, [SendChatMessage (agentStdin m) message])
  else (m, []).

Definition isStateAPIKey (s : AppState) : bool :=
  match s with StateAPIKey => true | StateChat => false end.
Definition isStateChat (s : AppState) : bool :=
  match s with StateChat => true | StateAPIKey => false end.

Definition lastIs (P : ChatMessage → bool) (l : list ChatMessage) : bool :=
  match last l with Some c => P c | None => false end.

Definition isAssistant (c : ChatMessage) : bool := String.eqb (Role c) "assistant".

(** [case MsgResponse]. *)
Definition onResponse (now : Time) (respData : Payload) (m : Model) : Model :=
  let m :=
    if String.eqb (status respData) "initialized" then
      let m := set_state StateChat m in
      let m := set_agentReady true m in
      let m := set_isProcessing false m in
      let m := set_chatInput (textarea_Focus (chatInput m)) m in
      appendMessage
        {| Role := "system";
           Content := "✓ Agent initialized successfully! You can now start by sending a message.";
           Timestamp := now; IsError := false |} m
    else if negb (String.eqb (content respData) "") then
      if lastIs (λ c, isAssistant c && String.eqb (Content c) (content respData))
                (messages m) then
        set_isProcessing false m
      else if (length (messages m) =? 0)%nat
              || lastIs (λ c, negb (isAssistant c)) (messages m) then
        let m := appendMessage {| Role := "assistant"; Content := content respData;
                                  Timestamp := now; IsError := false |} m in
        set_isProcessing false m
      else
        set_isProcessing false m
    else m in
  updateViewport m.

(** [case MsgToolCall]. *)
Definition onToolCall (now : Time) (toolData : Payload) (m : Model) : Model :=
  let toolMsg := formatToolCall (toolName toolData) (args toolData) in
  updateViewport
    (appendMessage {| Role := "tool"; Content := toolMsg;
                      Timestamp := now; IsError := false |} m).

(** [case MsgStreamChunk]. *)
Definition onStreamChunk (now : Time) (chunkData : Payload) (m : Model) : Model :=
  let m :=
    if String.eqb (status chunkData) "thinking" then
      appendMessage {| Role := "system"; Content := "💭 Thinking...";
                       Timestamp := now; IsError := false |} m
    else if negb (String.eqb (content chunkData) "") then
      if lastIs isAssistant (messages m) then
        set_messages (setLastContent (content chunkData) (messages m)) m
      else
        appendMessage {| Role := "assistant"; Content := content chunkData;
                         Timestamp := now; IsError := false |} m
    else m in
  updateViewport m.

(** [case MsgError]. *)
Definition onError (now : Time) (errData : Payload) (m : Model) : Model :=
  let m := appendMessage {| Role := "system";
                            Content := "❌ Error: " +:+ message errData;
                            Timestamp := now; IsError := true |} m in
  let m := set_isProcessing false m in
  updateViewport m.

(** The [switch msg := msg.(type)] of [Update], for every message that
    does not return early. *)
Definition dispatch (now : Time) (msg : Msg) (m : Model) : Model * list Cmd :=
  match msg with
  | KeyMsg KeyEnter =>
      if isStateAPIKey (state m) && negb (isProcessing m) then
        let apiKey := textinput_Value (apiKeyInput m) in
        if negb (String.eqb apiKey "") then
          (set_isProcessing true m, [StartAgent apiKey])
        else (m, [])
      else if isStateChat (state m)
              && negb (Str.includes (textarea_Value (chatInput m)) Str.nl) then
        trySend now m
      else (m, [])
  | KeyMsg KeyCtrlS =>
      if isStateChat (state m) then trySend now m else (m, [])
  | KeyMsg _ => (m, [])
  | WindowSizeMsg w h =>
      let m := set_size w h m in
      let headerHeight := 6%Z in
      let footerHeight := 8%Z in
      let m := set_viewport
                 (viewport_Resize (width m - 4) (height m - headerHeight - footerHeight)
                                  (viewport_ m)) m in
      let m := set_chatInput (textarea_SetWidth (width m - 8) (chatInput m)) m in
      (updateViewport m, [])
  | agentStartedMsg p i o =>
      let m := set_agent p i o m in
      (m, [ListenToAgent (agentStdout m)])
  | agentResponseMsg type data =>
      let cmds := [ListenToAgent (agentStdout m)] in
      if String.eqb type MsgResponse then (onResponse now data m, cmds)
      else if String.eqb type MsgToolCall then (onToolCall now data m, cmds)
      else if String.eqb type MsgStreamChunk then (onStreamChunk now data m, cmds)
      else if String.eqb type MsgError then (onError now data m, cmds)
      else (m, cmds)
  | errMsg e =>
      let m := set_err (Some e) m in
      let m := set_isProcessing false m in
      let m := appendMessage {| Role := "system";
                                Content := "❌ System Error: " +:+ e;
                                Timestamp := now; IsError := true |} m in
      (updateViewport m, [])
  | otherMsg _ => (m, [])
  end.

(** The tail of [Update]: the message is also handed to the widgets of
    the current screen. *)
Definition updateSubcomponents (msg : Msg) (m : Model) (cmds : list Cmd)
    : Model * list Cmd :=
  match state m with
  | StateAPIKey =>
      let '(ti, cmd) := textinput_Update msg (apiKeyInput m) in
      (set_apiKeyInput ti m, cmds ++ [Widget cmd])
  | StateChat =>
      let '(ta, cmd1) := textarea_Update msg (chatInput m) in
      let m := set_chatInput ta m in
      let '(vp, cmd2) := viewport_Update msg (viewport_ m) in
      (set_viewport vp m, cmds ++ [Widget cmd1; Widget cmd2])
  end.

(** [func (m Model) Update(msg tea.Msg) (tea.Model, tea.Cmd)].  [now] is
    the reading of [time.Now()]; at most one entry is stamped per
    call. *)
Definition Update (now : Time) (msg : Msg) (m : Model) : Model * list Cmd :=
  match msg with
  | KeyMsg KeyCtrlC | KeyMsg KeyEsc =>
      (m, match agentProcess m with Some p => [Kill p] | None => [] end ++ [Quit])
  | _ =>
      let '(m, cmds) := dispatch now msg m in
      updateSubcomponents msg m cmds
  end.

(** The conversation state: every field of the model but the three
    widgets. *)
Definition conversation (m : Model) :=
  (state m, messages m, agentReady m, isProcessing m, err m,
   (agentProcess m, agentStdin m, agentStdout m), (width m, height m), workDir m).

(** The bytes that reach the worker's input stream when the runtime runs
    the chat commands of a batch. *)
Definition written (cmds : list Cmd) : list (Handle * string) :=
  omap (λ c, match c with
             | SendChatMessage stdin message => fst (sendChatMessage stdin message)
             | _ => None
             end) cmds.

Definition isWidgetCmd (c : Cmd) : bool :=
  match c with Widget _ => true | _ => false end.

(** The requests a batch of commands starts: the spawn of the worker and
    the chat sends. *)
Definition isRequest (c : Cmd) : bool :=
  match c with
  | StartAgent _ | SendChatMessage _ _ => true
  | _ => false
  end.

(** The pipes a batch of commands starts a [listenToAgent] on. *)
Definition listening (cmds : list Cmd) : list (option Handle) :=
  omap (λ c, match c with
             | ListenToAgent stdout => Some stdout
             | _ => None
             end) cmds.

End Reducer.

(** *** A toolkit to run the reducer on

    Inputs are their text, the viewport is its content, and no widget
    reacts to a message. *)
Definition plainToolkit : Toolkit :=
  {| textinput := string;
     textarea := string;
     viewport := string;
     WidgetCmd := unit;
     textinput_Value := id;
     textinput_Update := λ _ ti, (ti, tt);
     textarea_Value := id;
     textarea_Reset := λ _, "";
     textarea_Focus := id;
     textarea_SetWidth := λ _ ta, ta;
     textarea_Update := λ _ ta, (ta, tt);
     viewport_Resize := λ _ _ vp, vp;
     viewport_SetContent := λ content _, content;
     viewport_GotoBottom := id;
     viewport_Update := λ _ vp, (vp, tt);
     renderMessages := λ l, String.concat Str.nl (Content <$> l);
     formatToolCall := λ name _, "🔧 Tool: " +:+ name;
     TrimSpace := λ s, Str.trimLeftAscii (Str.trimRightAscii s) |}.

(** A chat session on it: ready, with [transcript] on screen and [input]
    typed into the chat box. *)
Definition chatModel (transcript : list ChatMessage) (input : string)
    (processing : bool) : Model (T := plainToolkit) :=
  @Build_Model plainToolkit
    StateChat     (* state *)
    ""            (* apiKeyInput *)
    input         (* chatInput *)
    ""            (* viewport *)
    transcript    (* messages *)
    (Some 1) (Some 2) (Some 3)  (* agentProcess, agentStdin, agentStdout *)
    true          (* agentReady *)
    80%Z 24%Z     (* width, height *)
    None          (* err *)
    processing    (* isProcessing *)
    ".".

(** The key screen on the same toolkit, with [apiKey] typed in. *)
Definition keyModel (apiKey : string) (processing : bool)
    : Model (T := plainToolkit) :=
  @Build_Model plainToolkit
    StateAPIKey   (* state *)
    apiKey        (* apiKeyInput *)
    ""            (* chatInput *)
    ""            (* viewport *)
    []            (* messages *)
    None None None  (* agentProcess, agentStdin, agentStdout *)
    false         (* agentReady *)
    80%Z 24%Z     (* width, height *)
    None          (* err *)
    processing    (* isProcessing *)
    ".".

Definition assistantSays (text : string) : ChatMessage :=
  {| Role := "assistant"; Content := text; Timestamp := 0%Z; IsError := false |}.

Definition payload (status content : string) : Payload :=
  {| status := status; message := ""; content := content; details := "";
     toolName := ""; args := [] |}.

(** *** Reading from the worker *)

(** How the [bufio.Scanner] of one [listenToAgent] call ends once it has
    no more lines to give: at the end of the stream, or on an error. *)
Inductive ScanEnd :=
| ScanEOF
| ScanError (reason : string).

Section Listener.

(** [json.Unmarshal] of a line into an [AgentMessage], with the payload
    read as [Update] reads it; [None] is its error. *)
Variable decode : string → option (MessageType * Payload).

(** The loop over [scanner.Scan()]: empty lines and lines that do not
    decode are skipped. *)
Fixpoint firstEnvelope (lines : list string) : option (MessageType * Payload) :=
  match lines with
  | [] => None
  | line :: rest =>
      if String.eqb line "" then firstEnvelope rest
      else match decode line with
           | Some envelope => Some envelope
           | None => firstEnvelope rest
           end
  end.

(** What the closure returned by [listenToAgent] does, given the lines
    its scanner yields and the way the scanner ends. *)
Definition listenToAgent (agentStdout : option Handle) (lines : list string)
    (scanEnd : ScanEnd) : Msg :=
  match agentStdout with
  | None => errMsg "agent stdout is nil"
  | Some _ =>
      match firstEnvelope lines with
      | Some (type, data) => agentResponseMsg type data
      | None =>
          match scanEnd with
          | ScanError reason => errMsg ("agent stream error: " +:+ reason)
          | ScanEOF => errMsg "agent stream closed unexpectedly"
          end
      end
  end.

End Listener.

(** A decoder that accepts every well-formed line as a [response] whose
    content is the line. *)
Definition wellFormedOnly (line : string) : option (MessageType * Payload) :=
  if Json.valid line then Some (MsgResponse, payload "" line) else None.

(** Text without control characters and without backslashes. *)
Fixpoint plainText (s : string) : bool :=
  match s with
  | EmptyString => true
  | String c r =>
      (32 <=? nat_of_ascii c)%nat && negb (Ascii.eqb c Json.backslash) && plainText r
  end.

(** Text that, besides, holds no double quote. *)
Fixpoint plainKey (s : string) : bool :=
  match s with
  | EmptyString => true
  | String c r =>
      (32 <=? nat_of_ascii c)%nat && negb (Ascii.eqb c Json.backslash)
      && negb (Ascii.eqb c Json.quote) && plainKey r
  end.

(** An entry of the transcript is well formed when it is not a blank
    user or assistant entry, and is flagged as an error only if it is a
    system entry. *)
Definition wellFormedEntry (c : ChatMessage) : Prop :=
  (Role c = "user" ∨ Role c = "assistant" → Content c ≠ "")
  ∧ (IsError c = true → Role c = "system").

End Client.

(** * Facts about the string helpers *)

Module StrFacts.
Import Str.

Lemma sapp_cons (c : ascii) (a b : string) :
  String c a +:+ b = String c (a +:+ b).
Proof. reflexivity. Qed.

Lemma sapp_nonempty_l (a b : string) : a ≠ "" → a +:+ b ≠ "".
Proof. by destruct a. Qed.

Lemma sapp_nil_r (s : string) : s +:+ "" = s.
Proof. induction s as [|c s IH]; [done |]. rewrite sapp_cons. by f_equal. Qed.

Lemma prefix_app (p s : string) : String.prefix p (p +:+ s) = true.
Proof.
  induction p as [|c p IH]; simpl.
  - by destruct s.
  - destruct (Ascii.ascii_dec c c) as [_|Hne]; [exact IH | by destruct Hne].
Qed.

Lemma includes_empty (hay : string) : includes hay "" = true.
Proof. by destruct hay. Qed.

Lemma includes_app_r (a b needle : string) :
  includes b needle = true → includes (a +:+ b) needle = true.
Proof.
  intros Hb. induction a as [|c a IH]; simpl; [exact Hb |].
  rewrite IH. apply orb_true_r.
Qed.

Lemma includes_prefix (needle rest : string) :
  includes (needle +:+ rest) needle = true.
Proof.
  pose proof (prefix_app needle rest) as Hp.
  destruct needle as [|c needle]; [apply includes_empty |].
  simpl in *. by rewrite Hp.
Qed.


Lemma prefix_inv (p s : string) :
  String.prefix p s = true → ∃ r, s = p +:+ r.
Proof.
  revert s. induction p as [|c p IH]; intros s Hp.
  - by exists s.
  - destruct s as [|d s]; simpl in Hp; [done |].
    destruct (Ascii.ascii_dec c d) as [->|]; [| done].
    destruct (IH s Hp) as [r ->]. by exists r.
Qed.


Lemma sapp_assoc (a b c : string) : (a +:+ b) +:+ c = a +:+ b +:+ c.
Proof. induction a as [|x a IH]; [done |]. rewrite !sapp_cons. by f_equal. Qed.


Lemma includes_refl (s : string) : includes s s = true.
Proof.
  pose proof (includes_prefix s "") as Hs. by rewrite sapp_nil_r in Hs.
Qed.

Lemma includes_concat (sep x : string) (l : list string) :
  In x l → includes (String.concat sep l) x = true.
Proof.
  induction l as [|y l IH]; [done |].
  intros [-> | Hin].
  - destruct l; [apply includes_refl | apply includes_prefix].
  - specialize (IH Hin). destruct l as [|z l]; [done |].
    change (includes (y +:+ sep +:+ String.concat sep (z :: l)) x = true).
    by do 2 apply includes_app_r.
Qed.

Lemma concat_nonempty (sep x : string) (l : list string) :
  x ≠ "" → String.concat sep (x :: l) ≠ "".
Proof. destruct l; [done |]. intros Hx. by apply sapp_nonempty_l. Qed.

End StrFacts.

(** * The worker-side tool: properties *)

Module WorkerFacts.
Import Worker StrFacts.

(** ** The monad, one step at a time *)

Lemma run_bind {A B : Type} (c : M A) (f : A → M B) (w : World) :
  (c ≫= f) w = match c w with
               | (Ok a, w') => f a w'
               | (Throw e, w') => (Throw e, w')
               end.
Proof. reflexivity. Qed.

Lemma run_tryCatch {A : Type} (c : M A) (h : JsError → M A) (w : World) :
  tryCatch c h w = match c w with
                   | (Ok a, w') => (Ok a, w')
                   | (Throw e, w') => h e w'
                   end.
Proof. reflexivity. Qed.

Lemma run_ret {A : Type} (a : A) (w : World) :
  (mret a : M A) w = (Ok a, w).
Proof. reflexivity. Qed.

Lemma run_throw {A : Type} (e : JsError) (w : World) :
  throw (A := A) e w = (Throw e, w).
Proof. reflexivity. Qed.

Lemma run_sendMessage (m : WireMessage) (w : World) :
  sendMessage m w = (Ok tt, logged w [EvSend m]).
Proof. reflexivity. Qed.

Lemma logged_logged (w : World) (a b : list Event) :
  logged (logged w a) b = logged w (a ++ b).
Proof. unfold logged; simpl. by rewrite <- app_assoc. Qed.

Lemma logged_nil (w : World) : logged w [] = w.
Proof. destruct w. unfold logged; simpl. by rewrite app_nil_r. Qed.

(** Rewrites a run of the monad into the run of its first step. *)
Lemma run_fs_stat (H : Host) (p : string) (w : World) :
  fs_stat H p w =
    match fs w !! p with
    | Some n => (Ok n, w)
    | None => (Throw (fs_stat_error H w p), w)
    end.
Proof. reflexivity. Qed.

Lemma fs_logged (w : World) (evs : list Event) : fs (logged w evs) = fs w.
Proof. reflexivity. Qed.


Ltac step_in Hyp :=
  repeat (progress (rewrite ?run_bind, ?run_tryCatch, ?run_sendMessage,
                      ?run_ret, ?run_throw in Hyp;
                    cbv beta iota zeta in Hyp)).

(** Rewrites a run of the monad into the run of its first steps. *)
Ltac step :=
  repeat (progress (rewrite ?run_bind, ?run_tryCatch, ?run_sendMessage,
                      ?run_ret, ?run_throw;
                    cbv beta iota zeta)).

(** ** Classification of a test run *)

Lemma hasCompilationError_false (stderr : string) :
  hasCompilationError stderr = false ↔
  Forall (λ marker, Str.includes stderr marker = false)
         ["undefined:"; "redeclared"; "unknown field"; "syntax error"; "too many errors"].
Proof.
  unfold hasCompilationError. rewrite !orb_false_iff. split.
  - intros ((((? & ?) & ?) & ?) & ?). by repeat constructor.
  - intros Hall. repeat (apply Forall_cons in Hall as [? Hall]). by repeat split.
Qed.

Lemma testsPassed_iff (o : ExecOutcome) :
  testsPassed o = true ↔
  ∃ stdout stderr, o = Resolved stdout stderr
    ∧ (Str.includes stdout "PASS" = true ∨ Str.includes stdout "ok" = true)
    ∧ Forall (λ marker, Str.includes stderr marker = false)
             ["undefined:"; "redeclared"; "unknown field"; "syntax error";
              "too many errors"].
Proof.
  destruct o as [out err | e]; simpl.
  - rewrite andb_true_iff, negb_true_iff, hasCompilationError_false.
    unfold hasPass. rewrite orb_true_iff. split.
    + intros [? ?]. by exists out, err.
    + intros (? & ? & [= <- <-] & ? & ?). done.
  - split; [done | by intros (? & ? & ? & _)].
Qed.

Section Classification.
Variables (H : Host) (workDir testFilePath : string).

Lemma runAttempt_run (attempt : nat) (w : World) :
  let o := execAsync H w (testCommand testFilePath) workDir in
  let w1 := logged w [EvExec (testCommand testFilePath) workDir o] in
  runAttempt H workDir testFilePath attempt w =
    match o with
    | Resolved stdout stderr =>
        if testsPassed o
        then (Ok (TestsPassed attempt stdout),
              logged w1 [EvSend (Response ("✅ Tests passed on attempt "
                                           +:+ Str.ofNat attempt +:+ "!")
                                          (Some stdout))])
        else (Throw (caughtError H o), w1)
    | Rejected e => (Throw e, w1)
    end.
Proof.
  unfold runAttempt. step. unfold callExec.
  destruct (execAsync H w (testCommand testFilePath) workDir) as [out err | e];
    cbv beta iota zeta; [| done].
  simpl testsPassed. destruct (hasPass out && negb (hasCompilationError err)); by step.
Qed.

(** C2, as amended: the [try] block of an attempt returns a result
    exactly when the runner exited normally, its standard output contains
    [PASS] or [ok], and its standard error contains none of
    [undefined:], [redeclared], [unknown field], [syntax error],
    [too many errors]; the result then reports success.  A rejected run
    (non-zero exit, timeout) throws its error into the [catch], and so
    does every run that is not a success. *)
Theorem test_run_classification (attempt : nat) (w : World) :
  let o := execAsync H w (testCommand testFilePath) workDir in
  let run := runAttempt H workDir testFilePath attempt w in
  ((∃ r, fst run = Ok r ∧ success r = true) ↔
   (∃ stdout stderr, o = Resolved stdout stderr
      ∧ (Str.includes stdout "PASS" = true ∨ Str.includes stdout "ok" = true)
      ∧ Forall (λ marker, Str.includes stderr marker = false)
               ["undefined:"; "redeclared"; "unknown field"; "syntax error";
                "too many errors"]))
  ∧ ((∃ r, fst run = Ok r) ∨ fst run = Throw (caughtError H o))
  ∧ (∀ e, o = Rejected e → fst run = Throw e).
Proof.
  cbv zeta. rewrite runAttempt_run. cbv zeta.
  rewrite <- testsPassed_iff.
  destruct (execAsync H w (testCommand testFilePath) workDir) as [out err | e] eqn:Ho.
  - destruct (testsPassed (Resolved out err)) eqn:Hp; simpl fst.
    + split; [| split]; [split; [done | by eexists] | left; by eexists | done].
    + split; [| split]; [| by right | done].
      split; [by intros (r & [=] & _) | done].
  - simpl. split; [| split]; [| by right | by intros ? [= <-]].
    split; [by intros (r & [=] & _) | done].
Qed.

End Classification.

(** C2, as stated, fails: a run that prints [PASS] while the compiler
    reports [undefined: Add] is classified as a failure although none of
    the five listed markers occurs, and a run whose error output holds
    [undefined reference] is classified as a success. *)
Lemma classification_differs_from_listed_markers :
  testsPassed (Resolved "PASS" "./calc_test.go:9:7: undefined: Add")
    ≠ specSuccess "PASS" "./calc_test.go:9:7: undefined: Add"
  ∧ testsPassed (Resolved "ok" "ld: undefined reference to main")
    ≠ specSuccess "ok" "ld: undefined reference to main".
Proof. split; vm_compute; discriminate. Qed.

(** ** Guidance for the regeneration prompt *)

Lemma guidanceText_inj (g1 g2 : Guidance) :
  guidanceText g1 = guidanceText g2 → g1 = g2.
Proof. destruct g1, g2; (reflexivity || discriminate). Qed.

Lemma errorGuidance_cases (e : string) :
  errorGuidance e =
    guidanceText
      (if Str.includes e "redeclared" then DuplicateDeclaration
       else if Str.includes e "undefined:" then UndefinedReference
       else if Str.includes e "unknown field" then FieldMismatch
       else if Str.includes e "syntax error" then SyntaxError
       else Generic).
Proof. unfold errorGuidance. by repeat case_match. Qed.

(** C6, as amended: every error text selects exactly one of the five
    guidance categories, the category of the first of [redeclared],
    [undefined:], [unknown field], [syntax error] it contains, in this
    order, and the generic category when it contains none of them; the
    five sentences are distinct, so the category is determined by the
    sentence.  In particular a text containing [redeclared] selects the
    duplicate-declaration category, and a text containing [syntax error]
    selects the syntax-error category when it contains none of the three
    markers tested before it.  The selected sentence is part of the
    regeneration prompt. *)
Theorem guidance_classification (H : Host) (codeContent : string)
    (examples : list Row) (testFramework : TestFramework) (attempt : nat)
    (e : string) :
  errorGuidance e
  = guidanceText
      (if Str.includes e "redeclared" then DuplicateDeclaration
       else if Str.includes e "undefined:" then UndefinedReference
       else if Str.includes e "unknown field" then FieldMismatch
       else if Str.includes e "syntax error" then SyntaxError
       else Generic)
  ∧ (∃ g, errorGuidance e = guidanceText g
          ∧ ∀ g', errorGuidance e = guidanceText g' → g' = g)
  ∧ (Str.includes e "redeclared" = true →
     errorGuidance e = guidanceText DuplicateDeclaration)
  ∧ (Str.includes e "syntax error" = true →
     Str.includes e "redeclared" = false →
     Str.includes e "undefined:" = false →
     Str.includes e "unknown field" = false →
     errorGuidance e = guidanceText SyntaxError)
  ∧ Str.includes (userPromptRetry H codeContent examples testFramework e attempt)
                 (errorGuidance e) = true.
Proof.
  split; [| split; [| split; [| split]]].
  - apply errorGuidance_cases.
  - rewrite errorGuidance_cases. eexists. split; [reflexivity |].
    intros g' Hg. by apply guidanceText_inj.
  - intros Hr. by rewrite errorGuidance_cases, Hr.
  - intros Hs Hr Hu Hf. by rewrite errorGuidance_cases, Hr, Hu, Hf, Hs.
  - unfold userPromptRetry, Str.lines. apply includes_concat.
    do 14 right. by left.
Qed.

(** C6, as stated, fails: an error text that contains [syntax error]
    after [redeclared] selects the duplicate-declaration category, not the
    syntax-error one. *)
Lemma syntax_error_loses_to_redeclared :
  let e := "./calc_test.go:4:2: testing redeclared in this block; 9:1: syntax error" in
  Str.includes e "syntax error" = true
  ∧ errorGuidance e = guidanceText DuplicateDeclaration
  ∧ errorGuidance e ≠ guidanceText SyntaxError.
Proof. vm_compute. by repeat split. Qed.

(** ** Validation of the source path *)

Section Validation.
Variables (H : Host) (workDir : string).

(** C9: when the resolved source path does not exist, is not a regular
    file, or the given path does not end in [.go], [execute] returns the
    structured error [{error, filePath}] carrying the path it was given;
    for a path that cannot be examined the error text is the message of
    the error [fs.stat] rejected with.  The only effect of the call is
    the [tool_call] notice sent before validation: the disk is unchanged
    and no service is called, nothing is generated or written, and no
    test is run or retried. *)
Theorem invalid_source_rejected (filePath : string)
    (testFramework : option TestFramework) (coverageTarget : option Q)
    (w : World) :
  let fullPath := path_resolve H workDir filePath in
  let notice := EvSend (ToolCallGenerate filePath (default testing testFramework)
                                         coverageTarget) in
  fs w !! fullPath = None
  ∨ fs w !! fullPath = Some Dir
  ∨ Str.endsWith filePath ".go" = false →
  let error :=
    match fs w !! fullPath with
    | None => message (fs_stat_error H (logged w [notice]) fullPath)
    | Some Dir => "Path is not a file: " +:+ filePath
    | Some (File _) => "File is not a Go file: " +:+ filePath
    end in
  execute H workDir filePath testFramework coverageTarget w =
    (Ok (ToolError error filePath), logged w [notice]).
Proof.
  intros fullPath notice Hbad. unfold execute. fold fullPath. step.
  rewrite run_fs_stat, fs_logged.
  destruct (fs w !! fullPath) as [[c |] |] eqn:Hfs.
  - destruct Hbad as [[=] | [[=] | Hgo]]. step. simpl isFile. cbv beta iota.
    rewrite Hgo. by step.
  - by step.
  - by step.
Qed.

End Validation.

(** A run of C9: the source path names nothing on the sample disk. *)
Lemma invalid_source_rejected_witness :
  execute sampleHost "/work" "missing.go" None None sampleWorld =
    (Ok (ToolError "ENOENT: no such file or directory, stat '/work/missing.go'"
                   "missing.go"),
     logged sampleWorld [EvSend (ToolCallGenerate "missing.go" testing None)]).
Proof.
  apply (invalid_source_rejected sampleHost "/work" "missing.go" None None sampleWorld).
  left. reflexivity.
Defined.

(** ** The retry loop *)

Lemma run_fs_writeFile (H : Host) (p c : string) (w : World) :
  fs_writeFile H p c w =
    match fs w !! p with
    | Some Dir => (Throw (fs_writeFile_error H w p), w)
    | _ => (Ok tt, {| fs := <[p := File c]> (fs w); trace := trace w ++ [EvWrite p c] |})
    end.
Proof. reflexivity. Qed.

Lemma execOutcomes_app (a b : list Event) :
  execOutcomes (a ++ b) = execOutcomes a ++ execOutcomes b.
Proof. apply omap_app. Qed.

Lemma generateResults_app (a b : list Event) :
  generateResults (a ++ b) = generateResults a ++ generateResults b.
Proof. apply omap_app. Qed.

Section Loop.
Variables (H : Host) (workDir testFilePath originalCode : string).
Variables (examples : list Row) (testFramework : TestFramework).
Variable coverageTarget : option Q.

Local Abbreviation fullTestPath := (path_resolve H workDir testFilePath).
Local Abbreviation command := (testCommand testFilePath).
Local Abbreviation toolCall := (EvSend (ToolCallRunCommand command 30000%Z)).

(** The test file holds a non-empty artifact. *)
Local Abbreviation artifactAt w :=
  (∃ c, fs w !! fullTestPath = Some (File c) ∧ c ≠ "").

Lemma finalTestContent_nonempty (tf : TestFramework) (clean : string) :
  finalTestContent tf clean ≠ "".
Proof. by apply concat_nonempty. Qed.

Lemma fallbackTemplateRetry_nonempty (tf : TestFramework) (e : string) (n : nat) :
  fallbackTemplateRetry tf e n ≠ "".
Proof. by apply concat_nonempty. Qed.


Lemma generateTestsWithErrorContext_run (errorMessage : string) (attempt : nat)
    (w : World) :
  let system := systemPromptRetry H testFramework coverageTarget in
  let user := userPromptRetry H originalCode examples testFramework errorMessage attempt in
  let result := generateText H w system user in
  generateTestsWithErrorContext H originalCode examples testFramework
      coverageTarget errorMessage attempt w =
    (Ok match result with
        | Ok text => finalTestContent testFramework (cleanResponse H text)
        | Throw _ => fallbackTemplateRetry testFramework errorMessage attempt
        end,
     logged w [EvGenerate system user result]).
Proof.
  unfold generateTestsWithErrorContext. step. unfold callGenerateText.
  cbv zeta. by destruct (generateText H w _ _).
Qed.

(** The [catch] block never throws, runs no test, and leaves an
    artifact where there was one. *)
Lemma onFailure_spec (attempt : nat) (error : JsError) (w : World) :
  ∃ w' evs,
    onFailure H workDir testFilePath originalCode examples testFramework
              coverageTarget attempt error w = (Ok tt, w')
    ∧ trace w' = trace w ++ evs
    ∧ execOutcomes evs = []
    ∧ (artifactAt w → artifactAt w').
Proof.
  unfold onFailure. cbv zeta. step.
  destruct (attempt <? maxRetries)%nat.
  - step. rewrite generateTestsWithErrorContext_run. cbv zeta. step.
    rewrite run_fs_writeFile, !fs_logged.
    set (newTestContent := match generateText H _ _ _ with
                           | Ok text => finalTestContent testFramework (cleanResponse H text)
                           | Throw _ => _ end).
    assert (newTestContent ≠ "") as Hne.
    { subst newTestContent. destruct (generateText H _ _ _);
        [apply finalTestContent_nonempty | apply fallbackTemplateRetry_nonempty]. }
    destruct (fs w !! fullTestPath) as [[c |] |] eqn:Hfs; step.
    + eexists _, _. split; [reflexivity |].
      cbn [trace logged]. rewrite <- !app_assoc.
      split; [reflexivity |]. split; [reflexivity |].
      intros _. exists newTestContent. cbn [fs logged].
      by rewrite lookup_insert_eq.
    + eexists _, _. split; [reflexivity |].
      cbn [trace logged]. rewrite <- !app_assoc.
      split; [reflexivity |]. split; [reflexivity |].
      cbn [fs logged]. rewrite Hfs. by intros (c & [=] & _).
    + eexists _, _. split; [reflexivity |].
      cbn [trace logged]. rewrite <- !app_assoc.
      split; [reflexivity |]. split; [reflexivity |].
      intros _. exists newTestContent. cbn [fs logged].
      by rewrite lookup_insert_eq.
  - step. eexists _, _. split; [reflexivity |].
    cbn [trace logged]. split; [reflexivity |]. split; [reflexivity |]. done.
Qed.

Local Abbreviation passNotice attempt out :=
  (EvSend (Response ("✅ Tests passed on attempt " +:+ Str.ofNat attempt +:+ "!")
                    (Some out))).

(** One turn of the loop: it returns when the run passed, and otherwise
    hands the error of the run to the next turn. *)
Lemma iteration_run (attempt : nat) (w : World) :
  let o := execAsync H (logged w [toolCall]) command workDir in
  let run := iteration H workDir testFilePath originalCode examples
                       testFramework coverageTarget attempt w in
  match o with
  | Resolved out _ =>
      testsPassed o = true
      ∧ run = (Ok (inl (TestsPassed attempt out)),
               logged w [toolCall; EvExec command workDir o; passNotice attempt out])
      ∨ testsPassed o = false
        ∧ ∃ w' evs,
            run = (Ok (inr (caughtError H o)), w')
            ∧ trace w' = trace w ++ toolCall :: EvExec command workDir o :: evs
            ∧ execOutcomes evs = []
            ∧ (artifactAt w → artifactAt w')
  | Rejected e =>
      ∃ w' evs,
        run = (Ok (inr e), w')
        ∧ trace w' = trace w ++ toolCall :: EvExec command workDir o :: evs
        ∧ execOutcomes evs = []
        ∧ (artifactAt w → artifactAt w')
  end.
Proof.
  cbv zeta. unfold iteration. step. rewrite runAttempt_run. cbv zeta.
  destruct (execAsync H (logged w [toolCall]) command workDir) as [out err | e] eqn:Ho.
  - destruct (testsPassed (Resolved out err)) eqn:Hp.
    + left. split; [done |]. step. by rewrite !logged_logged.
    + right. split; [done |]. step.
      destruct (onFailure_spec attempt (caughtError H (Resolved out err))
                  (logged (logged w [toolCall]) [EvExec command workDir (Resolved out err)]))
        as (w' & evs & -> & Htr & Hex & Hart).
      step. exists w', evs. split; [done |].
      rewrite Htr. cbn [trace logged]. rewrite <- !app_assoc. done.
  - step.
    destruct (onFailure_spec attempt e
                (logged (logged w [toolCall]) [EvExec command workDir (Rejected e)]))
      as (w' & evs & -> & Htr & Hex & Hart).
    step. exists w', evs. split; [done |].
    rewrite Htr. cbn [trace logged]. rewrite <- !app_assoc. done.
Qed.

(** The error a turn leaves in [lastError]. *)
Local Abbreviation finalOf lastError evs :=
  (match last (execOutcomes evs) with
   | Some o => Some (caughtError H o)
   | None => lastError
   end).

(** The loop always returns.  When none of the runs it starts passes,
    it starts one run for every value of [attempt] up to the ceiling and
    returns the failure report built from the last error. *)
Local Abbreviation loopSpec attempt lastError w res :=
  (∃ r w' evs,
     res = (Ok r, w')
     ∧ trace w' = trace w ++ evs
     ∧ (artifactAt w → artifactAt w')
     ∧ length (execOutcomes evs) ≤ S maxRetries - attempt
     ∧ (Forall (λ o, testsPassed o = false) (execOutcomes evs) →
        length (execOutcomes evs) = S maxRetries - attempt
        ∧ r = TestsFailed maxRetries
                (Str.orElse (message <$> finalOf lastError evs) "Unknown error")
                (Str.orElse (finalOf lastError evs ≫= stdout) ""))).

Lemma retryLoop_spec (attempt : nat) (lastError : option JsError) (w : World) :
  loopSpec attempt lastError w
    (retryLoop H workDir testFilePath originalCode examples testFramework
               coverageTarget attempt lastError w).
Proof.
  revert attempt lastError w.
  apply (retryLoop_elim H workDir testFilePath originalCode examples
           testFramework coverageTarget
           (λ attempt lastError w res, loopSpec attempt lastError w res)).
  - (* the loop condition is false *)
    intros attempt Hgt lastError w _. unfold allAttemptsFailed. cbv zeta. step.
    eexists _, _, _. split; [reflexivity |].
    split; [reflexivity |]. split; [done |]. cbn. split; [lia |].
    intros _. split; [lia | done].
  - (* the body returned: the run passed *)
    intros attempt Hle lastError w r w' Hit _.
    pose proof (iteration_run attempt w) as Hrun. cbv zeta in Hrun.
    rewrite Hit in Hrun.
    destruct (execAsync H (logged w [toolCall]) command workDir) as [out err | e] eqn:Ho.
    + destruct Hrun as [[Hp [= -> ->]] | [_ (? & ? & [=] & _)]].
      eexists _, _, _. split; [reflexivity |]. split; [reflexivity |].
      split; [done |]. cbn. split; [unfold maxRetries in *; lia |].
      intros Hall. apply Forall_cons in Hall as [Hf _]. congruence.
    + by destruct Hrun as (? & ? & [=] & _).
  - (* the body fell through the catch: next turn *)
    intros attempt Hle lastError w error w1 IH Hit _.
    destruct IH as (r & w2 & evs2 & Hloop & Htr2 & Hart2 & Hbound2 & Hfail2).
    pose proof (iteration_run attempt w) as Hrun. cbv zeta in Hrun.
    rewrite Hit in Hrun.
    assert (∃ o evs1,
               error = caughtError H o
               ∧ trace w1 = trace w ++ toolCall :: EvExec command workDir o :: evs1
               ∧ execOutcomes evs1 = []
               ∧ (artifactAt w → artifactAt w1)) as (o & evs1 & -> & Htr1 & Hex1 & Hart1).
    { destruct (execAsync H (logged w [toolCall]) command workDir) as [out err | e].
      - destruct Hrun as [[_ [=]] | [_ (? & evs1 & [= -> ->] & ? & ? & ?)]].
        by exists (Resolved out err), evs1.
      - destruct Hrun as (? & evs1 & [= -> ->] & ? & ? & ?).
        by exists (Rejected e), evs1. }
    exists r, w2, (toolCall :: EvExec command workDir o :: evs1 ++ evs2).
    split; [done |]. split.
    { rewrite Htr2, Htr1, <- app_assoc. done. }
    split; [tauto |].
    change (toolCall :: EvExec command workDir o :: evs1 ++ evs2)
      with ([toolCall; EvExec command workDir o] ++ evs1 ++ evs2).
    rewrite !execOutcomes_app, Hex1. cbn [execOutcomes omap list_omap app].
    split; [cbn [length]; unfold maxRetries in *; lia |].
    intros Hall. apply Forall_cons in Hall as [Ho Hall].
    destruct (Hfail2 Hall) as [Hlen ->]. split.
    { cbn [length]. rewrite Hlen. unfold maxRetries in *. lia. }
    f_equal; by destruct (execOutcomes evs2) as [| o' l] using rev_ind;
      [| rewrite app_comm_cons, !last_snoc].
  - (* the body threw: it never does *)
    intros attempt Hle lastError w e w' Hit _.
    pose proof (iteration_run attempt w) as Hrun. cbv zeta in Hrun.
    rewrite Hit in Hrun.
    destruct (execAsync H (logged w [toolCall]) command workDir) as [out err | e'].
    + by destruct Hrun as [[_ [=]] | [_ (? & ? & [=] & _)]].
    + by destruct Hrun as (? & ? & [=] & _).
Qed.

(** Whatever the runs do, the loop returns a result after at most
    [maxRetries] = 3 of them. *)
Lemma at_most_three_runs (w : World) :
  ∃ r w' evs,
    executeTestsWithRetry H workDir testFilePath originalCode examples
      testFramework coverageTarget w = (Ok r, w')
    ∧ trace w' = trace w ++ evs
    ∧ length (execOutcomes evs) ≤ 3.
Proof.
  destruct (retryLoop_spec 1 None w) as (r & w' & evs & Heq & Htr & _ & Hbound & _).
  by exists r, w', evs.
Qed.

(** C1: in a run of [executeTestsWithRetry] in which no test run
    passes, exactly [maxRetries] = 3 test runs are started, and the loop
    then returns [{success: false, attempts: 3, finalError, output}]
    where [finalError] is the message of the error of the third run (or
    [Unknown error] when that message is empty) and [output] its
    captured standard output. *)
Theorem retry_ceiling (w : World) (evs : list Event) :
  let run := executeTestsWithRetry H workDir testFilePath originalCode
               examples testFramework coverageTarget w in
  trace (snd run) = trace w ++ evs →
  Forall (λ o, testsPassed o = false) (execOutcomes evs) →
  length (execOutcomes evs) = 3
  ∧ ∃ r o,
      fst run = Ok r
      ∧ success r = false
      ∧ last (execOutcomes evs) = Some o
      ∧ r = TestsFailed 3
              (Str.orElse (Some (message (caughtError H o))) "Unknown error")
              (Str.orElse (stdout (caughtError H o)) "").
Proof.
  intros run Htr Hall. subst run. unfold executeTestsWithRetry in *.
  destruct (retryLoop_spec 1 None w) as (r & w' & evs' & Heq & Htr' & _ & _ & Hfail).
  rewrite Heq in Htr |- *. cbn [fst snd] in *.
  rewrite Htr' in Htr. apply app_inv_head in Htr as ->.
  destruct (Hfail Hall) as [Hlen ->]. split; [exact Hlen |].
  destruct (last (execOutcomes evs)) as [o |] eqn:Hlast.
  - eexists _, o. by repeat split.
  - apply last_None in Hlast. by rewrite Hlast in Hlen.
Qed.

End Loop.

(** A run of C1 on the sample host, whose test runner always exits with
    an error. *)
Lemma retry_ceiling_witness :
  let run := executeTestsWithRetry sampleHost "/work" "calc_test.go" "package main"
               [] testing None sampleWorld in
  length (execOutcomes (trace (snd run))) = 3
  ∧ ∃ r o,
      fst run = Ok r
      ∧ success r = false
      ∧ last (execOutcomes (trace (snd run))) = Some o
      ∧ r = TestsFailed 3
              (Str.orElse (Some (message (caughtError sampleHost o))) "Unknown error")
              (Str.orElse (stdout (caughtError sampleHost o)) "").
Proof.
  apply (retry_ceiling sampleHost "/work" "calc_test.go" "package main" []
           testing None sampleWorld).
  - reflexivity.
  - vm_compute. by repeat constructor.
Defined.


(** ** The fallback artifact *)


Section Fallback.
Variables (H : Host) (workDir : string).


(** The run of [searchVectorDatabase] once the URL is set: the client
    is built, the connection opened, the query sent if it was opened, and
    the connection closed. *)
Lemma searchVectorDatabase_run (embedding : list Q) (w : World) (url : string) :
  envSet (env_KEPLOY_EMBED_DATABASE_URL H) = Some url →
  let vector := "[" +:+ String.concat "," (map (numberToString H) embedding) +:+ "]" in
  let wrap (e0 : JsError) := Error ("Database search failed: " +:+ message e0) in
  let w1 := logged w [EvConnect url] in
  let tried : Outcome (list Row) * World :=
    match pg_connect H w url with
    | Throw e0 => (Throw (wrap e0), w1)
    | Ok _ => (match pg_query H w1 url vector with
               | Ok rows => Ok rows
               | Throw e0 => Throw (wrap e0)
               end, logged w1 [EvQuery url vector])
    end in
  searchVectorDatabase H embedding w =
    match pg_Client H w url with
    | Throw e => (Throw e, w)
    | Ok _ => (match pg_end H tried.2 url with
               | Ok _ => tried.1
               | Throw e => Throw e
               end, logged tried.2 [EvEnd url])
    end.
Proof.
  intros Hurl. cbv zeta. unfold searchVectorDatabase.
  destruct (env_KEPLOY_EMBED_DATABASE_URL H) as [[| c u] |]; try discriminate Hurl.
  injection Hurl as <-.
  rewrite run_bind. unfold pgClient at 1.
  destruct (pg_Client H w _); [| done].
  unfold tryFinally, pgEnd. rewrite run_tryCatch, run_bind. unfold pgConnect at 1.
  destruct (pg_connect H w _) as [[] | e0]; [| rewrite run_throw; cbn [fst snd]].
  - cbv zeta. unfold pgQuery.
    destruct (pg_query H _ _ _) as [rows | e0]; [| rewrite run_throw]; cbn [fst snd];
      by destruct (pg_end H _ _).
  - by destruct (pg_end H _ _).
Qed.

Lemma searchVectorDatabase_spec (embedding : list Q) (w : World) :
  ∃ o evs, searchVectorDatabase H embedding w = (o, logged w evs)
           ∧ generateResults evs = [] ∧ execOutcomes evs = [] ∧ writes evs = [].
Proof.
  destruct (envSet (env_KEPLOY_EMBED_DATABASE_URL H)) as [url |] eqn:Hurl.
  - rewrite (searchVectorDatabase_run embedding w url Hurl). cbv zeta.
    destruct (pg_Client H w url); [| eexists _, []; by rewrite logged_nil].
    destruct (pg_connect H w url); cbn [fst snd]; rewrite !logged_logged;
      by eexists _, _.
  - unfold searchVectorDatabase. unfold envSet in Hurl.
    destruct (env_KEPLOY_EMBED_DATABASE_URL H) as [[| c u] |]; try discriminate Hurl;
      eexists _, []; by rewrite logged_nil.
Qed.

Lemma generateTests_run (codeContent : string) (examples : list Row)
    (testFramework : TestFramework) (coverageTarget : option Q) (w : World) :
  let system := systemPrompt H testFramework coverageTarget in
  let user := userPrompt H codeContent examples testFramework in
  let result := generateText H w system user in
  generateTests H codeContent examples testFramework coverageTarget w =
    (Ok match result with
        | Ok text => finalTestContent testFramework (cleanResponse H text)
        | Throw error => fallbackTemplate examples testFramework error
        end,
     logged w [EvGenerate system user result]).
Proof.
  unfold generateTests. step. unfold callGenerateText.
  cbv zeta. by destruct (generateText H w _ _).
Qed.


Lemma stat_exists_run (p : string) (w : World) :
  tryCatch (fs_stat H p;; mret true) (λ _, mret false) w
  = (Ok (bool_decide (is_Some (fs w !! p))), w).
Proof.
  step. rewrite run_fs_stat. destruct (fs w !! p); step; [| done].
  by rewrite bool_decide_eq_true_2.
Qed.

Lemma run_fs_readFile (p : string) (w : World) :
  fs_readFile H p w =
    match fs w !! p with
    | Some (File c) => (Ok c, w)
    | _ => (Throw (fs_readFile_error H w p), w)
    end.
Proof. reflexivity. Qed.




End Fallback.



End WorkerFacts.

(** * The front end: properties *)

Module ClientFacts.
Import Client.

Section Reducer.
Context {T : Toolkit}.

(** ** What the widgets cannot touch *)

Lemma conversation_updateViewport (m : Model) :
  conversation (updateViewport m) = conversation m.
Proof. reflexivity. Qed.

Lemma updateSubcomponents_spec (msg : Msg) (m : Model) (cmds : list Cmd) :
  ∃ ws, conversation (fst (updateSubcomponents msg m cmds)) = conversation m
        ∧ snd (updateSubcomponents msg m cmds) = cmds ++ ws
        ∧ forallb isWidgetCmd ws = true.
Proof.
  unfold updateSubcomponents. destruct (state m) eqn:Hs.
  - destruct (textinput_Update msg (apiKeyInput m)) as [ti c].
    exists [Widget c]. unfold conversation; cbn. by rewrite Hs.
  - destruct (textarea_Update msg (chatInput m)) as [ta c1]. cbn.
    destruct (viewport_Update msg (viewport_ m)) as [vp c2].
    exists [Widget c1; Widget c2]. unfold conversation; cbn. by rewrite Hs.
Qed.

Lemma written_widgets (ws : list Cmd) :
  forallb isWidgetCmd ws = true → written ws = [].
Proof.
  induction ws as [| c ws IH]; [done |]. cbn.
  intros [Hc Hws]%andb_true_iff. destruct c; try done. by apply IH.
Qed.

Lemma written_app (a b : list Cmd) : written (a ++ b) = written a ++ written b.
Proof. apply omap_app. Qed.

(** Every message but Ctrl+C and Esc goes through [dispatch] and then
    through the widgets. *)
Lemma Update_dispatch (now : Time) (msg : Msg) (m : Model) :
  msg ≠ KeyMsg KeyCtrlC → msg ≠ KeyMsg KeyEsc →
  Update now msg m =
    updateSubcomponents msg (fst (dispatch now msg m)) (snd (dispatch now msg m)).
Proof.
  intros Hc He. unfold Update.
  destruct msg as [[] | | | | |]; try done; by destruct (dispatch _ _ _).
Qed.

Lemma Update_agentResponse (now : Time) (type : MessageType) (data : Payload)
    (m : Model) :
  ∃ ws,
    conversation (fst (Update now (agentResponseMsg type data) m))
      = conversation (fst (dispatch now (agentResponseMsg type data) m))
    ∧ snd (Update now (agentResponseMsg type data) m)
      = snd (dispatch now (agentResponseMsg type data) m) ++ ws
    ∧ forallb isWidgetCmd ws = true.
Proof. rewrite Update_dispatch by done. apply updateSubcomponents_spec. Qed.

(** ** Responses *)

Lemma onResponse_empty (now : Time) (data : Payload) (m : Model) :
  content data = "" → status data ≠ "initialized" →
  onResponse now data m = updateViewport m.
Proof.
  intros Hc Hs. unfold onResponse.
  apply String.eqb_neq in Hs. by rewrite Hs, Hc.
Qed.

Lemma onResponse_duplicate (now : Time) (data : Payload) (m : Model)
    (c : ChatMessage) :
  last (messages m) = Some c → Role c = "assistant" →
  Content c = content data → content data ≠ "" → status data ≠ "initialized" →
  onResponse now data m = updateViewport (set_isProcessing false m).
Proof.
  intros Hlast Hrole Hsame Hne Hs. unfold onResponse.
  apply String.eqb_neq in Hs, Hne. rewrite Hs, Hne. cbn [negb].
  unfold lastIs, isAssistant. by rewrite Hlast, Hrole, Hsame, !String.eqb_refl.
Qed.

(** C10: a [response] whose payload has empty content and a status
    other than [initialized] changes nothing in the conversation state:
    the transcript, [isProcessing] and every other field but the widgets
    are as before.  The viewport is set to the rendering of the same
    transcript, and the only command besides the widgets' own is the
    re-armed listener. *)
Theorem empty_response_ignored (now : Time) (data : Payload) (m : Model) :
  content data = "" → status data ≠ "initialized" →
  let run := Update now (agentResponseMsg MsgResponse data) m in
  messages (fst run) = messages m
  ∧ isProcessing (fst run) = isProcessing m
  ∧ conversation (fst run) = conversation m
  ∧ run = updateSubcomponents (agentResponseMsg MsgResponse data)
            (updateViewport m) [ListenToAgent (agentStdout m)].
Proof.
  intros Hc Hs run. subst run. rewrite Update_dispatch by done.
  cbn [dispatch]. rewrite String.eqb_refl. cbn [fst snd].
  rewrite onResponse_empty by done.
  destruct (updateSubcomponents_spec (agentResponseMsg MsgResponse data)
              (updateViewport m) [ListenToAgent (agentStdout m)])
    as (ws & Hconv & _ & _).
  rewrite conversation_updateViewport in Hconv.
  split; [| split; [| split]]; [| | done | done];
    unfold conversation in Hconv; by simplify_eq.
Qed.

(** C4, as amended: when the transcript ends in an assistant entry with
    content C, C is not empty, and a [response] arrives with content C
    and a status other than [initialized], the transcript is left as it
    is and [isProcessing] is cleared; no other field of the
    conversation state changes, and a second copy of the same response
    changes nothing more. *)
Theorem duplicate_response_dedup (now now' : Time) (data : Payload)
    (m : Model) (c : ChatMessage) :
  last (messages m) = Some c → Role c = "assistant" →
  Content c = content data → content data ≠ "" → status data ≠ "initialized" →
  let msg := agentResponseMsg MsgResponse data in
  let m1 := fst (Update now msg m) in
  let m2 := fst (Update now' msg m1) in
  messages m1 = messages m
  ∧ length (messages m1) = length (messages m)
  ∧ isProcessing m1 = false
  ∧ conversation m1 = conversation (set_isProcessing false m)
  ∧ conversation m2 = conversation m1.
Proof.
  intros Hlast Hrole Hsame Hne Hs msg m1 m2.
  assert (∀ t m0, last (messages m0) = Some c →
            conversation (fst (Update t msg m0))
            = conversation (set_isProcessing false m0)) as Hstep.
  { intros t m0 Hl. subst msg. rewrite Update_dispatch by done.
    cbn [dispatch]. rewrite String.eqb_refl. cbn [fst snd].
    rewrite (onResponse_duplicate t data m0 c) by done.
    destruct (updateSubcomponents_spec (agentResponseMsg MsgResponse data)
                (updateViewport (set_isProcessing false m0))
                [ListenToAgent (agentStdout m0)]) as (ws & Hconv & _ & _).
    by rewrite Hconv. }
  assert (conversation m1 = conversation (set_isProcessing false m)) as H1
    by (by apply Hstep).
  assert (messages m1 = messages m) as Hm1
    by (unfold conversation in H1; by simplify_eq).
  assert (isProcessing m1 = false) as Hp1
    by (unfold conversation in H1; by simplify_eq).
  split; [done |]. split; [by rewrite Hm1 |]. split; [done |]. split; [done |].
  subst m2. rewrite Hstep by (by rewrite Hm1).
  unfold conversation; cbn. by rewrite Hp1.
Qed.

(** ** Stream chunks *)

Lemma lastIs_snoc (P : ChatMessage → bool) (l : list ChatMessage) (c : ChatMessage) :
  lastIs P (l ++ [c]) = P c.
Proof. unfold lastIs. by rewrite last_snoc. Qed.

Lemma lastIs_true_inv (P : ChatMessage → bool) (l : list ChatMessage) :
  lastIs P l = true → ∃ l' c, l = l' ++ [c] ∧ P c = true.
Proof.
  destruct l as [| c l'] using rev_ind; [done |].
  rewrite lastIs_snoc. intros Hc. by exists l', c.
Qed.

Lemma setLastContent_snoc (s : string) (l : list ChatMessage) (c : ChatMessage) :
  setLastContent s (l ++ [c])
  = l ++ [{| Role := Role c; Content := s;
             Timestamp := Timestamp c; IsError := IsError c |}].
Proof.
  unfold setLastContent. rewrite length_app. cbn [length].
  replace (length l + 1 - 1) with (length l + 0) by lia.
  by rewrite alter_app_r.
Qed.

Lemma Update_streamChunk (now : Time) (data : Payload) (m : Model) :
  conversation (fst (Update now (agentResponseMsg MsgStreamChunk data) m))
  = conversation (onStreamChunk now data m).
Proof.
  destruct (Update_agentResponse now MsgStreamChunk data m) as (ws & -> & _).
  reflexivity.
Qed.

(** C5, as amended: a [stream_chunk] with non-empty content and a status
    other than [thinking] replaces the content of the last entry, in
    place, when that entry is an assistant entry, and appends a new
    assistant entry otherwise; nothing else in the conversation state
    changes.  Two such chunks in a row, starting from a transcript that
    does not end in an assistant entry, leave exactly one new entry: an
    assistant entry with the content of the second chunk, so [Hel] then
    [Hello] leaves [Hello]. *)
Theorem stream_chunk_refines (now now' : Time) (data data' : Payload) (m : Model) :
  content data ≠ "" → status data ≠ "thinking" →
  content data' ≠ "" → status data' ≠ "thinking" →
  let m1 := fst (Update now (agentResponseMsg MsgStreamChunk data) m) in
  let m2 := fst (Update now' (agentResponseMsg MsgStreamChunk data') m1) in
  (∀ l c, messages m = l ++ [c] → Role c = "assistant" →
          messages m1 = l ++ [{| Role := "assistant"; Content := content data;
                                 Timestamp := Timestamp c; IsError := IsError c |}])
  ∧ (lastIs isAssistant (messages m) = false →
     messages m1 = messages m ++ [{| Role := "assistant"; Content := content data;
                                     Timestamp := now; IsError := false |}]
     ∧ messages m2 = messages m ++ [{| Role := "assistant"; Content := content data';
                                       Timestamp := now; IsError := false |}])
  ∧ conversation m1 = conversation (set_messages (messages m1) m).
Proof.
  intros Hne Hs Hne' Hs' m1 m2.
  assert (∀ t d m0, content d ≠ "" → status d ≠ "thinking" →
            conversation (fst (Update t (agentResponseMsg MsgStreamChunk d) m0))
            = conversation
                (set_messages
                   (if lastIs isAssistant (messages m0)
                    then setLastContent (content d) (messages m0)
                    else messages m0 ++ [{| Role := "assistant"; Content := content d;
                                            Timestamp := t; IsError := false |}]) m0))
    as Hstep.
  { intros t d m0 Hd Hsd. rewrite Update_streamChunk. unfold onStreamChunk.
    apply String.eqb_neq in Hd, Hsd. rewrite Hd, Hsd. cbn [negb].
    by destruct (lastIs isAssistant (messages m0)). }
  pose proof (Hstep now data m Hne Hs) as H1. fold m1 in H1.
  pose proof (Hstep now' data' m1 Hne' Hs') as H2. fold m2 in H2.
  assert (messages m1 = if lastIs isAssistant (messages m)
                        then setLastContent (content data) (messages m)
                        else messages m ++ [{| Role := "assistant";
                                               Content := content data;
                                               Timestamp := now; IsError := false |}])
    as Hm1 by (unfold conversation in H1; by simplify_eq).
  split; [| split].
  - intros l c Hl Hc. rewrite Hm1, Hl, lastIs_snoc.
    unfold isAssistant. rewrite Hc, String.eqb_refl.
    by rewrite setLastContent_snoc, Hc.
  - intros Hlast. rewrite Hlast in Hm1. split; [done |].
    assert (messages m2 = if lastIs isAssistant (messages m1)
                          then setLastContent (content data') (messages m1)
                          else messages m1 ++ [{| Role := "assistant";
                                                  Content := content data';
                                                  Timestamp := now'; IsError := false |}])
      as -> by (unfold conversation in H2; by simplify_eq).
    rewrite Hm1, lastIs_snoc. unfold isAssistant at 1. cbn [Role].
    by rewrite String.eqb_refl, setLastContent_snoc.
  - rewrite H1. unfold conversation; cbn. by rewrite Hm1.
Qed.

(** ** Sending a chat message *)

(** Closes a goal from [Hin : c ∈ l] when [l] is a list of commands
    that are visibly not [c]. *)
Ltac absurd_elem Hin :=
  cbn in Hin;
  repeat (apply elem_of_cons in Hin as [Hin | Hin]; [discriminate Hin |]);
  by apply elem_of_nil in Hin.

Lemma trySend_refused (now : Time) (m : Model) :
  isProcessing m = true ∨ agentReady m = false → trySend now m = (m, []).
Proof.
  unfold trySend. cbv zeta. intros [-> | ->]; cbn [negb];
    by rewrite ?andb_false_r.
Qed.

(** A chat command is only ever issued from an active, idle session, and
    issuing it marks the session as processing: a second one cannot
    follow until a response or an error has cleared the flag. *)
Lemma send_requires_idle (now : Time) (msg : Msg) (m : Model)
    (stdin : option Handle) (text : string) :
  SendChatMessage stdin text ∈ snd (Update now msg m) →
  state m = StateChat ∧ agentReady m = true ∧ isProcessing m = false
  ∧ isProcessing (fst (Update now msg m)) = true.
Proof.
  assert (∀ t m0 r, trySend t m0 = r → SendChatMessage stdin text ∈ snd r →
            agentReady m0 = true ∧ isProcessing m0 = false
            ∧ conversation (fst r)
              = conversation (set_isProcessing true (set_messages (messages (fst r)) m0)))
    as Hsend.
  { intros t m0 r <-. unfold trySend. cbv zeta.
    destruct (negb _); [| intros Hin; absurd_elem Hin].
    destruct (agentReady m0); [| intros Hin; absurd_elem Hin].
    destruct (isProcessing m0); [intros Hin; absurd_elem Hin |]. done. }
  assert (∀ ws, forallb isWidgetCmd ws = true → SendChatMessage stdin text ∉ ws)
    as Hnotw.
  { intros ws Hws Hin. rewrite forallb_forall in Hws.
    apply list_elem_of_In in Hin. by specialize (Hws _ Hin). }
  assert (msg = KeyMsg KeyCtrlC ∨ msg = KeyMsg KeyEsc
          ∨ (msg ≠ KeyMsg KeyCtrlC ∧ msg ≠ KeyMsg KeyEsc)) as [-> | [-> | [Hc He]]]
    by (destruct msg as [[] | | | | |]; auto).
  { cbn. destruct (agentProcess m); intros Hin; absurd_elem Hin. }
  { cbn. destruct (agentProcess m); intros Hin; absurd_elem Hin. }
  rewrite Update_dispatch by done.
  destruct (updateSubcomponents_spec msg (fst (dispatch now msg m))
              (snd (dispatch now msg m))) as (ws & Hconv & -> & Hws).
  intros [Hin | Hin]%elem_of_app; [| by apply Hnotw in Hin].
  assert (state m = StateChat
          ∧ ∃ r, trySend now m = r ∧ dispatch now msg m = r) as [Hst (r & Hr & Hd)].
  { destruct msg as [[] | | | t d | |]; cbn [dispatch] in Hin |- *;
      try absurd_elem Hin.
    - destruct (state m); cbn [isStateAPIKey isStateChat andb] in *.
      + destruct (negb (isProcessing m)); [| absurd_elem Hin].
        destruct (negb _); absurd_elem Hin.
      + destruct (negb (Str.includes _ _)); [| absurd_elem Hin]. eauto.
    - destruct (state m); cbn [isStateChat] in *; [absurd_elem Hin |]. eauto.
    - repeat case_match; absurd_elem Hin. }
  rewrite Hd in Hin, Hconv. destruct (Hsend now m r Hr Hin) as (Hready & Hidle & Hc').
  split; [done |]. split; [done |]. split; [done |].
  rewrite Hd. rewrite Hc' in Hconv. unfold conversation in Hconv. by simplify_eq.
Qed.

Lemma written_inv (cmds : list Cmd) :
  written cmds ≠ [] → ∃ stdin text, SendChatMessage stdin text ∈ cmds.
Proof.
  induction cmds as [| c cmds IH]; [done |]. intros Hw.
  destruct c as [p | | k | o | stdin text | c];
    try (destruct (IH Hw) as (stdin' & text' & Hin);
         exists stdin', text'; apply elem_of_cons; by right).
  exists stdin, text. apply elem_of_cons. by left.
Qed.

(** Bytes are written to the worker only from an active, idle session,
    and the call that writes them marks the session as processing. *)
Lemma written_requires_idle (now : Time) (msg : Msg) (m : Model) :
  written (snd (Update now msg m)) ≠ [] →
  state m = StateChat ∧ agentReady m = true ∧ isProcessing m = false
  ∧ isProcessing (fst (Update now msg m)) = true.
Proof.
  intros (stdin & text & Hin)%written_inv. by eapply send_requires_idle.
Qed.

(** C8, as amended: while a request is being processed, or before the
    session is active, a chat send (Ctrl+S, or Enter where it is not the
    submission of the API key) does nothing to the conversation: no
    command to write to the worker is issued, so no envelope reaches its
    input stream, the transcript gets no user entry, and every field of
    the model but the widgets is the same; the key only reaches the
    widgets.  And a key press that does write to the worker finds the
    session on the chat screen, ready and idle, and leaves [isProcessing]
    set, so that the next call of [Update] writes nothing, whatever its
    message. *)
Theorem busy_send_is_noop (now : Time) (key : KeyType) (m : Model) :
  let run := Update now (KeyMsg key) m in
  (key = KeyCtrlS
   ∨ (key = KeyEnter ∧ ¬ (state m = StateAPIKey ∧ isProcessing m = false)) →
   isProcessing m = true ∨ agentReady m = false ∨ state m = StateAPIKey →
   written (snd run) = []
   ∧ forallb isWidgetCmd (snd run) = true
   ∧ messages (fst run) = messages m
   ∧ isProcessing (fst run) = isProcessing m
   ∧ conversation (fst run) = conversation m
   ∧ run = updateSubcomponents (KeyMsg key) m [])
  ∧ (written (snd run) ≠ [] →
     state m = StateChat ∧ agentReady m = true ∧ isProcessing m = false
     ∧ isProcessing (fst run) = true
     ∧ ∀ now' msg', written (snd (Update now' msg' (fst run))) = []).
Proof.
  intros run. split.
  - intros Hkey Hbusy.
    assert (dispatch now (KeyMsg key) m = (m, [])) as Hd.
    { destruct Hkey as [-> | [-> Hnot]]; cbn [dispatch].
      - destruct (state m); cbn [isStateChat]; [done |].
        apply trySend_refused. by destruct Hbusy as [? | [? | ?]]; auto.
      - destruct (state m) eqn:Hst; cbn [isStateAPIKey isStateChat andb].
        + destruct (isProcessing m); [done | by destruct Hnot].
        + destruct (negb (Str.includes _ _)); [| done].
          apply trySend_refused. by destruct Hbusy as [? | [? | ?]]; auto. }
    assert (run = updateSubcomponents (KeyMsg key) m []) as Hrun.
    { subst run. rewrite Update_dispatch, Hd; [done | |];
        by destruct Hkey as [-> | [-> _]]. }
    destruct (updateSubcomponents_spec (KeyMsg key) m []) as (ws & Hconv & Hcmds & Hws).
    rewrite <- Hrun in Hconv, Hcmds. cbn [app] in Hcmds.
    rewrite Hcmds. split; [by apply written_widgets |]. split; [done |].
    split; [| split; [| split]]; [| | done | done];
      unfold conversation in Hconv; by simplify_eq.
  - intros Hw. destruct (written_requires_idle now (KeyMsg key) m Hw)
      as (Hst & Hready & Hidle & Hset).
    fold run in Hset. repeat (split; [done |]).
    intros now' msg'.
    destruct (written (snd (Update now' msg' (fst run)))) as [| line lines] eqn:Hnext;
      [done |].
    destruct (written_requires_idle now' msg' (fst run)) as (_ & _ & Hidle' & _);
      [by rewrite Hnext | congruence].
Qed.


End Reducer.

(** ** Runs on the plain toolkit *)

(** A run of C10: an empty acknowledgement while a request is being
    processed. *)
Lemma empty_response_ignored_witness :
  let m := chatModel [assistantSays "Done."] "" true in
  let run := Update 7%Z (agentResponseMsg MsgResponse (payload "ok" "")) m in
  messages (fst run) = messages m
  ∧ isProcessing (fst run) = isProcessing m
  ∧ conversation (fst run) = conversation m
  ∧ run = updateSubcomponents (agentResponseMsg MsgResponse (payload "ok" ""))
            (updateViewport m) [ListenToAgent (agentStdout m)].
Proof.
  apply (empty_response_ignored (T := plainToolkit) 7%Z (payload "ok" "")
           (chatModel [assistantSays "Done."] "" true)).
  - reflexivity.
  - discriminate.
Defined.

(** A run of C4 as amended: the final response repeats the streamed
    text. *)
Lemma duplicate_response_dedup_witness :
  let m := chatModel [assistantSays "Done."] "" true in
  let msg := agentResponseMsg MsgResponse (payload "" "Done.") in
  let m1 := fst (Update 7%Z msg m) in
  let m2 := fst (Update 8%Z msg m1) in
  messages m1 = messages m
  ∧ length (messages m1) = length (messages m)
  ∧ isProcessing m1 = false
  ∧ conversation m1 = conversation (set_isProcessing false m)
  ∧ conversation m2 = conversation m1.
Proof.
  apply (duplicate_response_dedup (T := plainToolkit) 7%Z 8%Z (payload "" "Done.")
           (chatModel [assistantSays "Done."] "" true) (assistantSays "Done.")).
  - reflexivity.
  - reflexivity.
  - reflexivity.
  - discriminate.
  - discriminate.
Defined.

(** C4, as stated, fails: a [response] whose payload carries the content
    of the last assistant entry together with the status [initialized]
    takes the handshake branch and appends a system entry; and when the
    shared content is empty, [isProcessing] is not cleared. *)
Lemma same_content_response_can_change_transcript :
  (let m := chatModel [assistantSays "Done."] "" true in
   let m1 := fst (Update 7%Z (agentResponseMsg MsgResponse
                                (payload "initialized" "Done.")) m) in
   messages m1 ≠ messages m ∧ length (messages m1) = 2)
  ∧ (let m := chatModel [assistantSays ""] "" true in
     let m1 := fst (Update 7%Z (agentResponseMsg MsgResponse (payload "" "")) m) in
     isProcessing m1 = true).
Proof. split; vm_compute; [split; [discriminate | reflexivity] | reflexivity]. Qed.

(** A run of C5 as amended: [Hel] then [Hello] after a user entry. *)
Lemma stream_chunk_refines_witness :
  let user := {| Role := "user"; Content := "Hi"; Timestamp := 1%Z; IsError := false |} in
  let m := chatModel [user] "" true in
  let m1 := fst (Update 7%Z (agentResponseMsg MsgStreamChunk (payload "" "Hel")) m) in
  let m2 := fst (Update 8%Z (agentResponseMsg MsgStreamChunk (payload "" "Hello")) m1) in
  (∀ l c, messages m = l ++ [c] → Role c = "assistant" →
          messages m1 = l ++ [{| Role := "assistant"; Content := "Hel";
                                 Timestamp := Timestamp c; IsError := IsError c |}])
  ∧ (lastIs isAssistant (messages m) = false →
     messages m1 = messages m ++ [{| Role := "assistant"; Content := "Hel";
                                     Timestamp := 7%Z; IsError := false |}]
     ∧ messages m2 = messages m ++ [{| Role := "assistant"; Content := "Hello";
                                       Timestamp := 7%Z; IsError := false |}])
  ∧ conversation m1 = conversation (set_messages (messages m1) m).
Proof.
  intros user.
  apply (stream_chunk_refines (T := plainToolkit) 7%Z 8%Z (payload "" "Hel")
           (payload "" "Hello") (chatModel [user] "" true)); discriminate.
Defined.

(** C5, as stated, fails: a [stream_chunk] with non-empty content and
    status [thinking] takes the progress branch; the last assistant entry
    keeps its content and a system entry is appended. *)
Lemma thinking_chunk_does_not_refine :
  let m := chatModel [assistantSays "Hel"] "" true in
  let m1 := fst (Update 7%Z (agentResponseMsg MsgStreamChunk
                               (payload "thinking" "Hello")) m) in
  messages m1 ≠ [assistantSays "Hello"]
  ∧ messages m1 = [assistantSays "Hel";
                   {| Role := "system"; Content := "💭 Thinking...";
                      Timestamp := 7%Z; IsError := false |}].
Proof. vm_compute. split; [discriminate | reflexivity]. Qed.

(** A run of C8: Ctrl+S with text in the chat box while a request is
    being processed. *)
Lemma busy_send_is_noop_witness :
  let m := chatModel [assistantSays "Done."] "next question" true in
  let run := Update 7%Z (KeyMsg KeyCtrlS) m in
  written (snd run) = []
  ∧ forallb isWidgetCmd (snd run) = true
  ∧ messages (fst run) = messages m
  ∧ isProcessing (fst run) = isProcessing m
  ∧ conversation (fst run) = conversation m
  ∧ run = updateSubcomponents (KeyMsg KeyCtrlS) m [].
Proof.
  apply (proj1 (busy_send_is_noop (T := plainToolkit) 7%Z KeyCtrlS
                  (chatModel [assistantSays "Done."] "next question" true))).
  - left. reflexivity.
  - left. reflexivity.
Defined.

(** C8, as stated, fails in its last clause.  The flag is the only guard,
    and a [response] with content clears it; the tool sends such
    responses while it is still serving a request (here the notice of the
    first failed test run, with two more runs to come).  After that
    notice a second chat envelope is written, the first request still
    being served. *)
Lemma second_request_before_first_completes :
  let progress := "❌ Test attempt 1 failed: ./calc_test.go:3:1: syntax error" in
  let served := Worker.trace (snd (Worker.execute Worker.sampleHost "/work" "calc.go"
                                     None None Worker.sampleWorld)) in
  let m0 := chatModel [] "write tests for calc.go" false in
  let run1 := Update 1%Z (KeyMsg KeyCtrlS) m0 in
  let run2 := Update 2%Z (agentResponseMsg MsgResponse (payload "" progress)) (fst run1) in
  let m2 := set_chatInput (T := plainToolkit) "and for util.go" (fst run2) in
  let run3 := Update 3%Z (KeyMsg KeyCtrlS) m2 in
  served !! 9 = Some (Worker.EvSend (Worker.Response progress (Some "FAIL")))
  ∧ Worker.wireType (Worker.Response progress (Some "FAIL")) = MsgResponse
  ∧ length (Worker.execOutcomes (drop 10 served)) = 2
  ∧ written (snd run1) = [(2, writtenLine (chatMsg "write tests for calc.go"))]
  ∧ isProcessing (fst run1) = true
  ∧ written (snd run2) = []
  ∧ isProcessing (fst run2) = false
  ∧ conversation m2 = conversation (fst run2)
  ∧ written (snd run3) = [(2, writtenLine (chatMsg "and for util.go"))].
Proof. vm_compute. by repeat split. Qed.

(** ** The line written for a chat message *)

(** A message of letters and spaces is written as one envelope line, and
    double quotes are escaped. *)
Lemma plain_message_line :
  writtenLine (chatMsg "hello world")
  = "{" +:+ Str.dq +:+ "type" +:+ Str.dq +:+ ":" +:+ Str.dq +:+ "chat" +:+ Str.dq
    +:+ "," +:+ Str.dq +:+ "data" +:+ Str.dq +:+ ":{" +:+ Str.dq +:+ "message"
    +:+ Str.dq +:+ ":" +:+ Str.dq +:+ "hello world" +:+ Str.dq +:+ "}}" +:+ Str.nl
  ∧ isEnvelopeLine (writtenLine (chatMsg "hello world")) = true
  ∧ isEnvelopeLine (writtenLine (chatMsg ("say " +:+ Str.dq +:+ "hi" +:+ Str.dq))) = true.
Proof. vm_compute. by repeat split. Qed.

(** C7 fails on the code.  Only double quotes are escaped when the chat
    envelope is built, and nothing is when the init envelope is built.  A
    message that ends in a backslash, or holds a newline (sent with
    Ctrl+S), and an API key that holds a double quote, make the payload
    ill-formed JSON: [json.Marshal] fails, its error is dropped, and the
    line written to the worker is empty, which no reader parses as an
    envelope.  The transcript still records the message as sent. *)
Theorem unescaped_payload_writes_empty_line :
  let text := "C:" +:+ Str.bs in
  let run := Update 7%Z (KeyMsg KeyCtrlS) (chatModel [] text false) in
  In (SendChatMessage (T := plainToolkit) (Some 2) text) (snd run)
  ∧ written (snd run) = [(2, Str.nl)]
  ∧ isProcessing (fst run) = true
  ∧ isEnvelopeLine (writtenLine (chatMsg text)) = false
  ∧ writtenLine (chatMsg ("line one" +:+ Str.nl +:+ "line two")) = Str.nl
  ∧ fst (startAgent (Spawned 1 2 3) ("key" +:+ Str.dq +:+ "tail")) = Some (2, Str.nl).
Proof. vm_compute. repeat split; auto. Qed.

End ClientFacts.


(** * The worker-side tool: further properties *)

Module WorkerMore.
Import Worker StrFacts WorkerFacts.

(** ** The derived test path *)

Lemma rev_app_append (a b c : string) :
  String.rev_app (a +:+ b) c = String.rev_app b (String.rev_app a c).
Proof.
  revert c. induction a as [| x a IH]; intros c; [done |].
  rewrite sapp_cons. cbn [String.rev_app]. apply IH.
Qed.

Lemma rev_app_spec (a c : string) :
  String.rev_app a c = String.rev a +:+ c.
Proof.
  revert c. induction a as [| x a IH]; intros c; [done |].
  unfold String.rev. cbn [String.rev_app].
  rewrite (IH (String x c)), (IH (String x "")), sapp_assoc. done.
Qed.

Lemma rev_append (a b : string) :
  String.rev (a +:+ b) = String.rev b +:+ String.rev a.
Proof. unfold String.rev at 1. by rewrite rev_app_append, rev_app_spec. Qed.

Lemma rev_involutive (s : string) : String.rev (String.rev s) = s.
Proof.
  induction s as [| x s IH]; [done |].
  change (String.rev (String x s)) with (String.rev_app s (String x "")).
  by rewrite rev_app_spec, rev_append, IH.
Qed.

Lemma endsWith_append (stem suffix : string) :
  Str.endsWith (stem +:+ suffix) suffix = true.
Proof.
  unfold Str.endsWith, String.rev.
  rewrite rev_app_append, (rev_app_spec suffix (String.rev_app stem "")).
  apply prefix_app.
Qed.

Lemma length_append (a b : string) :
  String.length (a +:+ b) = String.length a + String.length b.
Proof. induction a as [| x a IH]; [done |]. rewrite sapp_cons. cbn. by rewrite IH. Qed.

Lemma substring_append (a b : string) :
  String.substring 0 (String.length a) (a +:+ b) = a.
Proof.
  induction a as [| x a IH]; [by destruct b |].
  rewrite sapp_cons. cbn. by rewrite IH.
Qed.

(** X1: a path that ends in [.go] gets its test path by replacing that
    final [.go] with [_test.go], whatever comes before it (other dots, an
    earlier [.go], a name that already ends in [_test]); any other path is
    left as it is. *)
Theorem replaceGoSuffix_spec (filePath : string) :
  (∀ stem, filePath = stem +:+ ".go" →
           Str.replaceGoSuffix filePath = stem +:+ "_test.go")
  ∧ (Str.endsWith filePath ".go" = false → Str.replaceGoSuffix filePath = filePath)
  ∧ (Str.endsWith filePath ".go" = true →
     ∃ stem, filePath = stem +:+ ".go"
             ∧ Str.endsWith (Str.replaceGoSuffix filePath) "_test.go" = true).
Proof.
  assert (∀ stem, Str.replaceGoSuffix (stem +:+ ".go") = stem +:+ "_test.go") as Hstem.
  { intros stem. unfold Str.replaceGoSuffix. rewrite endsWith_append, length_append.
    cbn [String.length]. replace (String.length stem + 3 - 3) with (String.length stem) by lia.
    by rewrite substring_append. }
  split; [by intros stem -> |]. split.
  - intros Hno. unfold Str.replaceGoSuffix. by rewrite Hno.
  - intros Hyes. unfold Str.endsWith in Hyes.
    apply prefix_inv in Hyes as [r Hr]. exists (String.rev r).
    assert (filePath = String.rev r +:+ ".go") as ->.
    { rewrite <- (rev_involutive filePath), Hr, rev_append. done. }
    split; [done |]. rewrite Hstem. apply endsWith_append.
Qed.

(** ** The two services *)

Section Services.
Variable H : Host.

(** X2: [generateEmbedding] makes no request when the service URL is unset
    or empty, and throws the configuration error as it is.  Otherwise it
    makes exactly one request; it returns the first embedding of a
    successful reply, and every other outcome (a network error, a reply
    that is not ok, a body that is not JSON, no embedding in it) is thrown
    as an error whose message starts with [Failed to generate embedding: ]. *)
Theorem generateEmbedding_behaviour (content : string) (w : World) :
  let run := generateEmbedding H content w in
  match envSet (env_KEPLOY_EMBEDDING_SERVICE_URL H) with
  | None =>
      run = (Throw (Error "KEPLOY_EMBEDDING_SERVICE_URL environment variable not set"), w)
  | Some url =>
      snd run = logged w [EvFetch url content]
      ∧ (∀ embedding,
           fst run = Ok embedding ↔
           ∃ status statusText rest,
             fetch H w url content
             = FetchResponse true status statusText (Ok (Some (embedding :: rest))))
      ∧ (∀ e, fst run = Throw e →
              ∃ reason, e = Error ("Failed to generate embedding: " +:+ reason))
  end.
Proof.
  cbv zeta. unfold generateEmbedding, envSet.
  destruct (env_KEPLOY_EMBEDDING_SERVICE_URL H) as [[| c url] |]; [done | | done].
  step.
  destruct (fetch H w (String c url) content)
    as [e | [] status text [[[| first rest] |] | e]]; cbn [negb]; step; cbn [fst snd];
    (split; [done |]); (split; [| intros e' [= <-]; by eexists]);
    intros emb; (split; [intros [=]; subst; by eauto | intros (? & ? & ? & [=]); by subst]).
Qed.

(** X3: [searchVectorDatabase] touches nothing when the database URL is
    unset or empty, and throws the configuration error as it is; an error
    of the client's constructor is thrown as it is too.  Once the client
    is built, the connection is opened once and closed once, last; the
    query is sent, once, exactly when the connection was opened.  The
    rows are returned only when the connection, the query and the closing
    all succeeded; an error of the connection or of the query is thrown
    as [Database search failed: ] followed by its message, unless the
    closing fails, whose error is thrown as it is. *)
Theorem searchVectorDatabase_behaviour (embedding : list Q) (w : World) :
  let run := searchVectorDatabase H embedding w in
  match envSet (env_KEPLOY_EMBED_DATABASE_URL H) with
  | None =>
      run = (Throw (Error "KEPLOY_EMBED_DATABASE_URL environment variable not set"), w)
  | Some url =>
      let vector := "[" +:+ String.concat "," (map (numberToString H) embedding) +:+ "]" in
      let w1 := logged w [EvConnect url] in
      match pg_Client H w url with
      | Throw e => run = (Throw e, w)
      | Ok _ =>
          ∃ queries,
            let w2 := logged w (EvConnect url :: queries) in
            snd run = logged w (EvConnect url :: queries ++ [EvEnd url])
            ∧ queries = match pg_connect H w url with
                        | Ok _ => [EvQuery url vector]
                        | Throw _ => []
                        end
            ∧ (∀ rows, fst run = Ok rows ↔
                       (∃ u, pg_connect H w url = Ok u)
                       ∧ pg_query H w1 url vector = Ok rows
                       ∧ ∃ u, pg_end H w2 url = Ok u)
            ∧ (∀ e, fst run = Throw e ↔
                    pg_end H w2 url = Throw e
                    ∨ ((∃ u, pg_end H w2 url = Ok u)
                       ∧ ∃ e0, e = Error ("Database search failed: " +:+ message e0)
                               ∧ (pg_connect H w url = Throw e0
                                  ∨ ((∃ u, pg_connect H w url = Ok u)
                                     ∧ pg_query H w1 url vector = Throw e0))))
      end
  end.
Proof.
  cbv zeta.
  destruct (envSet (env_KEPLOY_EMBED_DATABASE_URL H)) as [url |] eqn:Hurl.
  2: { unfold searchVectorDatabase. unfold envSet in Hurl.
       by destruct (env_KEPLOY_EMBED_DATABASE_URL H) as [[| c u] |]. }
  rewrite (searchVectorDatabase_run H embedding w url Hurl). cbv zeta.
  destruct (pg_Client H w url) as [[] | e]; [| done].
  destruct (pg_connect H w url) as [[] | e0] eqn:Hconnect; cbn [fst snd].
  - exists [EvQuery url ("[" +:+ String.concat "," (map (numberToString H) embedding) +:+ "]")].
    rewrite !logged_logged. cbn [app]. split; [done |]. split; [done |].
    destruct (pg_query H _ url _) as [rows | e0];
      destruct (pg_end H _ url) as [[] | e1]; split.
    + intros rows'. split; [intros [= <-]; by eauto | by intros (_ & [= <-] & _)].
    + intros e. split; [done |].
      intros [[=] | (_ & e0 & _ & [[=] | (_ & [=])])].
    + intros rows'. split; [done | by intros (_ & _ & ? & [=])].
    + intros e. split; [intros [= <-]; by left |].
      intros [[= <-] | ((? & [=]) & _)]. done.
    + intros rows'. split; [done | by intros (_ & [=] & _)].
    + intros e. split.
      * intros [= <-]. right. split; [by eauto |]. exists e0. split; [done |].
        right. by eauto.
      * intros [[=] | (_ & e0' & -> & [[=] | (_ & [= <-])])]. done.
    + intros rows'. split; [done | by intros (_ & _ & ? & [=])].
    + intros e. split; [intros [= <-]; by left |].
      intros [[= <-] | ((? & [=]) & _)]. done.
  - exists []. rewrite !logged_logged. cbn [app]. split; [done |]. split; [done |].
    destruct (pg_end H _ url) as [[] | e1]; split.
    + intros rows'. split; [done | by intros ((? & [=]) & _)].
    + intros e. split.
      * intros [= <-]. right. split; [by eauto |]. exists e0. by auto.
      * intros [[=] | (_ & e0' & -> & [[= <-] | ((? & [=]) & _)])]. done.
    + intros rows'. split; [done | by intros ((? & [=]) & _)].
    + intros e. split; [intros [= <-]; by left |].
      intros [[= <-] | ((? & [=]) & _)]. done.
Qed.

End Services.

(** ** The artifacts and the retry loop, in full *)

Lemma finalTestContent_header (tf : TestFramework) (clean : string) :
  String.prefix (artifactHeader tf) (finalTestContent tf clean) = true.
Proof.
  replace (finalTestContent tf clean) with (artifactHeader tf +:+ clean +:+ Str.nl);
    [apply prefix_app |].
  unfold artifactHeader, finalTestContent, Str.lines. by rewrite !sapp_assoc.
Qed.

Lemma fallbackTemplate_header (examples : list Row) (tf : TestFramework) (e : JsError) :
  String.prefix (artifactHeader tf) (fallbackTemplate examples tf e) = true.
Proof.
  unfold fallbackTemplate, Str.lines.
  match goal with
  | |- String.prefix _ (String.concat _ (_ :: _ :: _ :: _ :: ?rest)) = true =>
      replace (String.concat Str.nl ("package main" :: "" :: importStatement tf :: "" :: rest))
        with (artifactHeader tf +:+ String.concat Str.nl rest);
        [apply prefix_app |]
  end.
  unfold artifactHeader. by rewrite !sapp_assoc.
Qed.

Lemma fallbackTemplateRetry_header (tf : TestFramework) (e : string) (n : nat) :
  String.prefix (artifactHeader tf) (fallbackTemplateRetry tf e n) = true.
Proof.
  unfold fallbackTemplateRetry, Str.lines.
  match goal with
  | |- String.prefix _ (String.concat _ (_ :: _ :: _ :: _ :: ?rest)) = true =>
      replace (String.concat Str.nl ("package main" :: "" :: importStatement tf :: "" :: rest))
        with (artifactHeader tf +:+ String.concat Str.nl rest);
        [apply prefix_app |]
  end.
  unfold artifactHeader. by rewrite !sapp_assoc.
Qed.

Lemma writes_app (a b : list Event) : writes (a ++ b) = writes a ++ writes b.
Proof. apply omap_app. Qed.

Section LoopMore.
Variables (H : Host) (workDir testFilePath originalCode : string).
Variables (examples : list Row) (testFramework : TestFramework).
Variable coverageTarget : option Q.

Local Abbreviation fullTestPath := (path_resolve H workDir testFilePath).
Local Abbreviation command := (testCommand testFilePath).
Local Abbreviation toolCall := (EvSend (ToolCallRunCommand command 30000%Z)).
Local Abbreviation goodWrite := (λ pc : string * string,
  pc.1 = fullTestPath ∧ String.prefix (artifactHeader testFramework) pc.2 = true).
Local Abbreviation failedRun := (λ o : ExecOutcome, testsPassed o = false).
Local Abbreviation headed w :=
  (∃ c, fs w !! fullTestPath = Some (File c)
        ∧ String.prefix (artifactHeader testFramework) c = true).

(** The [catch] block calls the backend once when another attempt is
    left and not at all after the last one; what it writes is an artifact
    at the test path. *)
Lemma onFailure_detail (attempt : nat) (error : JsError) (w : World) :
  ∃ w' evs,
    onFailure H workDir testFilePath originalCode examples testFramework
              coverageTarget attempt error w = (Ok tt, w')
    ∧ trace w' = trace w ++ evs
    ∧ execOutcomes evs = []
    ∧ length (generateResults evs) = (if (attempt <? maxRetries)%nat then 1 else 0)
    ∧ length (writes evs) ≤ length (generateResults evs)
    ∧ Forall goodWrite (writes evs)
    ∧ (∀ p, p ≠ fullTestPath → fs w' !! p = fs w !! p)
    ∧ (headed w → headed w').
Proof.
  unfold onFailure. cbv zeta. step.
  destruct (attempt <? maxRetries)%nat.
  - step. rewrite generateTestsWithErrorContext_run. cbv zeta. step.
    rewrite run_fs_writeFile, !fs_logged.
    set (newTestContent := match generateText H _ _ _ with
                           | Ok text => finalTestContent testFramework (cleanResponse H text)
                           | Throw _ => _ end).
    assert (String.prefix (artifactHeader testFramework) newTestContent = true) as Hhead.
    { subst newTestContent. destruct (generateText H _ _ _);
        [apply finalTestContent_header | apply fallbackTemplateRetry_header]. }
    destruct (fs w !! fullTestPath) as [[c |] |] eqn:Hfs; step;
      eexists _, _; (split; [reflexivity |]);
      cbn [trace logged]; rewrite <- !app_assoc;
      (split; [reflexivity |]); (split; [reflexivity |]);
      (split; [reflexivity |]); cbn; (split; [lia |]);
      (split; [by repeat constructor |]);
      (split; [intros p Hp; by rewrite ?lookup_insert_ne |]);
      rewrite ?lookup_insert_eq, ?Hfs; by eauto.
  - step. eexists _, _. split; [reflexivity |].
    cbn [trace logged]. split; [reflexivity |]. by repeat split.
Qed.

(** One turn of the loop that did not pass. *)
Lemma iteration_detail (attempt : nat) (w : World) :
  let o := execAsync H (logged w [toolCall]) command workDir in
  testsPassed o = false →
  ∃ w' evs,
    iteration H workDir testFilePath originalCode examples testFramework
              coverageTarget attempt w = (Ok (inr (caughtError H o)), w')
    ∧ trace w' = trace w ++ toolCall :: EvExec command workDir o :: evs
    ∧ execOutcomes evs = []
    ∧ length (generateResults evs) = (if (attempt <? maxRetries)%nat then 1 else 0)
    ∧ length (writes evs) ≤ length (generateResults evs)
    ∧ Forall goodWrite (writes evs)
    ∧ (∀ p, p ≠ fullTestPath → fs w' !! p = fs w !! p)
    ∧ (headed w → headed w').
Proof.
  cbv zeta. intros Hfail. unfold iteration. step. rewrite runAttempt_run. cbv zeta.
  destruct (execAsync H (logged w [toolCall]) command workDir) as [out err | e] eqn:Ho.
  - rewrite Hfail. step.
    destruct (onFailure_detail attempt (caughtError H (Resolved out err))
                (logged (logged w [toolCall]) [EvExec command workDir (Resolved out err)]))
      as (w' & evs & -> & Htr & Hrest).
    step. exists w', evs. split; [done |].
    split; [rewrite Htr; cbn [trace logged]; by rewrite <- !app_assoc | done].
  - step.
    destruct (onFailure_detail attempt e
                (logged (logged w [toolCall]) [EvExec command workDir (Rejected e)]))
      as (w' & evs & -> & Htr & Hrest).
    step. exists w', evs. split; [done |].
    split; [rewrite Htr; cbn [trace logged]; by rewrite <- !app_assoc | done].
Qed.

(** What a run of the loop from [attempt] leaves behind. *)
Local Abbreviation loopDetail attempt w res :=
  (∃ r w' evs,
     res = (Ok r, w')
     ∧ trace w' = trace w ++ evs
     ∧ (∀ p, p ≠ fullTestPath → fs w' !! p = fs w !! p)
     ∧ (headed w → headed w')
     ∧ Forall goodWrite (writes evs)
     ∧ (maxRetries < attempt →
        execOutcomes evs = [] ∧ generateResults evs = [] ∧ writes evs = [])
     ∧ (attempt ≤ maxRetries →
        ∃ failed o,
          execOutcomes evs = failed ++ [o]
          ∧ Forall failedRun failed
          ∧ attempt + length failed ≤ maxRetries
          ∧ length (generateResults evs) = length failed
          ∧ length (writes evs) ≤ length failed
          ∧ (testsPassed o = true →
             ∃ out err, o = Resolved out err
                        ∧ r = TestsPassed (attempt + length failed) out)
          ∧ (testsPassed o = false →
             attempt + length failed = maxRetries
             ∧ r = TestsFailed maxRetries
                     (Str.orElse (Some (message (caughtError H o))) "Unknown error")
                     (Str.orElse (stdout (caughtError H o)) "")))).

Lemma retryLoop_detail (attempt : nat) (lastError : option JsError) (w : World) :
  loopDetail attempt w
    (retryLoop H workDir testFilePath originalCode examples testFramework
               coverageTarget attempt lastError w).
Proof.
  revert attempt lastError w.
  apply (retryLoop_elim H workDir testFilePath originalCode examples
           testFramework coverageTarget
           (λ attempt lastError w res, loopDetail attempt w res)).
  - (* the loop condition is false *)
    intros attempt Hgt lastError w _. unfold allAttemptsFailed. cbv zeta. step.
    eexists _, _, _. split; [reflexivity |]. split; [reflexivity |].
    split; [done |]. split; [done |]. split; [by constructor |]. split; [done |]. lia.
  - (* the body returned: the run passed *)
    intros attempt Hle lastError w r w' Hit _.
    pose proof (iteration_run H workDir testFilePath originalCode examples
                  testFramework coverageTarget attempt w) as Hrun. cbv zeta in Hrun.
    rewrite Hit in Hrun.
    destruct (execAsync H (logged w [toolCall]) command workDir) as [out err | e] eqn:Ho;
      [| by destruct Hrun as (? & ? & [=] & _)].
    destruct Hrun as [[Hp [= -> ->]] | [_ (? & ? & [=] & _)]].
    eexists _, _, _. split; [reflexivity |]. split; [reflexivity |].
    split; [done |]. split; [done |]. split; [by constructor |]. split; [lia |].
    intros _. exists [], (Resolved out err). cbn [length app].
    rewrite Nat.add_0_r. split; [done |]. split; [done |]. split; [done |].
    split; [done |]. split; [done |]. split; [by eauto | congruence].
  - (* the body fell through the catch: next turn *)
    intros attempt Hle lastError w error w1 IH Hit _.
    set (o := execAsync H (logged w [toolCall]) command workDir) in *.
    assert (testsPassed o = false) as Hfail.
    { pose proof (iteration_run H workDir testFilePath originalCode examples
                    testFramework coverageTarget attempt w) as Hrun.
      cbv zeta in Hrun. fold o in Hrun. rewrite Hit in Hrun.
      destruct o as [out err | e]; [| done].
      by destruct Hrun as [[_ [=]] | [? _]]. }
    destruct (iteration_detail attempt w Hfail)
      as (w1' & evs1 & Hit' & Htr1 & Hex1 & Hgen1 & Hwr1 & Hgood1 & Hframe1 & Hhead1).
    fold o in Hit', Htr1. rewrite Hit in Hit'. injection Hit' as -> <-.
    destruct IH as (r & w2 & evs2 & Hloop & Htr2 & Hframe2 & Hhead2 & Hgood2 & Hexit & Hturn).
    exists r, w2, ([toolCall; EvExec command workDir o] ++ evs1 ++ evs2).
    split; [done |]. split; [rewrite Htr2, Htr1, <- !app_assoc; done |].
    split; [intros p Hp; by rewrite Hframe2, Hframe1 |].
    split; [tauto |].
    rewrite !writes_app, !execOutcomes_app, !generateResults_app, Hex1.
    cbn [writes execOutcomes generateResults omap list_omap app].
    split; [by apply Forall_app |]. split; [lia |]. intros _.
    destruct (decide (attempt + 1 ≤ maxRetries)) as [Hmore | Hlast].
    + destruct (Hturn Hmore)
        as (failed & o' & Hex2 & Hfailed & Hcount & Hgen2 & Hwr2 & Hpass & Hnopass).
      exists (o :: failed), o'. rewrite Hex2. cbn [length app].
      assert ((attempt <? maxRetries)%nat = true) as Hlt by (apply Nat.ltb_lt; lia).
      rewrite Hlt in Hgen1.
      split; [done |]. split; [by constructor |]. split; [lia |].
      rewrite !length_app. split; [lia |]. split; [lia |].
      replace (attempt + S (length failed)) with (attempt + 1 + length failed) by lia.
      done.
    + destruct Hexit as (Hex2 & Hgen2 & Hwr2); [lia |].
      exists [], o. rewrite Hex2. cbn [length app].
      assert ((attempt <? maxRetries)%nat = false) as Hlt by (apply Nat.ltb_ge; lia).
      rewrite Hlt in Hgen1. rewrite !length_app, Hgen2, Hwr2. cbn [length].
      split; [done |]. split; [done |]. split; [lia |]. split; [lia |].
      split; [lia |]. split; [congruence |]. intros _. split; [lia |].
      assert (retryLoop H workDir testFilePath originalCode examples testFramework
                coverageTarget (attempt + 1) (Some (caughtError H o)) w1
              = allAttemptsFailed (Some (caughtError H o)) w1) as Hstop.
      { rewrite retryLoop_equation_1.
        destruct (decide (attempt + 1 ≤ maxRetries)); [lia | done]. }
      rewrite Hstop in Hloop. unfold allAttemptsFailed in Hloop. cbv zeta in Hloop.
      step_in Hloop. by injection Hloop as <- _.
  - (* the body threw: it never does *)
    intros attempt Hle lastError w e w' Hit _.
    pose proof (iteration_run H workDir testFilePath originalCode examples
                  testFramework coverageTarget attempt w) as Hrun. cbv zeta in Hrun.
    rewrite Hit in Hrun.
    destruct (execAsync H (logged w [toolCall]) command workDir) as [out err | e'].
    + by destruct Hrun as [[_ [=]] | [_ (? & ? & [=] & _)]].
    + by destruct Hrun as (? & ? & [=] & _).
Qed.

(** X4: the loop stops at the first test run that passes and reports the
    number of that run and its output; it reports failure only when three
    runs in a row failed, with the error of the third.  It never throws and
    never starts a fourth run. *)
Theorem retry_stops_at_first_pass (w : World) :
  ∃ r w' evs failed o,
    executeTestsWithRetry H workDir testFilePath originalCode examples
      testFramework coverageTarget w = (Ok r, w')
    ∧ trace w' = trace w ++ evs
    ∧ execOutcomes evs = failed ++ [o]
    ∧ Forall failedRun failed
    ∧ length failed ≤ 2
    ∧ (testsPassed o = true →
       ∃ out err, o = Resolved out err ∧ r = TestsPassed (1 + length failed) out)
    ∧ (testsPassed o = false →
       length failed = 2
       ∧ r = TestsFailed 3
               (Str.orElse (Some (message (caughtError H o))) "Unknown error")
               (Str.orElse (stdout (caughtError H o)) "")).
Proof.
  destruct (retryLoop_detail 1 None w)
    as (r & w' & evs & Heq & Htr & _ & _ & _ & _ & Hturn).
  destruct Hturn as (failed & o & Hex & Hfailed & Hcount & _ & _ & Hpass & Hnopass);
    [unfold maxRetries; lia |].
  exists r, w', evs, failed, o. unfold maxRetries in *.
  split; [done |]. split; [done |]. split; [done |]. split; [done |].
  split; [lia |]. split; [done |].
  intros Hf. destruct (Hnopass Hf) as [? ?]. split; [lia | done].
Qed.

(** X5: the generative backend is called once between two consecutive
    test runs and never after the last one: a run of the loop with [n] test
    runs makes [n - 1] regeneration calls (none when the first run passes,
    two when all three fail), and writes the test file at most once per
    call. *)
Theorem regeneration_between_runs (w : World) :
  ∃ r w' evs,
    executeTestsWithRetry H workDir testFilePath originalCode examples
      testFramework coverageTarget w = (Ok r, w')
    ∧ trace w' = trace w ++ evs
    ∧ 1 ≤ length (execOutcomes evs) ≤ 3
    ∧ length (generateResults evs) = length (execOutcomes evs) - 1
    ∧ length (writes evs) ≤ length (generateResults evs).
Proof.
  destruct (retryLoop_detail 1 None w)
    as (r & w' & evs & Heq & Htr & _ & _ & _ & _ & Hturn).
  destruct Hturn as (failed & o & Hex & _ & Hcount & Hgen & Hwr & _);
    [unfold maxRetries; lia |].
  exists r, w', evs. unfold maxRetries in *.
  rewrite Hex, length_app, Hgen. cbn [length].
  split; [done |]. split; [done |]. lia.
Qed.

End LoopMore.

(** ** The whole tool *)

Section ExecuteMore.
Variables (H : Host) (workDir : string).

Lemma generateEmbedding_events (content : string) (w : World) :
  ∃ o evs, generateEmbedding H content w = (o, logged w evs)
           ∧ generateResults evs = [] ∧ execOutcomes evs = [] ∧ writes evs = [].
Proof.
  unfold generateEmbedding.
  destruct (env_KEPLOY_EMBEDDING_SERVICE_URL H) as [[| c url] |];
    [eexists _, []; by rewrite logged_nil | | eexists _, []; by rewrite logged_nil].
  step.
  destruct (fetch H w (String c url) content)
    as [e | [] status text [[[| first rest] |] | e]]; cbn [negb]; step;
    by eexists _, [_].
Qed.

Lemma searchVectorDatabase_events (embedding : list Q) (w : World) :
  ∃ o evs, searchVectorDatabase H embedding w = (o, logged w evs)
           ∧ generateResults evs = [] ∧ execOutcomes evs = [] ∧ writes evs = [].
Proof. apply searchVectorDatabase_spec. Qed.

(** Every run of [execute], in one statement. *)
Lemma writes_send (m : WireMessage) (evs : list Event) :
  writes (EvSend m :: evs) = writes evs.
Proof. reflexivity. Qed.

Lemma writes_write (p c : string) (evs : list Event) :
  writes (EvWrite p c :: evs) = (p, c) :: writes evs.
Proof. reflexivity. Qed.

Lemma execOutcomes_write (p c : string) (evs : list Event) :
  execOutcomes (EvWrite p c :: evs) = execOutcomes evs.
Proof. reflexivity. Qed.

Lemma execute_detail (filePath : string) (testFrameworkArg : option TestFramework)
    (coverageTarget : option Q) (w : World) :
  let testFramework := default testing testFrameworkArg in
  let testFilePath := Str.replaceGoSuffix filePath in
  let fullTestPath := path_resolve H workDir testFilePath in
  ∃ r w' evs,
    execute H workDir filePath testFrameworkArg coverageTarget w = (Ok r, w')
    ∧ trace w' = trace w ++ EvSend (ToolCallGenerate filePath testFramework coverageTarget) :: evs
    ∧ (∀ p, p ≠ fullTestPath → fs w' !! p = fs w !! p)
    ∧ Forall (λ pc : string * string,
                pc.1 = fullTestPath
                ∧ String.prefix (artifactHeader testFramework) pc.2 = true) (writes evs)
    ∧ ((∃ error, r = ToolError error filePath
                 ∧ execOutcomes evs = [] ∧ writes evs = [] ∧ fs w' = fs w)
       ∨ (∃ content size created results,
            r = ToolReport filePath testFilePath testFramework size created results
            ∧ fs w !! path_resolve H workDir filePath = Some (File content)
            ∧ Str.endsWith filePath ".go" = true
            ∧ execOutcomes evs ≠ []
            ∧ writes evs ≠ []
            ∧ ∃ c, fs w' !! fullTestPath = Some (File c)
                   ∧ String.prefix (artifactHeader testFramework) c = true)).
Proof.
  intros testFramework testFilePath fullTestPath.
  destruct (execute H workDir filePath testFrameworkArg coverageTarget w)
    as [res w'] eqn:Hrun.
  unfold execute in Hrun. cbv zeta in Hrun.
  fold testFramework testFilePath fullTestPath in Hrun. step_in Hrun.
  set (tc := EvSend (ToolCallGenerate filePath testFramework coverageTarget)) in *.
  (* every way of stopping with an error before anything is written *)
  assert (∀ error evs,
            (Ok (ToolError error filePath), logged w (tc :: evs)) = (res, w') →
            execOutcomes evs = [] → writes evs = [] →
            ∃ r w'0 evs0,
              (res, w') = (Ok r, w'0)
              ∧ trace w'0 = trace w ++ tc :: evs0
              ∧ (∀ p, p ≠ fullTestPath → fs w'0 !! p = fs w !! p)
              ∧ Forall (λ pc : string * string,
                          pc.1 = fullTestPath
                          ∧ String.prefix (artifactHeader testFramework) pc.2 = true)
                       (writes evs0)
              ∧ ((∃ error, r = ToolError error filePath
                           ∧ execOutcomes evs0 = [] ∧ writes evs0 = [] ∧ fs w'0 = fs w)
                 ∨ (∃ content size created results,
                      r = ToolReport filePath testFilePath testFramework size created results
                      ∧ fs w !! path_resolve H workDir filePath = Some (File content)
                      ∧ Str.endsWith filePath ".go" = true
                      ∧ execOutcomes evs0 ≠ []
                      ∧ writes evs0 ≠ []
                      ∧ ∃ c, fs w'0 !! fullTestPath = Some (File c)
                             ∧ String.prefix (artifactHeader testFramework) c = true)))
    as Hstop.
  { intros error evs <- Hex Hwr. eexists _, _, evs. split; [reflexivity |].
    split; [done |]. split; [done |]. rewrite Hwr. split; [by constructor |].
    left. by exists error. }
  rewrite run_fs_stat, fs_logged in Hrun.
  destruct (fs w !! path_resolve H workDir filePath) as [[content |] |] eqn:Hsrc;
    step_in Hrun; cbn [isFile negb] in Hrun; step_in Hrun;
    [| by eapply (Hstop _ []); [exact Hrun | |]
     | by eapply (Hstop _ []); [exact Hrun | |]].
  destruct (Str.endsWith filePath ".go") eqn:Hgo;
    cbn [negb] in Hrun; step_in Hrun; [| by eapply (Hstop _ []); [exact Hrun | |]].
  rewrite run_fs_readFile, fs_logged, Hsrc in Hrun. step_in Hrun.
  destruct (generateEmbedding_events content (logged w [tc]))
    as ([embedding | e] & evsE & HrunE & HgE & HxE & HwE);
    rewrite HrunE, logged_logged in Hrun; step_in Hrun;
    [| by eapply (Hstop _ evsE); [exact Hrun | |]].
  destruct (searchVectorDatabase_events embedding (logged w ([tc] ++ evsE)))
    as ([examples | e] & evsS & HrunS & HgS & HxS & HwS);
    rewrite HrunS, logged_logged in Hrun; step_in Hrun;
    [| rewrite <- app_assoc in Hrun; eapply (Hstop _ (evsE ++ evsS));
       [exact Hrun | by rewrite execOutcomes_app, HxE, HxS
        | by rewrite writes_app, HwE, HwS]].
  rewrite generateTests_run in Hrun. cbv zeta in Hrun. step_in Hrun.
  set (system := systemPrompt H testFramework coverageTarget) in *.
  set (user := userPrompt H content examples testFramework) in *.
  set (result := generateText H (logged w (([tc] ++ evsE) ++ evsS)) system user) in *.
  set (testContent := match result with
                      | Ok text => finalTestContent testFramework (cleanResponse H text)
                      | Throw error => fallbackTemplate examples testFramework error
                      end) in *.
  assert (String.prefix (artifactHeader testFramework) testContent = true) as Hhead.
  { subst testContent. destruct result;
      [apply finalTestContent_header | apply fallbackTemplate_header]. }
  rewrite run_fs_stat, logged_logged, fs_logged in Hrun.
  set (notice := match fs w !! fullTestPath with
                 | Some _ => [EvSend (overwriteNotice testFilePath fullTestPath)]
                 | None => []
                 end).
  set (evs0 := evsE ++ evsS ++ EvGenerate system user result :: notice).
  assert (execOutcomes evs0 = [] ∧ writes evs0 = []) as [Hx0 Hw0].
  { subst evs0 notice. rewrite !execOutcomes_app, !writes_app, HxE, HxS, HwE, HwS.
    by destruct (fs w !! fullTestPath). }
  destruct (fs w !! fullTestPath) as [[c |] |] eqn:Hdst; step_in Hrun;
    rewrite run_fs_writeFile, ?logged_logged, fs_logged, Hdst in Hrun; step_in Hrun.
  2: { (* the test path is a directory: the write fails *)
       eapply (Hstop _ evs0); [| done | done].
       rewrite <- Hrun. subst evs0 notice. by rewrite <- !app_assoc. }
  all: unfold executeTestsWithRetry in Hrun;
    match type of Hrun with
    | context [retryLoop _ _ _ _ _ _ _ 1 None ?w5] =>
        destruct (retryLoop_detail H workDir testFilePath content examples testFramework
                    coverageTarget 1 None w5)
          as (results & w6 & evs1 & Hloop & Htr6 & Hframe6 & Hhead6 & Hgood6 & _ & Hturn)
    end;
    rewrite Hloop in Hrun; step_in Hrun; unfold currentTime in Hrun; step_in Hrun;
    injection Hrun as <- <-;
    destruct Hturn as (failed & o & Hex1 & _); [unfold maxRetries; lia |];
    exists (ToolReport filePath testFilePath testFramework (js_length H testContent)
                       (toISOString H w6) results),
           w6, (evs0 ++ EvWrite fullTestPath testContent :: evs1);
    (split; [done |]);
    (split; [rewrite Htr6; subst evs0 notice; cbn [trace logged];
             rewrite <- !app_assoc; cbn [app]; by rewrite <- ?app_assoc |]);
    (split; [intros p Hp; rewrite Hframe6 by done; cbn [fs];
             by rewrite lookup_insert_ne |]);
    rewrite writes_app, execOutcomes_app, Hw0, Hx0, writes_write, execOutcomes_write;
    cbn [app];
    (split; [by constructor |]);
    right; exists content, (js_length H testContent), (toISOString H w6), results;
    (split; [done |]); (split; [done |]); (split; [done |]);
    (split; [rewrite Hex1; by destruct failed |]); (split; [done |]);
    apply Hhead6; exists testContent; cbn [fs]; by rewrite lookup_insert_eq.
Qed.

(** X6: [execute] never throws.  Whatever the disk and the services do, it
    returns a result object, [{error, filePath}] or the report, that names
    the path it was given (the report also names the derived test path and
    the framework used, [testing] when none was chosen); and the first
    thing it does is send the [tool_call] notice. *)
Theorem execute_always_returns (filePath : string)
    (testFrameworkArg : option TestFramework) (coverageTarget : option Q) (w : World) :
  ∃ r w' evs,
    execute H workDir filePath testFrameworkArg coverageTarget w = (Ok r, w')
    ∧ trace w' = trace w ++ EvSend (ToolCallGenerate filePath (default testing testFrameworkArg)
                                                     coverageTarget) :: evs
    ∧ match r with
      | ToolError _ path => path = filePath
      | ToolReport path testPath framework _ _ _ =>
          path = filePath ∧ testPath = Str.replaceGoSuffix filePath
          ∧ framework = default testing testFrameworkArg
      end.
Proof.
  destruct (execute_detail filePath testFrameworkArg coverageTarget w)
    as (r & w' & evs & Hrun & Htr & _ & _ & Hshape).
  exists r, w', evs. split; [done |]. split; [done |].
  by destruct Hshape as [(? & -> & _) | (? & ? & ? & ? & -> & _)].
Qed.

(** X7: what [execute] itself writes.  Every file write it makes, in the
    first draft and in the regenerations alike, goes to the derived test
    path, and the content written starts with [package main] and the
    import block of the chosen framework. *)
Theorem execute_writes_only_test_file (filePath : string)
    (testFrameworkArg : option TestFramework) (coverageTarget : option Q) (w : World) :
  let testFramework := default testing testFrameworkArg in
  let fullTestPath := path_resolve H workDir (Str.replaceGoSuffix filePath) in
  let run := execute H workDir filePath testFrameworkArg coverageTarget w in
  ∃ evs, trace (snd run) = trace w ++ evs
         ∧ Forall (λ pc : string * string,
                     pc.1 = fullTestPath
                     ∧ String.prefix (artifactHeader testFramework) pc.2 = true)
                  (writes evs).
Proof.
  cbv zeta.
  destruct (execute_detail filePath testFrameworkArg coverageTarget w)
    as (r & w' & evs & -> & Htr & _ & Hgood & _).
  cbn [snd]. eexists (_ :: evs). by split; [exact Htr |].
Qed.

(** X8: [execute] is all or nothing.  When it returns [{error, filePath}]
    it has written nothing, the disk is as it was, and no test was run.
    When it returns the report, the source path named a regular file
    ending in [.go], the test file has been written, at least one test run
    has taken place, and the test path holds an artifact that starts with
    the fixed header. *)
Theorem execute_error_or_report (filePath : string)
    (testFrameworkArg : option TestFramework) (coverageTarget : option Q) (w : World) :
  let testFramework := default testing testFrameworkArg in
  let fullTestPath := path_resolve H workDir (Str.replaceGoSuffix filePath) in
  let run := execute H workDir filePath testFrameworkArg coverageTarget w in
  ∃ evs, trace (snd run) = trace w ++ evs
    ∧ ((∃ error, fst run = Ok (ToolError error filePath)
                 ∧ fs (snd run) = fs w ∧ writes evs = [] ∧ execOutcomes evs = [])
       ∨ (∃ content size created results,
            fst run = Ok (ToolReport filePath (Str.replaceGoSuffix filePath)
                                     testFramework size created results)
            ∧ fs w !! path_resolve H workDir filePath = Some (File content)
            ∧ Str.endsWith filePath ".go" = true
            ∧ writes evs ≠ [] ∧ execOutcomes evs ≠ []
            ∧ ∃ c, fs (snd run) !! fullTestPath = Some (File c)
                   ∧ String.prefix (artifactHeader testFramework) c = true)).
Proof.
  cbv zeta.
  destruct (execute_detail filePath testFrameworkArg coverageTarget w)
    as (r & w' & evs & -> & Htr & _ & _ & Hshape).
  cbn [fst snd]. eexists (_ :: evs). split; [exact Htr |].
  destruct Hshape as [(error & -> & Hx & Hw & Hfs)
                     | (content & size & created & results & -> & Hsrc & Hgo & Hx & Hw & Hart)].
  - left. exists error. by rewrite writes_send.
  - right. exists content, size, created, results. rewrite writes_send. by repeat split.
Qed.

(** X9: a failure of the embedding service or of the similarity query is
    fatal to the call: for a valid source file, [execute] returns
    [{error, filePath}] with the message of that failure, without calling
    the generative backend, writing a file or running a test. *)
Theorem service_failure_aborts (filePath : string)
    (testFrameworkArg : option TestFramework) (coverageTarget : option Q)
    (w : World) (content : string) (e : JsError) :
  let notice := EvSend (ToolCallGenerate filePath (default testing testFrameworkArg)
                                         coverageTarget) in
  let embed := generateEmbedding H content (logged w [notice]) in
  fs w !! path_resolve H workDir filePath = Some (File content) →
  Str.endsWith filePath ".go" = true →
  (fst embed = Throw e
   ∨ ∃ embedding, fst embed = Ok embedding
                  ∧ fst (searchVectorDatabase H embedding (snd embed)) = Throw e) →
  ∃ w' evs,
    execute H workDir filePath testFrameworkArg coverageTarget w
    = (Ok (ToolError (message e) filePath), w')
    ∧ fs w' = fs w
    ∧ trace w' = trace w ++ evs
    ∧ generateResults evs = [] ∧ writes evs = [] ∧ execOutcomes evs = [].
Proof.
  intros notice embed Hsrc Hgo Hfail. subst embed notice.
  unfold execute. cbv zeta. step.
  set (notice := EvSend _) in *.
  rewrite run_fs_stat, fs_logged, Hsrc. step. cbn [isFile negb]. rewrite Hgo.
  cbn [negb]. step. rewrite run_fs_readFile, fs_logged, Hsrc. step.
  destruct (generateEmbedding_events content (logged w [notice]))
    as (o & evsE & HrunE & HgE & HxE & HwE).
  rewrite HrunE in Hfail |- *. cbn [fst snd] in Hfail.
  destruct Hfail as [-> | (embedding & -> & Hsearch)]; step.
  - rewrite logged_logged. eexists _, _. split; [reflexivity |].
    split; [done |]. split; [reflexivity |].
    by rewrite generateResults_app, writes_app, execOutcomes_app, HgE, HwE, HxE.
  - destruct (searchVectorDatabase_events embedding (logged (logged w [notice]) evsE))
      as (o & evsS & HrunS & HgS & HxS & HwS).
    rewrite HrunS in Hsearch |- *. cbn [fst] in Hsearch. subst o. step.
    rewrite !logged_logged. eexists _, _. split; [reflexivity |].
    split; [done |]. split; [reflexivity |].
    by rewrite !generateResults_app, !writes_app, !execOutcomes_app,
         HgE, HwE, HxE, HgS, HwS, HxS.
Qed.

End ExecuteMore.

(** A run of X9: the embedding service is not configured. *)
Lemma service_failure_aborts_witness :
  ∃ w' evs,
    execute offlineHost "/work" "calc.go" None None sampleWorld
    = (Ok (ToolError "KEPLOY_EMBEDDING_SERVICE_URL environment variable not set" "calc.go"),
       w')
    ∧ fs w' = fs sampleWorld
    ∧ trace w' = trace sampleWorld ++ evs
    ∧ generateResults evs = [] ∧ writes evs = [] ∧ execOutcomes evs = [].
Proof.
  apply (service_failure_aborts offlineHost "/work" "calc.go" None None sampleWorld
           "package main"
           (Error "KEPLOY_EMBEDDING_SERVICE_URL environment variable not set")).
  - reflexivity.
  - reflexivity.
  - left. reflexivity.
Defined.

End WorkerMore.


(** * The front end: further properties of [Update] *)

Module ClientMore.
Import Client ClientFacts.

Section Reducer.
Context {T : Toolkit}.

Lemma conversation_fields (a b : Model) :
  conversation a = conversation b →
  state a = state b ∧ messages a = messages b ∧ agentReady a = agentReady b
  ∧ isProcessing a = isProcessing b ∧ err a = err b
  ∧ agentProcess a = agentProcess b ∧ agentStdin a = agentStdin b
  ∧ agentStdout a = agentStdout b ∧ workDir a = workDir b.
Proof. unfold conversation. intros Heq. by simplify_eq. Qed.

Lemma requests_widgets (ws : list Cmd) :
  forallb isWidgetCmd ws = true → filter isRequest ws = [].
Proof.
  induction ws as [| c ws IH]; [done |]. cbn [forallb].
  intros [Hc Hws]%andb_true_iff. destruct c; try done.
  rewrite filter_cons_False by (cbn; auto). by apply IH.
Qed.

Lemma listening_widgets (ws : list Cmd) :
  forallb isWidgetCmd ws = true → listening ws = [].
Proof.
  induction ws as [| c ws IH]; [done |]. cbn.
  intros [Hc Hws]%andb_true_iff. destruct c; try done. by apply IH.
Qed.

Lemma listening_app (a b : list Cmd) : listening (a ++ b) = listening a ++ listening b.
Proof. apply omap_app. Qed.

(** [Update] either quits at once, or runs [dispatch] and then lets the
    widgets see the message; the widgets see none of the conversation
    state and add only commands of their own. *)
Lemma Update_shape (now : Time) (msg : Msg) (m : Model) :
  ((msg = KeyMsg KeyCtrlC ∨ msg = KeyMsg KeyEsc)
   ∧ Update now msg m
     = (m, match agentProcess m with Some p => [Kill p] | None => [] end ++ [Quit]))
  ∨ (msg ≠ KeyMsg KeyCtrlC ∧ msg ≠ KeyMsg KeyEsc
     ∧ ∃ ws, conversation (Update now msg m).1 = conversation (dispatch now msg m).1
             ∧ (Update now msg m).2 = (dispatch now msg m).2 ++ ws
             ∧ forallb isWidgetCmd ws = true).
Proof.
  assert (msg = KeyMsg KeyCtrlC ∨ msg = KeyMsg KeyEsc
          ∨ (msg ≠ KeyMsg KeyCtrlC ∧ msg ≠ KeyMsg KeyEsc)) as [-> | [-> | [Hc He]]].
  { destruct msg as [[] | | | | |]; auto. }
  - left. by split; [left |].
  - left. by split; [right |].
  - right. split; [done |]. split; [done |].
    rewrite Update_dispatch by done. apply updateSubcomponents_spec.
Qed.

(** ** The transcript *)

Lemma trySend_cases (now : Time) (m : Model) :
  let message := TrimSpace (textarea_Value (chatInput m)) in
  (trySend now m = (m, [])
   ∧ (message = "" ∨ agentReady m = false ∨ isProcessing m = true))
  ∨ (message ≠ "" ∧ agentReady m = true ∧ isProcessing m = false
     ∧ (trySend now m).2 = [SendChatMessage (agentStdin m) message]
     ∧ conversation (trySend now m).1
       = conversation
           (set_isProcessing true
              (appendMessage {| Role := "user"; Content := message;
                                Timestamp := now; IsError := false |} m))).
Proof.
  unfold trySend. cbv zeta.
  destruct (String.eqb _ "") eqn:Hmsg; cbn [negb andb].
  { apply String.eqb_eq in Hmsg. left. auto. }
  apply String.eqb_neq in Hmsg.
  destruct (agentReady m) eqn:Hr; cbn [andb]; [| left; auto].
  destruct (isProcessing m) eqn:Hp; cbn [negb]; [left; auto |].
  right. by repeat split.
Qed.

Lemma dispatch_transcript (now : Time) (msg : Msg) (m : Model) :
  (∃ tail, messages (dispatch now msg m).1 = messages m ++ tail
           ∧ length tail ≤ 1 ∧ Forall wellFormedEntry tail)
  ∨ (∃ data prev c,
       msg = agentResponseMsg MsgStreamChunk data
       ∧ content data ≠ ""
       ∧ messages m = prev ++ [c] ∧ Role c = "assistant"
       ∧ messages (dispatch now msg m).1
         = prev ++ [{| Role := "assistant"; Content := content data;
                       Timestamp := Timestamp c; IsError := IsError c |}]).
Proof.
  assert (∀ m0 : Model, messages m0 = messages m →
            ∃ tail, messages m0 = messages m ++ tail
                    ∧ length tail ≤ 1 ∧ Forall wellFormedEntry tail) as Hsame.
  { intros m0 ->. exists []. by rewrite app_nil_r; cbn; auto. }
  assert (∀ (m0 : Model) c, messages m0 = messages m ++ [c] →
            (Role c ≠ "user" ∧ Role c ≠ "assistant" ∨ Content c ≠ "") →
            (IsError c = false ∨ Role c = "system") →
            ∃ tail, messages m0 = messages m ++ tail
                    ∧ length tail ≤ 1 ∧ Forall wellFormedEntry tail) as Hone.
  { intros m0 c -> Hblank Herr. exists [c]. split; [done |]. split; [cbn; lia |].
    constructor; [| done]. split.
    - intros [Hu | Ha]; by destruct Hblank as [[? ?] | ?].
    - intros He. destruct Herr; congruence. }
  assert (∀ t, (∃ tail, messages (trySend t m).1 = messages m ++ tail
                        ∧ length tail ≤ 1 ∧ Forall wellFormedEntry tail)) as Hsend.
  { intros t. destruct (trySend_cases t m) as [[-> _] | (Hmsg & _ & _ & _ & Hconv)].
    - by apply Hsame.
    - apply conversation_fields in Hconv as (_ & Hm & _).
      eapply Hone; [exact Hm | by right | by left]. }
  destruct msg as [k | w h | p i o | type data | e | tag]; cbn [dispatch].
  - left. destruct k; try (by apply Hsame).
    + repeat case_match; try (by apply Hsame); apply Hsend.
    + case_match; [apply Hsend | by apply Hsame].
  - left. by apply Hsame.
  - left. by apply Hsame.
  - destruct (String.eqb type MsgResponse) eqn:Ht1; cbn [fst].
    { left. unfold onResponse.
      destruct (String.eqb (status data) "initialized").
      { eapply Hone; [reflexivity | left; by split | by left]. }
      destruct (String.eqb (content data) "") eqn:Hc; cbn [negb];
        [by apply Hsame |].
      apply String.eqb_neq in Hc.
      destruct (lastIs _ (messages m)); [by apply Hsame |].
      destruct (_ || _); [| by apply Hsame].
      eapply Hone; [reflexivity | by right | by left]. }
    destruct (String.eqb type MsgToolCall) eqn:Ht2; cbn [fst].
    { left. eapply Hone; [reflexivity | left; by split | by left]. }
    destruct (String.eqb type MsgStreamChunk) eqn:Ht3; cbn [fst].
    { apply String.eqb_eq in Ht3 as ->. unfold onStreamChunk.
      destruct (String.eqb (status data) "thinking");
        [left; eapply Hone; [reflexivity | left; by split | by left] |].
      destruct (String.eqb (content data) "") eqn:Hc; cbn [negb];
        [left; by apply Hsame |].
      apply String.eqb_neq in Hc.
      destruct (lastIs isAssistant (messages m)) eqn:Hl;
        [| left; eapply Hone; [reflexivity | by right | by left]].
      right. apply lastIs_true_inv in Hl as (prev & c & Hm & Hc1).
      apply String.eqb_eq in Hc1.
      exists data, prev, c. split; [done |]. split; [done |]. split; [done |].
      split; [done |]. cbn. by rewrite Hm, setLastContent_snoc, Hc1. }
    destruct (String.eqb type MsgError) eqn:Ht4; cbn [fst].
    { left. eapply Hone; [reflexivity | left; by split | by right]. }
    left. by apply Hsame.
  - left. eapply Hone; [reflexivity | left; by split | by right].
  - left. by apply Hsame.
Qed.

Lemma Update_transcript (now : Time) (msg : Msg) (m : Model) :
  (∃ tail, messages (Update now msg m).1 = messages m ++ tail
           ∧ length tail ≤ 1 ∧ Forall wellFormedEntry tail)
  ∨ (∃ data prev c,
       msg = agentResponseMsg MsgStreamChunk data
       ∧ content data ≠ ""
       ∧ messages m = prev ++ [c] ∧ Role c = "assistant"
       ∧ messages (Update now msg m).1
         = prev ++ [{| Role := "assistant"; Content := content data;
                       Timestamp := Timestamp c; IsError := IsError c |}]).
Proof.
  destruct (Update_shape now msg m) as [[_ ->] | (_ & _ & ws & Hconv & _)].
  - left. exists []. by rewrite app_nil_r; cbn; auto.
  - apply conversation_fields in Hconv as (_ & -> & _). apply dispatch_transcript.
Qed.

(** X10: [Update] never removes, reorders or rewrites an entry of the
    transcript, with one exception.  After any message the transcript is
    the old one with at most one entry appended; or the message was a
    [stream_chunk] with content, the old transcript ended in an assistant
    entry, and only the content of that last entry was replaced. *)
Theorem transcript_grows_at_end (now : Time) (msg : Msg) (m : Model) :
  let m' := (Update now msg m).1 in
  (∃ tail, messages m' = messages m ++ tail ∧ length tail ≤ 1)
  ∨ (∃ data prev c,
       msg = agentResponseMsg MsgStreamChunk data
       ∧ content data ≠ ""
       ∧ messages m = prev ++ [c] ∧ Role c = "assistant"
       ∧ messages m'
         = prev ++ [{| Role := "assistant"; Content := content data;
                       Timestamp := Timestamp c; IsError := IsError c |}]).
Proof.
  cbv zeta.
  destruct (Update_transcript now msg m)
    as [(tail & Hm & Hlen & _) | (data & prev & c & Hrest)].
  - left. by exists tail.
  - right. by exists data, prev, c.
Qed.

(** ** The session fields *)




(** ** The listener *)

Lemma dispatch_listening (now : Time) (msg : Msg) (m : Model) :
  listening (dispatch now msg m).2
  = match msg with
    | agentStartedMsg _ _ stdout => [Some stdout]
    | agentResponseMsg _ _ => [agentStdout m]
    | _ => []
    end.
Proof.
  assert (∀ t, listening (trySend t m).2 = []) as Hsend.
  { intros t. by destruct (trySend_cases t m) as [[-> _] | (_ & _ & _ & -> & _)]. }
  destruct msg as [k | w h | p i o | type data | e | tag]; cbn [dispatch];
    try done.
  - destruct k; try done; repeat case_match; by rewrite ?Hsend.
  - by repeat case_match.
Qed.

(** X12: every message that came from the listener, and the start of the
    agent, re-arm the listener exactly once, on the agent's output pipe;
    no other message starts one.  In particular an [errMsg], which is
    what the listener returns when the stream ends or fails, does not
    re-arm it. *)
Theorem listener_rearmed (now : Time) (msg : Msg) (m : Model) :
  listening (Update now msg m).2
  = match msg with
    | agentStartedMsg _ _ stdout => [Some stdout]
    | agentResponseMsg _ _ => [agentStdout m]
    | _ => []
    end.
Proof.
  destruct (Update_shape now msg m)
    as [[Hq ->] | (_ & _ & ws & _ & -> & Hws)].
  - cbn [snd]. destruct Hq as [-> | ->]; destruct (agentProcess m); reflexivity.
  - rewrite listening_app, (listening_widgets ws), app_nil_r by done.
    apply dispatch_listening.
Qed.

(** ** The busy flag *)

Lemma dispatch_requests (now : Time) (msg : Msg) (m : Model) :
  let run := dispatch now msg m in
  (filter isRequest run.2 = []
   ∧ (isProcessing m = false ∧ isProcessing run.1 = true → False))
  ∨ (∃ c, filter isRequest run.2 = [c]
          ∧ isProcessing m = false ∧ isProcessing run.1 = true).
Proof.
  cbv zeta.
  assert (∀ t, (filter isRequest (trySend t m).2 = []
                ∧ (isProcessing m = false ∧ isProcessing (trySend t m).1 = true → False))
               ∨ (∃ c, filter isRequest (trySend t m).2 = [c]
                       ∧ isProcessing m = false
                       ∧ isProcessing (trySend t m).1 = true)) as Hsend.
  { intros t. destruct (trySend_cases t m)
      as [[-> _] | (_ & _ & Hp & -> & Hconv)].
    - left. split; [done |]. cbn. intros [? ?]. congruence.
    - right. apply conversation_fields in Hconv as (_ & _ & _ & -> & _).
      by eexists. }
  assert (∀ m0 : Model, isProcessing m0 = isProcessing m ∨ isProcessing m0 = false →
            filter isRequest ([] : list Cmd) = []
            ∧ (isProcessing m = false ∧ isProcessing m0 = true → False)) as Hkeep.
  { intros m0 Hm0. split; [done |]. intros [? ?]. destruct Hm0; congruence. }
  destruct msg as [k | w h | p i o | type data | e | tag]; cbn [dispatch].
  - destruct k; try (left; apply Hkeep; by left).
    + destruct (isStateAPIKey (state m) && negb (isProcessing m)) eqn:Hk.
      * apply andb_true_iff in Hk as [_ Hp%negb_true_iff].
        case_match; [right; by eexists | left; apply Hkeep; by left].
      * case_match; [apply Hsend | left; apply Hkeep; by left].
    + case_match; [apply Hsend | left; apply Hkeep; by left].
  - left. apply Hkeep. by left.
  - left. apply Hkeep. by left.
  - left.
    set (run := if String.eqb type MsgResponse then _ else _).
    assert (run.2 = [ListenToAgent (agentStdout m)]
            ∧ (isProcessing run.1 = isProcessing m ∨ isProcessing run.1 = false))
      as [-> Hm0].
    { subst run. unfold onResponse, onStreamChunk, onToolCall, onError.
      repeat case_match; cbn; by auto. }
    split; [done |]. intros [? ?]. destruct Hm0; congruence.
  - left. apply Hkeep. by right.
  - left. apply Hkeep. by left.
Qed.

(** X13: requests and the busy flag go together.  A batch of commands
    holds at most one request (the spawn of the worker or a chat send),
    and it holds one exactly when the call found [isProcessing] false and
    left it true.  So no request is issued while one is pending, and
    nothing but a request raises the flag. *)
Theorem request_raises_busy_flag (now : Time) (msg : Msg) (m : Model) :
  let run := Update now msg m in
  length (filter isRequest run.2) ≤ 1
  ∧ (filter isRequest run.2 ≠ []
     ↔ isProcessing m = false ∧ isProcessing run.1 = true).
Proof.
  cbv zeta.
  destruct (Update_shape now msg m)
    as [[Hq ->] | (_ & _ & ws & Hconv & -> & Hws)].
  - cbn [fst snd].
    assert (filter isRequest
              (match agentProcess m with Some p => [Kill p] | None => [] end ++ [Quit])
            = []) as -> by (by destruct (agentProcess m)).
    split; [cbn; lia |]. split; [done |]. intros [? ?]. congruence.
  - apply conversation_fields in Hconv as (_ & _ & _ & -> & _).
    rewrite filter_app, (requests_widgets ws), app_nil_r by done.
    destruct (dispatch_requests now msg m) as [[-> Hno] | (c & -> & Hp & Hp')].
    + split; [cbn; lia |]. by split.
    + split; [cbn; lia |]. by split.
Qed.

Lemma dispatch_unblocks (now : Time) (msg : Msg) (m : Model) :
  isProcessing m = true →
  isProcessing (dispatch now msg m).1 = false
  ↔ ((∃ e, msg = errMsg e)
     ∨ (∃ data, msg = agentResponseMsg MsgError data)
     ∨ (∃ data, msg = agentResponseMsg MsgResponse data
                ∧ (status data = "initialized" ∨ content data ≠ ""))).
Proof.
  intros Hp.
  assert (∀ t, isProcessing (trySend t m).1 = true) as Hsend.
  { intros t. rewrite trySend_refused by auto. done. }
  destruct msg as [k | w h | p i o | type data | e | tag]; cbn [dispatch].
  - split; [| intros [[? ?] | [[? ?] | (? & ? & ?)]]; discriminate].
    destruct k; cbn [fst]; try congruence;
      repeat case_match; cbn [fst]; rewrite ?Hsend; cbn; congruence.
  - cbn. split; [congruence | intros [[? ?] | [[? ?] | (? & ? & ?)]]; discriminate].
  - cbn. split; [congruence | intros [[? ?] | [[? ?] | (? & ? & ?)]]; discriminate].
  - destruct (String.eqb type MsgResponse) eqn:Ht1; cbn [fst].
    { apply String.eqb_eq in Ht1 as ->. unfold onResponse.
      destruct (String.eqb (status data) "initialized") eqn:Hs.
      { apply String.eqb_eq in Hs. cbn. split; [| done].
        intros _. right. right. exists data. auto. }
      apply String.eqb_neq in Hs.
      destruct (String.eqb (content data) "") eqn:Hc; cbn [negb].
      { apply String.eqb_eq in Hc. cbn. split; [congruence |].
        intros [[? ?] | [[? ?] | (d & ? & Hd)]]; simplify_eq.
        destruct Hd; congruence. }
      apply String.eqb_neq in Hc. split.
      - intros _. right. right. exists data. auto.
      - intros _. by repeat case_match. }
    destruct (String.eqb type MsgToolCall) eqn:Ht2; cbn [fst].
    { apply String.eqb_eq in Ht2 as ->. cbn. split; [congruence |].
      intros [[? ?] | [[? ?] | (d & ? & Hd)]]; simplify_eq. }
    destruct (String.eqb type MsgStreamChunk) eqn:Ht3; cbn [fst].
    { apply String.eqb_eq in Ht3 as ->. split.
      - unfold onStreamChunk. repeat case_match; cbn; congruence.
      - intros [[? ?] | [[? ?] | (d & ? & Hd)]]; simplify_eq. }
    destruct (String.eqb type MsgError) eqn:Ht4; cbn [fst].
    { apply String.eqb_eq in Ht4 as ->. cbn. split; [| done].
      intros _. right. left. by exists data. }
    split; [congruence |].
    apply String.eqb_neq in Ht1, Ht4.
    intros [[? ?] | [[? ?] | (d & ? & Hd)]]; simplify_eq.
  - cbn. split; [| done]. intros _. left. by exists e.
  - cbn. split; [congruence | intros [[? ?] | [[? ?] | (? & ? & ?)]]; discriminate].
Qed.

(** X14: what ends a pending request.  While [isProcessing] is set, a
    call clears it exactly when the message is an [errMsg], an [error]
    envelope, or a [response] envelope that is the handshake or carries
    content.  A tool call, a stream chunk, a response with neither, a
    key or a resize leave the front end waiting. *)
Theorem busy_flag_cleared_exactly_by (now : Time) (msg : Msg) (m : Model) :
  isProcessing m = true →
  isProcessing (Update now msg m).1 = false
  ↔ ((∃ e, msg = errMsg e)
     ∨ (∃ data, msg = agentResponseMsg MsgError data)
     ∨ (∃ data, msg = agentResponseMsg MsgResponse data
                ∧ (status data = "initialized" ∨ content data ≠ ""))).
Proof.
  intros Hp.
  destruct (Update_shape now msg m) as [[Hq ->] | (_ & _ & ws & Hconv & _)].
  - cbn [fst]. split; [congruence |]. destruct Hq as [-> | ->]; intros [[? ?] | [[? ?] | (? & ? & ?)]]; discriminate.
  - apply conversation_fields in Hconv as (_ & _ & _ & -> & _).
    by apply dispatch_unblocks.
Qed.

(** ** Sending *)

(** X15: a chat send that goes through.  On the chat screen, with the
    agent ready, no request pending and text in the chat box that is not
    only white space, Ctrl+S, or Enter when the box holds no line break,
    appends one user entry with the trimmed text and the current time,
    sets [isProcessing], and issues exactly one request: the chat send
    of the trimmed text on the agent's input pipe. *)
Theorem ready_send_goes_out (now : Time) (key : KeyType) (m : Model)
    (stdin : Handle) :
  let message := TrimSpace (textarea_Value (chatInput m)) in
  state m = StateChat → agentReady m = true → isProcessing m = false →
  agentStdin m = Some stdin → message ≠ "" →
  key = KeyCtrlS
  ∨ (key = KeyEnter ∧ Str.includes (textarea_Value (chatInput m)) Str.nl = false) →
  let run := Update now (KeyMsg key) m in
  messages run.1 = messages m ++ [{| Role := "user"; Content := message;
                                     Timestamp := now; IsError := false |}]
  ∧ isProcessing run.1 = true
  ∧ filter isRequest run.2 = [SendChatMessage (Some stdin) message].
Proof.
  intros message Hst Hr Hp Hin Hmsg Hkey run. subst run message.
  assert (dispatch now (KeyMsg key) m = trySend now m) as Hd.
  { destruct Hkey as [-> | [-> Hnl]]; cbn [dispatch]; rewrite Hst;
      cbn [isStateAPIKey isStateChat andb]; [done |]. by rewrite Hnl. }
  destruct (Update_shape now (KeyMsg key) m)
    as [[Hq _] | (_ & _ & ws & Hconv & -> & Hws)].
  { destruct Hkey as [-> | [-> _]], Hq; discriminate. }
  rewrite Hd in Hconv |- *.
  destruct (trySend_cases now m)
    as [[_ [? | [? | ?]]] | (_ & _ & _ & Hcmds & Hconv')]; try congruence.
  rewrite Hconv' in Hconv.
  apply conversation_fields in Hconv as (_ & -> & _ & -> & _).
  rewrite Hcmds, Hin, filter_app, (requests_widgets ws) by done.
  by repeat split.
Qed.

(** X16: Enter in a chat box that holds a line break sends nothing.  The
    conversation state is as before and the batch holds only the widgets'
    own commands, whatever the agent's state: in this mode only Ctrl+S
    sends. *)
Theorem multiline_enter_sends_nothing (now : Time) (m : Model) :
  state m = StateChat →
  Str.includes (textarea_Value (chatInput m)) Str.nl = true →
  let run := Update now (KeyMsg KeyEnter) m in
  conversation run.1 = conversation m
  ∧ forallb isWidgetCmd run.2 = true
  ∧ written run.2 = [].
Proof.
  intros Hst Hnl run. subst run.
  destruct (Update_shape now (KeyMsg KeyEnter) m)
    as [[[? | ?] _] | (_ & _ & ws & Hconv & Hcmds & Hws)]; try discriminate.
  revert Hconv Hcmds. cbn [dispatch]. rewrite Hst, Hnl.
  cbn [isStateAPIKey isStateChat andb negb fst snd app].
  intros -> ->. split; [done |]. split; [done |]. by apply written_widgets.
Qed.

(** X17: the API key is submitted once.  On the key screen with no
    request pending, Enter with a key that is not empty issues one
    request, the spawn of the worker with the key as typed, and sets
    [isProcessing]; a second Enter right after it issues none, whatever
    the key box holds by then. *)
Theorem api_key_submitted_once (now now' : Time) (m : Model) :
  let apiKey := textinput_Value (apiKeyInput m) in
  state m = StateAPIKey → isProcessing m = false → apiKey ≠ "" →
  let first := Update now (KeyMsg KeyEnter) m in
  let second := Update now' (KeyMsg KeyEnter) first.1 in
  filter isRequest first.2 = [StartAgent apiKey]
  ∧ isProcessing first.1 = true
  ∧ messages first.1 = messages m
  ∧ filter isRequest second.2 = []
  ∧ written second.2 = []
  ∧ conversation second.1 = conversation first.1.
Proof.
  intros apiKey Hst Hp Hkey first second. subst second.
  assert (conversation first.1 = conversation (set_isProcessing true m)
          ∧ filter isRequest first.2 = [StartAgent apiKey]) as [Hc1 Hr1].
  { subst first.
    destruct (Update_shape now (KeyMsg KeyEnter) m)
      as [[[? | ?] _] | (_ & _ & ws & Hconv & -> & Hws)]; try discriminate.
    revert Hconv. cbn [dispatch]. rewrite Hst, Hp.
    cbn [isStateAPIKey andb negb]. fold apiKey.
    apply String.eqb_neq in Hkey. rewrite Hkey. cbn [negb fst snd].
    intros ->. split; [done |].
    by rewrite filter_app, (requests_widgets ws). }
  clearbody first.
  apply conversation_fields in Hc1 as Hf.
  destruct Hf as (Hst1 & Hm1 & _ & Hp1 & _).
  cbn in Hst1, Hm1, Hp1. rewrite Hst in Hst1.
  split; [done |]. split; [done |]. split; [done |].
  destruct (Update_shape now' (KeyMsg KeyEnter) first.1)
    as [[[? | ?] _] | (_ & _ & ws & Hconv & -> & Hws)]; try discriminate.
  revert Hconv. cbn [dispatch]. rewrite Hst1, Hp1.
  cbn [isStateAPIKey isStateChat andb negb fst snd app].
  intros ->. split; [by apply requests_widgets |].
  split; [by apply written_widgets | done].
Qed.

(** ** Envelopes of other types *)

(** X18: an envelope whose type is none of [response], [tool_call],
    [stream_chunk] and [error] is dropped: the conversation state is as
    before, and the listener is re-armed all the same. *)
Theorem unknown_envelope_ignored (now : Time) (type : MessageType)
    (data : Payload) (m : Model) :
  type ∉ [MsgResponse; MsgToolCall; MsgStreamChunk; MsgError] →
  let run := Update now (agentResponseMsg type data) m in
  conversation run.1 = conversation m
  ∧ listening run.2 = [agentStdout m]
  ∧ written run.2 = [].
Proof.
  intros Hty run. subst run.
  assert (type ≠ MsgResponse ∧ type ≠ MsgToolCall ∧ type ≠ MsgStreamChunk
          ∧ type ≠ MsgError) as (H1 & H2 & H3 & H4).
  { repeat split; intros ->; apply Hty; repeat constructor. }
  apply String.eqb_neq in H1, H2, H3, H4.
  destruct (Update_agentResponse now type data m) as (ws & Hconv & -> & Hws).
  revert Hconv. cbn [dispatch]. rewrite H1, H2, H3, H4. cbn [fst snd].
  intros ->. split; [done |].
  rewrite listening_app, written_app, (listening_widgets ws),
    (written_widgets ws) by done.
  done.
Qed.

(** ** Entries are never blank *)

Lemma Forall_snoc_one {A} (P : A → Prop) (l : list A) (x : A) :
  Forall P l → P x → Forall P (l ++ [x]).
Proof. intros Hl Hx. apply Forall_app. by split; [| constructor]. Qed.

(** X19: the transcript never gets a blank user or assistant entry, and
    only system entries are flagged as errors.  If every entry of the
    transcript is well formed in this sense before a call of [Update],
    every entry is after it, whatever the message. *)
Theorem transcript_entries_well_formed (now : Time) (msg : Msg) (m : Model) :
  Forall wellFormedEntry (messages m) →
  Forall wellFormedEntry (messages (Update now msg m).1).
Proof.
  intros Hm.
  destruct (Update_transcript now msg m)
    as [(tail & -> & _ & Htail) | (data & prev & c & -> & Hc & Hprev & Hrole & ->)].
  - apply Forall_app. by split.
  - rewrite Hprev in Hm. apply Forall_app in Hm as [Hp Hl].
    apply Forall_snoc_one; [done |].
    apply Forall_inv in Hl as [_ Herr].
    split; cbn; [done |]. intros He. specialize (Herr He). congruence.
Qed.

End Reducer.

(** ** The listener *)

Section Listener.
Context {T : Toolkit}.
Variable decode : string → option (MessageType * Payload).

(** [json.Unmarshal] starts by checking that its input is well formed. *)
Hypothesis decode_checks : ∀ line, Json.valid line = false → decode line = None.

Lemma firstEnvelope_noise (noise lines : list string) :
  Forall (λ line, Json.valid line = false) noise →
  firstEnvelope decode (noise ++ lines) = firstEnvelope decode lines.
Proof.
  induction 1 as [| line noise Hline _ IH]; [done |].
  cbn [app firstEnvelope]. rewrite (decode_checks line Hline), IH.
  by destruct (String.eqb line "").
Qed.

Lemma listenToAgent_noise (agentStdout : option Handle)
    (noise lines : list string) (scanEnd : ScanEnd) :
  Forall (λ line, Json.valid line = false) noise →
  listenToAgent decode agentStdout (noise ++ lines) scanEnd
  = listenToAgent decode agentStdout lines scanEnd.
Proof.
  intros Hnoise. unfold listenToAgent. by rewrite firstEnvelope_noise.
Qed.

(** X22: output of the worker that is not an envelope is passed over.
    Lines that are not well-formed JSON (the empty line is one) in front
    of the lines a [listenToAgent] call reads change nothing in what the
    call returns. *)
Theorem listener_skips_noise (agentStdout : option Handle)
    (noise lines : list string) (scanEnd : ScanEnd) :
  Forall (λ line, Json.valid line = false) noise →
  listenToAgent decode agentStdout (noise ++ lines) scanEnd
  = listenToAgent decode agentStdout lines scanEnd.
Proof.
  intros Hnoise. by apply listenToAgent_noise.
Qed.

(** X23: the end of the worker's output ends the listening.  When the
    scanner has nothing but noise left, [listenToAgent] returns an
    [errMsg]; [Update] then records it in [err], appends a system entry
    flagged as an error that quotes it, clears [isProcessing], and does
    not re-arm the listener.  The screen and [agentReady] stay as they
    were. *)
Theorem stream_end_stops_listening (now : Time) (m : Model) (stdout : Handle)
    (noise : list string) (scanEnd : ScanEnd) :
  Forall (λ line, Json.valid line = false) noise →
  let reason := match scanEnd with
                | ScanError r => "agent stream error: " +:+ r
                | ScanEOF => "agent stream closed unexpectedly"
                end in
  let msg := listenToAgent decode (Some stdout) noise scanEnd in
  let run := Update now msg m in
  msg = errMsg reason
  ∧ listening run.2 = []
  ∧ err run.1 = Some reason
  ∧ isProcessing run.1 = false
  ∧ messages run.1 = messages m ++ [{| Role := "system";
                                       Content := "❌ System Error: " +:+ reason;
                                       Timestamp := now; IsError := true |}]
  ∧ state run.1 = state m ∧ agentReady run.1 = agentReady m.
Proof.
  intros Hnoise reason msg run.
  assert (msg = errMsg reason) as Hmsg.
  { subst msg. rewrite <- (app_nil_r noise), listenToAgent_noise by done.
    by destruct scanEnd. }
  split; [done |]. subst run. rewrite Hmsg. clear Hmsg msg.
  destruct (Update_shape now (errMsg reason) m)
    as [[[? | ?] _] | (_ & _ & ws & Hconv & -> & Hws)]; try discriminate.
  apply conversation_fields in Hconv as (-> & -> & -> & -> & -> & _).
  rewrite listening_app, (listening_widgets ws) by done.
  by repeat split.
Qed.

End Listener.

(** A run of X14: a tool call arrives while a request is pending. *)
Lemma busy_flag_cleared_exactly_by_witness :
  let msg := agentResponseMsg MsgToolCall (payload "" "") in
  isProcessing (Update 7%Z msg (chatModel [] "" true)).1 = false
  ↔ ((∃ e, msg = errMsg e)
     ∨ (∃ data, msg = agentResponseMsg MsgError data)
     ∨ (∃ data, msg = agentResponseMsg MsgResponse data
                ∧ (status data = "initialized" ∨ content data ≠ ""))).
Proof.
  apply (busy_flag_cleared_exactly_by (T := plainToolkit) 7%Z
           (agentResponseMsg MsgToolCall (payload "" "")) (chatModel [] "" true)).
  reflexivity.
Defined.

(** A run of X15: Ctrl+S with [  hello ] in the chat box. *)
Lemma ready_send_goes_out_witness :
  let run := Update 7%Z (KeyMsg KeyCtrlS) (chatModel [] "  hello " false) in
  messages run.1 = [] ++ [{| Role := "user"; Content := "hello";
                             Timestamp := 7%Z; IsError := false |}]
  ∧ isProcessing run.1 = true
  ∧ filter isRequest run.2 = [SendChatMessage (T := plainToolkit) (Some 2) "hello"].
Proof.
  apply (ready_send_goes_out (T := plainToolkit) 7%Z KeyCtrlS
           (chatModel [] "  hello " false) 2).
  - reflexivity.
  - reflexivity.
  - reflexivity.
  - reflexivity.
  - vm_compute. discriminate.
  - left. reflexivity.
Defined.

(** A run of X16: Enter after a first line has been typed. *)
Lemma multiline_enter_sends_nothing_witness :
  let m := chatModel [] ("first line" +:+ Str.nl) false in
  let run := Update 7%Z (KeyMsg KeyEnter) m in
  conversation run.1 = conversation m
  ∧ forallb isWidgetCmd run.2 = true
  ∧ written run.2 = [].
Proof.
  apply (multiline_enter_sends_nothing (T := plainToolkit) 7%Z
           (chatModel [] ("first line" +:+ Str.nl) false)).
  - reflexivity.
  - vm_compute. reflexivity.
Defined.

(** A run of X17: Enter twice on the key screen. *)
Lemma api_key_submitted_once_witness :
  let m := keyModel "sk-123" false in
  let first := Update 7%Z (KeyMsg KeyEnter) m in
  let second := Update 8%Z (KeyMsg KeyEnter) first.1 in
  filter isRequest first.2 = [StartAgent (T := plainToolkit) "sk-123"]
  ∧ isProcessing first.1 = true
  ∧ messages first.1 = messages m
  ∧ filter isRequest second.2 = []
  ∧ written second.2 = []
  ∧ conversation second.1 = conversation first.1.
Proof.
  apply (api_key_submitted_once (T := plainToolkit) 7%Z 8%Z (keyModel "sk-123" false)).
  - reflexivity.
  - reflexivity.
  - vm_compute. discriminate.
Defined.

(** A run of X18: the worker echoes a [chat] envelope. *)
Lemma unknown_envelope_ignored_witness :
  let m := chatModel [assistantSays "Done."] "" true in
  let run := Update 7%Z (agentResponseMsg MsgChat (payload "" "hello")) m in
  conversation run.1 = conversation m
  ∧ listening run.2 = [agentStdout m]
  ∧ written run.2 = [].
Proof.
  apply (unknown_envelope_ignored (T := plainToolkit) 7%Z MsgChat
           (payload "" "hello") (chatModel [assistantSays "Done."] "" true)).
  intros Hin. repeat (apply elem_of_cons in Hin as [Hin | Hin]; [discriminate Hin |]).
  by apply elem_of_nil in Hin.
Defined.

(** A run of X19: a chunk refines the last entry of a well-formed
    transcript. *)
Lemma transcript_entries_well_formed_witness :
  Forall wellFormedEntry
    (messages (Update 7%Z (agentResponseMsg MsgStreamChunk (payload "" "Hello"))
                 (chatModel [assistantSays "Hel"] "" true)).1).
Proof.
  apply (transcript_entries_well_formed (T := plainToolkit) 7%Z
           (agentResponseMsg MsgStreamChunk (payload "" "Hello"))
           (chatModel [assistantSays "Hel"] "" true)).
  repeat constructor; cbn; discriminate.
Defined.

Lemma wellFormedOnly_checks (line : string) :
  Json.valid line = false → wellFormedOnly line = None.
Proof. intros Hline. unfold wellFormedOnly. by rewrite Hline. Defined.

(** A run of X22: the banner of the package runner, then an envelope. *)
Lemma listener_skips_noise_witness :
  listenToAgent wellFormedOnly (Some 3) (["> agent@1.0.0 start"; ""] ++ ["{}"]) ScanEOF
  = listenToAgent wellFormedOnly (Some 3) ["{}"] ScanEOF.
Proof.
  apply (listener_skips_noise wellFormedOnly wellFormedOnly_checks).
  repeat constructor.
Defined.

(** A run of X23: the stream ends after the banner. *)
Lemma stream_end_stops_listening_witness :
  let m := chatModel [] "" true in
  let reason := "agent stream closed unexpectedly" in
  let msg := listenToAgent wellFormedOnly (Some 3) ["> agent@1.0.0 start"] ScanEOF in
  let run := Update 7%Z msg m in
  msg = errMsg reason
  ∧ listening run.2 = []
  ∧ err run.1 = Some reason
  ∧ isProcessing run.1 = false
  ∧ messages run.1 = messages m ++ [{| Role := "system";
                                       Content := "❌ System Error: " +:+ reason;
                                       Timestamp := 7%Z; IsError := true |}]
  ∧ state run.1 = state m ∧ agentReady run.1 = agentReady m.
Proof.
  apply (stream_end_stops_listening (T := plainToolkit) wellFormedOnly
           wellFormedOnly_checks 7%Z (chatModel [] "" true) 3
           ["> agent@1.0.0 start"] ScanEOF).
  repeat constructor.
Defined.

End ClientMore.


(** * The lines written to the worker *)

Module EnvelopeFacts.
Import Client StrFacts.

(** ** Line breaks *)

Lemma includes_nl_cons (c : ascii) (s : string) :
  Str.includes (String c s) Str.nl
  = Ascii.eqb c (ascii_of_nat 10) || Str.includes s Str.nl.
Proof.
  cbn [Str.includes]. f_equal. unfold Str.nl. cbn [String.prefix].
  destruct (Ascii.ascii_dec _ c) as [<- | Hne].
  - by destruct s.
  - symmetry. apply Ascii.eqb_neq. congruence.
Qed.

Lemma includes_nl_app (a b : string) :
  Str.includes (a +:+ b) Str.nl = Str.includes a Str.nl || Str.includes b Str.nl.
Proof.
  induction a as [| c a IH]; [done |].
  by rewrite sapp_cons, !includes_nl_cons, IH, orb_assoc.
Qed.

Lemma includes_nl_rev (s : string) :
  Str.includes (String.rev s) Str.nl = Str.includes s Str.nl.
Proof.
  induction s as [| c s IH]; [done |].
  change (String.rev (String c s)) with (String.rev_app s (String c "")).
  rewrite WorkerMore.rev_app_spec, includes_nl_app, IH, !includes_nl_cons.
  cbn [Str.includes String.prefix Str.nl]. by rewrite orb_false_r, orb_comm.
Qed.

Lemma isEnvelopeLine_intro (body : string) :
  Json.valid body = true → Str.includes body Str.nl = false →
  isEnvelopeLine (body +:+ Str.nl) = true.
Proof.
  intros Hv Hnl. unfold isEnvelopeLine.
  rewrite WorkerMore.rev_append.
  change (String.rev Str.nl) with Str.nl. unfold Str.nl at 1. rewrite sapp_cons.
  change ("" +:+ String.rev body) with (String.rev body).
  by rewrite includes_nl_rev, Hnl, WorkerMore.rev_involutive, Hv.
Qed.

(** ** Compaction inside a string literal *)

(** A byte that is copied: none of [<], [>], [&], and not the first byte
    of U+2028 or U+2029. *)
Lemma compactFrom_keep (inString escaped : bool) (c : ascii) (r : string) :
  Ascii.eqb c "<" = false → Ascii.eqb c ">" = false → Ascii.eqb c "&" = false →
  (∀ c1 c2 r2, r = String c1 (String c2 r2) →
     (nat_of_ascii c =? 226) && (nat_of_ascii c1 =? 128)
     && ((nat_of_ascii c2 =? 168) || (nat_of_ascii c2 =? 169)) = false) →
  Json.compactFrom inString escaped (String c r)
  = let inString' :=
      if inString then negb (negb escaped && Ascii.eqb c Json.quote)
      else Ascii.eqb c Json.quote in
    let escaped' := inString && negb escaped && Ascii.eqb c Json.backslash in
    if negb inString && Json.isSpace c then Json.compactFrom inString' escaped' r
    else String c (Json.compactFrom inString' escaped' r).
Proof.
  intros Hlt Hgt Hamp Hsep. cbn [Json.compactFrom]. rewrite Hlt, Hgt, Hamp.
  destruct r as [| c1 [| c2 r2]]; try reflexivity.
  specialize (Hsep c1 c2 r2 eq_refl).
  destruct (nat_of_ascii c =? 226), (nat_of_ascii c1 =? 128),
    (nat_of_ascii c2 =? 168), (nat_of_ascii c2 =? 169);
    try discriminate; reflexivity.
Qed.

Lemma plainText_cons (c : ascii) (r : string) :
  plainText (String c r) = true →
  (nat_of_ascii c <? 32) = false ∧ Ascii.eqb c Json.backslash = false
  ∧ Ascii.eqb c (ascii_of_nat 10) = false ∧ plainText r = true.
Proof.
  cbn [plainText]. intros [[Hc Hb%negb_true_iff]%andb_true_iff Hr]%andb_true_iff.
  split; [by apply Nat.ltb_ge, Nat.leb_le |]. split; [done |].
  split; [| done]. apply Ascii.eqb_neq. intros ->. vm_compute in Hc. discriminate.
Qed.

(** The text of a message, quotes escaped, followed by the closing quote:
    compaction turns it into the body of a string literal, without a
    line break. *)
Lemma compact_escaped_text (n : nat) :
  ∀ message tail,
    String.length message ≤ n → plainText message = true →
    ∃ out,
      Json.compactFrom true false (escapeQuotes message +:+ String Json.quote tail)
      = out +:+ Json.compactFrom true false (String Json.quote tail)
      ∧ (∀ rest, Json.scanString (out +:+ String Json.quote rest) = Some rest)
      ∧ Str.includes out Str.nl = false.
Proof.
  induction n as [| n IH]; intros message tail Hlen Hplain.
  { destruct message; [| cbn in Hlen; lia]. by exists "". }
  destruct message as [| c r]; [by exists "" |].
  cbn [String.length] in Hlen.
  apply plainText_cons in Hplain as (Hctl & Hbs & Hnl & Hr).
  destruct (IH r tail ltac:(lia) Hr) as (outr & Hcr & Hsr & Hnr).
  set (closing := Json.compactFrom true false (String Json.quote tail)) in *.
  cbn [escapeQuotes].
  destruct (Ascii.eqb c Json.quote) eqn:Hq.
  { (* a quote: written as backslash, quote *)
    apply Ascii.eqb_eq in Hq as ->.
    exists (String Json.backslash (String Json.quote outr)).
    rewrite !sapp_cons.
    rewrite compactFrom_keep by (done || (intros; reflexivity)).
    cbv zeta. cbn [negb andb]. change (Ascii.eqb Json.backslash Json.quote) with false.
    change (Ascii.eqb Json.backslash Json.backslash) with true. cbn [negb andb].
    rewrite compactFrom_keep by (done || (intros; reflexivity)).
    cbv zeta. cbn [negb andb]. rewrite Hcr.
    split; [done |]. split.
    - intros rest. cbn [Json.scanString].
      change (Ascii.eqb Json.backslash Json.quote) with false.
      change (Ascii.eqb Json.backslash Json.backslash) with true.
      change (Json.isEscape Json.quote) with true. cbv iota. apply Hsr.
    - rewrite !includes_nl_cons. by rewrite Hnr. }
  rewrite sapp_cons.
  (* the state after a byte that is neither a quote nor a backslash *)
  assert (negb (negb false && Ascii.eqb c Json.quote) = true) as Hin
    by (by rewrite Hq).
  assert (true && negb false && Ascii.eqb c Json.backslash = false) as Hesc
    by (by rewrite Hbs).
  assert (∀ rest, Json.scanString (String c (outr +:+ String Json.quote rest))
                  = Some rest) as Hsc.
  { intros rest. cbn [Json.scanString]. by rewrite Hq, Hbs, Hctl. }
  (* the three HTML characters *)
  destruct (Ascii.eqb c "<") eqn:Hlt.
  { exists ("\u003c" +:+ outr). cbn [Json.compactFrom].
    rewrite Hlt, Hin, Hesc, Hcr, sapp_assoc. split; [done |]. split.
    - intros rest. rewrite sapp_assoc. exact (Hsr rest).
    - rewrite includes_nl_app, Hnr. reflexivity. }
  destruct (Ascii.eqb c ">") eqn:Hgt.
  { exists ("\u003e" +:+ outr). cbn [Json.compactFrom].
    rewrite Hlt, Hgt, Hin, Hesc, Hcr, sapp_assoc. split; [done |]. split.
    - intros rest. rewrite sapp_assoc. exact (Hsr rest).
    - rewrite includes_nl_app, Hnr. reflexivity. }
  destruct (Ascii.eqb c "&") eqn:Hamp.
  { exists ("\u0026" +:+ outr). cbn [Json.compactFrom].
    rewrite Hlt, Hgt, Hamp, Hin, Hesc, Hcr, sapp_assoc. split; [done |]. split.
    - intros rest. rewrite sapp_assoc. exact (Hsr rest).
    - rewrite includes_nl_app, Hnr. reflexivity. }
  (* a byte that is copied *)
  assert ((∀ c1 c2 r2,
             escapeQuotes r +:+ String Json.quote tail = String c1 (String c2 r2) →
             (nat_of_ascii c =? 226) && (nat_of_ascii c1 =? 128)
             && ((nat_of_ascii c2 =? 168) || (nat_of_ascii c2 =? 169)) = false) →
          ∃ out,
            Json.compactFrom true false
              (String c (escapeQuotes r +:+ String Json.quote tail))
            = out +:+ Json.compactFrom true false (String Json.quote tail)
            ∧ (∀ rest, Json.scanString (out +:+ String Json.quote rest) = Some rest)
            ∧ Str.includes out Str.nl = false) as Hkeep.
  { intros Hsep. exists (String c outr).
    rewrite compactFrom_keep by done. cbv zeta. cbn [negb andb].
    rewrite Hq, Hbs. cbn [negb andb]. rewrite Hcr.
    split; [done |]. split; [exact Hsc |].
    by rewrite includes_nl_cons, Hnl, Hnr. }
  destruct (nat_of_ascii c =? 226) eqn:H226; [| apply Hkeep; by intros].
  destruct r as [| c1 r1].
  { apply Hkeep. intros c1 c2 r2 [= <- _]. reflexivity. }
  cbn [escapeQuotes] in Hkeep |- *.
  destruct (Ascii.eqb c1 Json.quote) eqn:Hq1.
  { apply Hkeep. intros ? ? ? [= <- _]. reflexivity. }
  rewrite sapp_cons in Hkeep |- *.
  destruct (nat_of_ascii c1 =? 128) eqn:H128;
    [| apply Hkeep; intros ? ? ? [= <- _]; by rewrite H128].
  destruct r1 as [| c2 r2].
  { apply Hkeep. cbn [escapeQuotes].
    change ("" +:+ String Json.quote tail) with (String Json.quote tail).
    intros ? ? ? [= _ <- _]. apply andb_false_r. }
  cbn [escapeQuotes] in Hkeep |- *.
  destruct (Ascii.eqb c2 Json.quote) eqn:Hq2.
  { apply Hkeep. intros ? ? ? [= _ <- _]. apply andb_false_r. }
  rewrite sapp_cons in Hkeep |- *.
  destruct ((nat_of_ascii c2 =? 168) || (nat_of_ascii c2 =? 169)) eqn:Hsep;
    [| apply Hkeep; intros ? ? ? [= _ <- _]; rewrite Hsep; apply andb_false_r].
  (* U+2028 or U+2029: written as an escape *)
  clear Hkeep Hcr Hsr Hnr Hsc outr.
  apply plainText_cons in Hr as (_ & Hbs1 & _ & Hr1).
  apply plainText_cons in Hr1 as (_ & Hbs2 & _ & Hr2).
  cbn [String.length] in Hlen.
  destruct n as [| n]; [lia |].
  assert (String.length r2 ≤ S n) as Hlen2 by lia.
  destruct (IH r2 tail Hlen2 Hr2) as (out2 & Hc2 & Hs2 & Hn2).
  fold closing in Hc2.
  cbn [Json.compactFrom]. rewrite Hlt, Hgt, Hamp, H226, H128, Hin, Hesc.
  cbn [andb].
  destruct (nat_of_ascii c2 =? 168) eqn:H168.
  - exists ("\u2028" +:+ out2). rewrite Hc2, sapp_assoc. split; [done |]. split.
    + intros rest. rewrite sapp_assoc. exact (Hs2 rest).
    + rewrite includes_nl_app, Hn2. reflexivity.
  - cbn [orb] in Hsep. rewrite Hsep.
    exists ("\u2029" +:+ out2). rewrite Hc2, sapp_assoc. split; [done |]. split.
    + intros rest. rewrite sapp_assoc. exact (Hs2 rest).
    + rewrite includes_nl_app, Hn2. reflexivity.
Qed.

Lemma sapp_nil_l (s : string) : "" +:+ s = s.
Proof. reflexivity. Qed.

Lemma escaped_text_scans (message rest : string) :
  plainText message = true →
  Json.scanString (escapeQuotes message +:+ String Json.quote rest) = Some rest.
Proof.
  induction message as [| c r IH]; intros Hplain.
  { cbn [escapeQuotes]. rewrite sapp_nil_l. cbn [Json.scanString].
    by change (Ascii.eqb Json.quote Json.quote) with true. }
  apply plainText_cons in Hplain as (Hctl & Hbs & _ & Hr).
  cbn [escapeQuotes]. destruct (Ascii.eqb c Json.quote) eqn:Hq.
  - rewrite !sapp_cons. cbn [Json.scanString].
    change (Ascii.eqb Json.backslash Json.quote) with false.
    change (Ascii.eqb Json.backslash Json.backslash) with true.
    apply Ascii.eqb_eq in Hq as ->.
    change (Json.isEscape Json.quote) with true. cbv iota. by apply IH.
  - rewrite sapp_cons. cbn [Json.scanString]. rewrite Hq, Hbs, Hctl. by apply IH.
Qed.

(** One byte copied by the compaction, with the state that follows it. *)
Lemma compactFrom_copy (inString escaped : bool) (c : ascii) (r : string)
    (inString' escaped' : bool) :
  Ascii.eqb c "<" = false → Ascii.eqb c ">" = false → Ascii.eqb c "&" = false →
  (nat_of_ascii c =? 226) = false →
  negb inString && Json.isSpace c = false →
  (if inString then negb (negb escaped && Ascii.eqb c Json.quote)
   else Ascii.eqb c Json.quote) = inString' →
  inString && negb escaped && Ascii.eqb c Json.backslash = escaped' →
  Json.compactFrom inString escaped (String c r)
  = String c (Json.compactFrom inString' escaped' r).
Proof.
  intros Hlt Hgt Hamp H226 Hsp <- <-.
  rewrite compactFrom_keep by (done || (intros; by rewrite H226)).
  cbv zeta. by rewrite Hsp.
Qed.

Ltac flatten :=
  repeat (rewrite sapp_cons || rewrite sapp_nil_l || rewrite sapp_assoc).

Ltac copy_byte :=
  erewrite compactFrom_copy;
  [| reflexivity | reflexivity | reflexivity | reflexivity | reflexivity
   | reflexivity | reflexivity].

(** ** Scanning with more fuel *)

Lemma scan_more_fuel (fuel : nat) :
  (∀ s r, Json.scanValue fuel s = Some r → Json.scanValue (S fuel) s = Some r)
  ∧ (∀ s r, Json.scanMembers fuel s = Some r → Json.scanMembers (S fuel) s = Some r)
  ∧ (∀ s r, Json.scanElements fuel s = Some r → Json.scanElements (S fuel) s = Some r).
Proof.
  induction fuel as [| fuel (IHv & IHm & IHe)]; [by repeat split |].
  split; [| split]; intros s r.
  - intros Hs. cbn [Json.scanValue] in Hs. cbn [Json.scanValue].
    destruct s as [| c s]; [done |].
    repeat case_match; simplify_eq; try done; by (apply IHm || apply IHe).
  - intros Hs. cbn [Json.scanMembers] in Hs. cbn [Json.scanMembers].
    destruct s as [| c s]; [done |].
    destruct (Ascii.eqb c Json.quote); [| done].
    destruct (Json.scanString s) as [r1 |]; [| done].
    destruct (Json.skipSpace r1) as [| colon r2]; [done |].
    destruct (Ascii.eqb colon ":"); [| done].
    destruct (Json.scanValue fuel (Json.skipSpace r2)) as [r3 |] eqn:Hv; [| done].
    rewrite (IHv _ _ Hv).
    destruct (Json.skipSpace r3) as [| sep r4]; [done |].
    destruct (Ascii.eqb sep ","); [by apply IHm |]. done.
  - intros Hs. cbn [Json.scanElements] in Hs. cbn [Json.scanElements].
    destruct (Json.scanValue fuel s) as [r1 |] eqn:Hv; [| done].
    rewrite (IHv _ _ Hv).
    destruct (Json.skipSpace r1) as [| sep r2]; [done |].
    destruct (Ascii.eqb sep ","); [by apply IHe |]. done.
Qed.

Lemma scanValue_mono (fuel fuel' : nat) (s r : string) :
  fuel ≤ fuel' → Json.scanValue fuel s = Some r → Json.scanValue fuel' s = Some r.
Proof.
  induction 1 as [| fuel' _ IH]; [done |].
  intros Hs. by apply scan_more_fuel, IH.
Qed.

(** One member of an object whose value is followed at once by a comma or
    by the closing brace. *)
Lemma scanMembers_member (fuel : nat) (key value : string) (sep : ascii)
    (rest : string) :
  Json.scanString key = Some (String ":" value) →
  Json.skipSpace value = value →
  Json.scanValue fuel value = Some (String sep rest) →
  Json.isSpace sep = false →
  Json.scanMembers (S fuel) (String Json.quote key)
  = if Ascii.eqb sep "," then Json.scanMembers fuel (Json.skipSpace rest)
    else if Ascii.eqb sep "}" then Some rest
    else None.
Proof.
  intros Hkey Hsp Hval Hsep. cbn [Json.scanMembers].
  change (Ascii.eqb Json.quote Json.quote) with true. cbv iota.
  rewrite Hkey.
  change (Json.skipSpace (String ":" value)) with (String ":" value). cbv iota.
  change (Ascii.eqb ":" ":") with true. cbv iota.
  rewrite Hsp, Hval. cbn [Json.skipSpace]. by rewrite Hsep.
Qed.

Lemma valid_intro (fuel : nat) (s : string) :
  Json.skipSpace s = s → fuel ≤ S (String.length s) →
  Json.scanValue fuel s = Some "" → Json.valid s = true.
Proof.
  intros Hsp Hfuel Hs. unfold Json.valid. rewrite Hsp.
  by rewrite (scanValue_mono _ _ _ _ Hfuel Hs).
Qed.

(** An object with one member, whose value is a string literal. *)
Lemma scanValue_object1 (key text rest : string) :
  (∀ r, Json.scanString (key +:+ String Json.quote r) = Some r) →
  Json.scanString text = Some (String "}" rest) →
  Json.scanValue 3
    (String "{" (String Json.quote
       (key +:+ String Json.quote (String ":" (String Json.quote text)))))
  = Some rest.
Proof.
  intros Hkey Htext.
  change (Json.scanValue 3 (String "{" (String Json.quote ?k)))
    with (Json.scanMembers 2 (String Json.quote k)).
  erewrite scanMembers_member;
    [| apply Hkey | reflexivity | exact Htext | reflexivity].
  reflexivity.
Qed.

(** The envelope around it: [type], then [data]. *)
Lemma scanValue_envelope (type object : string) :
  (∀ r, Json.scanString (type +:+ String Json.quote r) = Some r) →
  Json.skipSpace object = object →
  Json.scanValue 3 object = Some "}" →
  Json.scanValue 6
    (String "{" (String Json.quote
       ("type" +:+ String Json.quote (String ":" (String Json.quote
          (type +:+ String Json.quote (String "," (String Json.quote
             ("data" +:+ String Json.quote (String ":" object))))))))))
  = Some "".
Proof.
  intros Htype Hsp Hobject.
  change (Json.scanValue 6 (String "{" (String Json.quote ?k)))
    with (Json.scanMembers 5 (String Json.quote k)).
  erewrite scanMembers_member;
    [| reflexivity | reflexivity | apply (Htype (String "," _)) | reflexivity].
  change (Ascii.eqb "," ",") with true. cbv iota.
  change (Json.skipSpace (String Json.quote ?r)) with (String Json.quote r).
  erewrite scanMembers_member;
    [| reflexivity | exact Hsp
     | exact Hobject | reflexivity].
  reflexivity.
Qed.

Lemma plainKey_plainText (s : string) :
  plainKey s = true → plainText s = true ∧ escapeQuotes s = s.
Proof.
  induction s as [| c s IH]; [done |]. cbn [plainKey plainText escapeQuotes].
  intros [[[Hc Hb]%andb_true_iff Hq%negb_true_iff]%andb_true_iff Hs]%andb_true_iff.
  destruct (IH Hs) as [-> ->]. by rewrite Hc, Hb, Hq.
Qed.

(** X20: a chat message without control characters and backslashes is
    always delivered.  The bytes [sendChatMessage] writes for it are one
    line: a well-formed JSON value with no line break in it, followed by
    the newline.  Double quotes in the message are covered; the inputs
    that fail are among those with a backslash or a control character. *)
Theorem plain_message_is_one_line (message : string) :
  plainText message = true →
  isEnvelopeLine (writtenLine (chatMsg message)) = true.
Proof.
  intros Hplain.
  destruct (compact_escaped_text (String.length message) message "}" (le_n _) Hplain)
    as (out & Hc & Hs & Hn).
  pose proof (escaped_text_scans message "}" Hplain) as He.
  unfold writtenLine, marshal, chatMsg, MsgChat, Json.marshalRaw, Str.dq.
  cbn [Data Type_]. rewrite !sapp_cons, !sapp_nil_l.
  set (X := escapeQuotes message +:+ _).
  assert (Json.scanString X = Some "}") as HX by exact He.
  assert (Json.compactFrom true false X = out +:+ String Json.quote "}") as HcX
    by exact Hc.
  clearbody X. clear He Hc.
  cbn [String.eqb].
  match goal with |- context [Json.valid ?d] => set (D := d) end.
  assert (Json.valid D = true) as Hv.
  { subst D. apply (valid_intro 3); [reflexivity | cbn [String.length]; lia |].
    apply (scanValue_object1 "message" X ""); [intros r; reflexivity | exact HX]. }
  assert (Json.compactFrom false false D
          = String "{" (String Json.quote ("message" +:+ String Json.quote
              (String ":" (String Json.quote (out +:+ String Json.quote "}"))))))
    as Hcomp.
  { subst D. repeat copy_byte.
    match goal with
    | |- context [Json.compactFrom ?i ?e X] =>
        change (Json.compactFrom i e X) with (Json.compactFrom true false X)
    end.
    rewrite HcX. reflexivity. }
  rewrite Hv, Hcomp. clear D Hv Hcomp.
  cbn [mbind option_bind default]. unfold id.
  apply isEnvelopeLine_intro; flatten.
  - apply (valid_intro 6); [reflexivity | cbn [String.length]; lia |].
    apply (scanValue_envelope "chat"); [intros r; reflexivity | reflexivity |].
    apply (scanValue_object1 "message" (out +:+ String Json.quote "}}") "}");
      [intros r; reflexivity | apply Hs].
  - rewrite !includes_nl_cons, includes_nl_app, !includes_nl_cons, Hn. reflexivity.
Qed.

(** X21: the handshake line.  For an API key without control characters,
    backslashes and double quotes, the bytes [startAgent] writes to the
    new process are one line holding a well-formed JSON value; and when
    the spawn fails, nothing is written and an [errMsg] is returned. *)
Theorem plain_key_handshake (spawn : SpawnOutcome) (apiKey : string) :
  plainKey apiKey = true →
  match spawn with
  | Spawned process stdin stdout =>
      ∃ line, startAgent spawn apiKey
              = (Some (stdin, line), agentStartedMsg process stdin stdout)
              ∧ isEnvelopeLine line = true
  | _ => ∃ reason, startAgent spawn apiKey = (None, errMsg reason)
  end.
Proof.
  intros Hkey. destruct spawn as [| reason | reason | reason | process stdin stdout];
    try (by eexists).
  eexists. split; [reflexivity |].
  apply plainKey_plainText in Hkey as [Hplain Hesc].
  destruct (compact_escaped_text (String.length apiKey) apiKey "}" (le_n _) Hplain)
    as (out & Hc & Hs & Hn).
  pose proof (escaped_text_scans apiKey "}" Hplain) as He.
  rewrite Hesc in Hc, He.
  unfold writtenLine, marshal, initMsg, MsgInit, Json.marshalRaw, Str.dq.
  cbn [Data Type_]. rewrite !sapp_cons, !sapp_nil_l.
  set (X := apiKey +:+ _).
  assert (Json.scanString X = Some "}") as HX by exact He.
  assert (Json.compactFrom true false X = out +:+ String Json.quote "}") as HcX
    by exact Hc.
  clearbody X. clear He Hc.
  cbn [String.eqb].
  match goal with |- context [Json.valid ?d] => set (D := d) end.
  assert (Json.valid D = true) as Hv.
  { subst D. apply (valid_intro 3); [reflexivity | cbn [String.length]; lia |].
    apply (scanValue_object1 "apiKey" X ""); [intros r; reflexivity | exact HX]. }
  assert (Json.compactFrom false false D
          = String "{" (String Json.quote ("apiKey" +:+ String Json.quote
              (String ":" (String Json.quote (out +:+ String Json.quote "}"))))))
    as Hcomp.
  { subst D. repeat copy_byte.
    match goal with
    | |- context [Json.compactFrom ?i ?e X] =>
        change (Json.compactFrom i e X) with (Json.compactFrom true false X)
    end.
    rewrite HcX. reflexivity. }
  rewrite Hv, Hcomp. clear D Hv Hcomp.
  cbn [mbind option_bind default]. unfold id.
  apply isEnvelopeLine_intro; flatten.
  - apply (valid_intro 6); [reflexivity | cbn [String.length]; lia |].
    apply (scanValue_envelope "init"); [intros r; reflexivity | reflexivity |].
    apply (scanValue_object1 "apiKey" (out +:+ String Json.quote "}}") "}");
      [intros r; reflexivity | apply Hs].
  - rewrite !includes_nl_cons, includes_nl_app, !includes_nl_cons, Hn. reflexivity.
Qed.

(** A run of X20: a message with quotes and angle brackets. *)
Lemma plain_message_is_one_line_witness :
  isEnvelopeLine
    (writtenLine (chatMsg ("say " +:+ Str.dq +:+ "hi" +:+ Str.dq +:+ " <now>")))
  = true.
Proof.
  apply (plain_message_is_one_line
           ("say " +:+ Str.dq +:+ "hi" +:+ Str.dq +:+ " <now>")).
  reflexivity.
Defined.

(** A run of X21: a successful spawn. *)
Lemma plain_key_handshake_witness :
  ∃ line, startAgent (Spawned 1 2 3) "sk-123"
          = (Some (2, line), agentStartedMsg 1 2 3)
          ∧ isEnvelopeLine line = true.
Proof.
  apply (plain_key_handshake (Spawned 1 2 3) "sk-123"). reflexivity.
Defined.

End EnvelopeFacts.
